(* ===== verification/_CoqProject ===== *)
-Q . S2P
Prelude.v
JsObject.v
Types.v
FormRules.v
ApiError.v
QueryCache.v
Services.v
Profile.v
Pages.v
JsNumber.v
Endpoints.v
JsSort.v
Latihan1.v
Latihan2.v
Pagination.v
Navigation.v
Mutations.v
Modals.v
PostsPages.v
PostCard.v
ListPages.v
App.v
InFlight.v
