(* ===== verification/Prelude.v ===== *)
(** * A verification development of the fasilitas-dana referrer admin console

    The repository (src/src/) is a Next.js admin console over an external
    REST service (GoRest style): an operator picks an "active profile"
    among the users and, on that user's behalf, manages todos and posts,
    and comments on posts.  Its parts and how they interact:

    - types/*.ts: the transported entities (User, Todo, and Post and
      Comment, whose type files are not in the repository) and the enums
      of gender, user status and todo status.
    - utils/apiError.ts: [handleApiError] normalises a failed HTTP call
      into the value the services rethrow; [formatApiErrors] turns a list
      of field errors into an object from field to message, which the
      mutation error handlers route onto form fields and toasts.
    - utils/axios.ts and services/*.service.ts: one function per REST
      endpoint, each [try { await instance.<verb>(url, body) } catch (e)
      { throw handleApiError(e) }].
    - the TanStack Query client of pages/_app.tsx: a cache from query
      keys (JS arrays) to the last fetched response; every mutation
      handler, on success, calls [invalidateQueries] with a key prefix.
    - context/UserContext.tsx with components/users/UserTable.tsx: the
      process-wide active profile and the guard that refuses inactive
      users.
    - the pages and components that build query keys, read the
      pagination header, start mutations and react to their outcome
      (success: toast, invalidation, close the modal; error: toast,
      field errors).
    - pages/latihan/index.tsx and 2.tsx: stand-alone exercise functions
      (map/filter/sort/reduce over constant arrays) rendered as text.
    - components/layout/Header.tsx: the navigation menu, and the avatar
      and name of the active profile.

    Files of the development, in dependency order:

    - Prelude.v (this file): the JavaScript values the code compares and
      puts in query keys ([jsval], truthiness, strict equality), the
      decimal rendering [`${n}`] and its inverse, [js_split] (JavaScript's
      [split]), [toUpperCase] on ASCII,
      exceptions ([JsError]) with an error monad and [reduceM] (a
      [reduce] whose callback may throw), [first_occ], [run_clicks]
      (a sequence of clicks on a page), the hint databases and the
      shared list lemmas.
    - JsObject.v: plain objects as association lists in creation order:
      [o[k]], [o[k] = v], the lookup that falls back to
      [Object.prototype], and [Object.entries] with its array-index
      ordering; the [accumulate] pattern [acc[K(x)] = step(acc[K(x)], x)]
      and its characterisation.
    - Types.v: the entity records and enums of types/*.ts and the antd
      UI effects ([UiEffect]) that handlers emit.
    - FormRules.v: the validation rules of the forms' [Form.Item]s as
      antd checks them on submit: [required] on a text input (the empty
      string fails) and async-validator's [type: 'email'] test, as an
      executable recogniser of its pattern.
    - ApiError.v: [handleApiError] and [formatApiErrors] of
      utils/apiError.ts, over a model of the thrown JavaScript values.
    - QueryCache.v: the query cache, with the interface [QueryClient]
      (a typeclass with laws) that the handlers are verified against, and
      its list implementation following TanStack Query's
      [partialMatchKey] prefix matching.
    - Services.v: the request each service function builds and
      [service_call], which runs it against a transport and normalises
      the failure.
    - Profile.v: the active-profile state, [handleSetAsProfile] and the
      row button's disabled flag and tooltip.
    - Pages.v: the [useQuery] calls of the list views (key, enabled
      flag, query function) and what a page reads of a query's state.
    - JsNumber.v: [Number(s)] and [parseInt(s)] on strings.
    - Endpoints.v: a router reading the services' requests back, the
      REST endpoint table of the spec, and the refinement between them.
    - JsSort.v: [Array.prototype.sort] with a comparator (stable).
    - Latihan1.v and Latihan2.v: the functions of the two exercise
      pages.
    - Pagination.v: the pagination total read from the
      [x-pagination-total] header.
    - Navigation.v: the menu of components/layout/Header.tsx, its
      desktop links and the drawer's selected key, and the header as a
      component ([HeaderView]): its resize handler, drawer flag and
      render.
    - Mutations.v: every [useMutation] of UserTable, UserForm,
      TodosForm, the todos page, PostsForm and PostsCard as a request
      ([mutationFn]), a success effect list and an error handler, and the
      submit and action handlers that start them.
    - Modals.v: the create and edit dialogs of the users, todos and
      posts pages as a state machine of open flag, edited item and form
      store, under antd's mounting rules.
    - PostsPages.v: pages/posts/all.tsx and my.tsx: their local state
      (the two post dialogs as [ModalForm] machines, my.tsx's redirect
      prompt, page and size), handlers, my.tsx's effect, the render with
      each card's owner-only buttons, and the step relation of the clicks
      a render offers.
    - PostCard.v: one card of components/posts/PostsCard.tsx: its
      comments panel, comment form and confirm dialogs, with the same
      render, clicks and step relation.
    - ListPages.v: pages/todos/index.tsx, and pages/users/index.tsx
      with components/users/UserTable.tsx, in the same way: state,
      effect, render, clicks with the mutations they start, a labelled
      step relation and [run_clicks].
    - App.v: the application state (active profile, query cache, UI
      effects) over any [QueryClient], the interpretation of effects,
      [mutate], and the step relation of user actions and fetches.
    - InFlight.v: a form dialog with its form's two [useMutation]
      hooks, composed with App.v: the requests in flight tagged with the
      form mount that sent them, the submit button's label and
      [loading] flag, and the settling of requests in any order with
      the user's clicks, whose callbacks run [App.settle] and whose
      [onSubmit] closes the dialog.

    What the theorems show (C-numbers are the claim ids of the manifest):
    success of a mutation invalidates exactly the key-spaces of the
    mutated resource (C1), a failed mutation leaves the cache untouched
    (C2), and the active profile is never an inactive user in any
    reachable state (C3, by induction on the step relation).  Every
    service request is routed with its arguments read back, and it is a
    row of the spec's endpoint table exactly for the sixteen services
    other than [userApi.getUser] and [todoApi.getTodos], which no page
    calls (C4), so a URL determines the ids, page and size of the call
    that built it (C15).  The user dialog, kept mounted, reopens for an
    edit with the previous user's fields, so Update sends them (C5),
    while the posts dialogs always open with the fields of what they
    open for (C13, an invariant of the dialog's step relation).  Every
    submit goes through the forms' rules (FormRules.v), so these
    statements say exactly when a request is sent: for every stored
    item, the request when its values pass the rules and nothing
    otherwise (C5, C13, C31, C34), not only under a hypothesis that
    they pass.
    [formatApiErrors] keeps the last message of each field, except a
    field named [__proto__] (C6), and a failure without response body
    surfaces the general message (C7); server field errors reach the
    form and a non-array rejection is swallowed (C8, C9); the profile
    button agrees with its tooltip (C10); query keys determine the fetch
    (C11) and change with the page (C19); the comment form acts for the
    selected profile (C16); the pagination total reads the header
    back (C18).  The drawer's selected key is the route's first segment
    on every route, so it marks an item exactly on the routes of the
    menu's links and on the root, never on the posts pages (C20).  For
    the exercise pages, where the task comments above the code and the
    code differ: [analyzeTransactions] totals each user once over all
    transactions instead of filtering those above 100 first (C21), and
    marks a user high-value by total rather than per transaction
    (C22); the product grouping is
    exact or throws on a category named like an [Object.prototype]
    property (C23); the class grouping of 2.tsx ends with each class's
    mean although it recomputes it after every push (C24), every class
    sorted and averaging at least 70 (C25); [organizeStudents] is the
    unique stable descending sort of the passing students (C26);
    [transformNumbers] keeps exactly the inputs its comment's rules
    keep, and on the comment's example returns [15], not the output the
    comment shows (C38).  On
    the posts pages, a post held by All Posts' edit dialog
    is always the profile's own (C29, an invariant of the page's step
    relation); My Posts without a profile shows only a prompt that leads
    to /users (C30); Edit on a card opens the dialog on that post with
    its own values, through the page's simulation of the dialog machine
    (C31); and My Posts' unconditional ownership agrees with All Posts'
    id comparison when the endpoint keeps its contract (C32).  The todos
    page starts no mutation without a profile (C33, an invariant); its
    stale create happens through its own clicks (C34); its deletions go
    through the confirmation (C35); and the users page's create dialog
    posts the same user twice when reopened after a create (C36).  A
    post card deletes only after a confirmation it opens for the owner
    or the comment's author (C37), starts nothing for a visitor without
    a profile, and clears its comment box after a successful
    comment (C39).  Three properties of the pages as running programs:
    neither posts page can trap the user in a dialog (C17, a liveness
    property: from every reachable state some offered clicks close
    both dialogs, or the prompt leads away); every todo the todos page
    sends has one of the two status values (C27, the typing of the
    status string by the form's [Select]); and the render-effect cycle
    of my.tsx settles within two runs of its effect (C40, termination
    of [settle] with fuel 2, which is enough for any state).  Requests
    in flight (InFlight.v): the loading button lets each mount of a form
    send one request at a time, so the users and todos dialogs, kept
    mounted, never have two in flight (C12, an invariant of the
    interleaving of clicks and answers); an answer runs the callbacks
    as [App.settle] does and closes the dialog exactly on success (C14,
    the composition of the dialog with App.v); and a posts dialog,
    destroyed on close, sends a second post (both passing the required
    rules) while the first is in flight once cancelled and reopened, the first success then closing
    the dialog of the second (C28).

    Numbers: JavaScript numbers that the code uses as ids, pages, sizes,
    amounts and scores are integers; they are modelled as [Z] (every
    value the code handles is an integer well below 2^53, where
    JavaScript numbers are exact).  The class average of 2.tsx is the
    exact rational of which JavaScript's division is the rounding.
    Fuel: the only definition with fuel is [PostsPage.settle], the
    render-effect cycle of my.tsx, where [None] is running out; two runs
    are enough from every state (C40), since the effect's second run
    changes nothing.  Every other definition is structurally recursive,
    and [reduceM] stops at the end of its list.

    Not modelled: the markup of the rendering (tables, lists, layout,
    the loading spinner) beyond the values each view shows, the axios
    bearer-token interceptor beyond the request it builds, dayjs date
    formatting, and network timing beyond the order in which requests
    in flight settle.  *)

From Stdlib Require Import ZArith String Ascii DecimalString DecimalZ.
From stdpp Require Import base strings list sets sorting relations.

Declare Scope js_scope.
Delimit Scope js_scope with js.
Open Scope Z_scope.

(** ** JavaScript values

    The values the code stores in query keys and compares with [===]:
    [undefined], numbers (integers here) and strings. *)

Inductive jsval :=
| JUndef
| JNum (n : Z)
| JStr (s : string).

#[export] Instance jsval_eq_dec : EqDecision jsval.
Proof. solve_decision. Defined.

(** [a === b] on these values. *)
Definition js_eqb (a b : jsval) : bool := bool_decide (a = b).

(** [!!v]: [undefined], [0] and [""] are falsy. *)
Definition js_truthy (v : jsval) : bool :=
  match v with
  | JUndef => false
  | JNum n => negb (n =? 0)
  | JStr s => negb (String.eqb s "")
  end.

(** [o?.f] where [o] may be missing: [undefined] when it is. *)
Definition js_opt_field {A} (f : A -> jsval) (o : option A) : jsval :=
  match o with
  | Some a => f a
  | None => JUndef
  end.

Notation "a === b" := (js_eqb a b) (at level 70, no associativity) : js_scope.

(** ** Numbers in template literals

    [`${n}`] for an integer [n]: its decimal digits, with a leading minus
    sign when negative and no leading zeros. *)

Definition js_show (n : Z) : string :=
  NilZero.string_of_int (Z.to_int n).

(** [Array.prototype.join(sep)] of strings. *)
Definition js_join (sep : string) (l : list string) : string :=
  match l with
  | [] => ""
  | x :: xs => String.append x (String.concat "" (map (String.append sep) xs))
  end.

(** The inverse, reading a decimal integer as the services' URLs are
    read by the server. *)
Definition js_read (s : string) : option Z :=
  match NilZero.int_of_string s with
  | Some d => Some (Z.of_int d)
  | None => None
  end.

(** ** Exceptions

    A JavaScript exception the model raises: a [TypeError] from calling
    something that is not a function or reading a property of
    [undefined], or an [Error] the code throws itself.  A computation that may throw returns [inl] of the
    exception or [inr] of its value, with stdpp's monad notation. *)

Inductive JsError :=
| TypeError (message : string)
| Error (message : string).        (** [new Error(message)] *)

#[export] Instance JsError_eq_dec : EqDecision JsError.
Proof. solve_decision. Defined.

#[export] Instance sum_ret {E} : MRet (sum E) := λ A x, inr x.
#[export] Instance sum_bind {E} : MBind (sum E) :=
  λ A B f m, match m with inl e => inl e | inr x => f x end.

(** [arr.reduce(f, acc)] with a callback that may throw: the first
    exception stops the loop. *)
Fixpoint reduceM {E A B} (f : B -> A -> sum E B) (l : list A) (acc : B) : sum E B :=
  match l with
  | [] => mret acc
  | x :: l' => f acc x ≫= reduceM f l'
  end.

(** ** [s.toUpperCase()]

    On the ASCII letters: [a]-[z] become [A]-[Z], every other character
    is kept.  (Non-ASCII letters, which JavaScript also maps, do not
    occur in the program's data.) *)
Definition ascii_upper (c : ascii) : ascii :=
  let n := nat_of_ascii c in
  if (97 <=? n)%nat && (n <=? 122)%nat then ascii_of_nat (n - 32) else c.

Definition toUpperCase (s : string) : string :=
  string_of_list_ascii (map ascii_upper (list_ascii_of_string s)).

(** ** [s.split(sep)] with a one-character separator *)
Fixpoint split_chars (sep : ascii) (l : list ascii) : list (list ascii) :=
  match l with
  | [] => [[]]
  | c :: l' =>
      let rest := split_chars sep l' in
      if (c =? sep)%char then [] :: rest
      else match rest with
           | p :: ps => (c :: p) :: ps
           | [] => [[c]]
           end
  end.

Definition js_split (sep : ascii) (s : string) : list string :=
  map string_of_list_ascii (split_chars sep (list_ascii_of_string s)).

(** The sum of a list of integers. *)
Definition sumZ (l : list Z) : Z := fold_right Z.add 0 l.

(** ** Distinct elements in order of first occurrence

    The keys of an object built by assigning [o[k(x)]] for each [x] of a
    list, in creation order. *)
Fixpoint first_occ `{EqDecision A} (l : list A) : list A :=
  match l with
  | [] => []
  | x :: l' => x :: filter (λ y, y <> x) (first_occ l')
  end.

(** ** The hint database of the development *)

Create HintDb model discriminated.
Create Rewrite HintDb model_rw.

Ltac invc H := inversion H; subst; clear H.

(** ** Shared lemmas *)

Lemma js_eqb_true a b : (a === b)%js = true <-> a = b.
Proof. unfold js_eqb. apply bool_decide_eq_true. Qed.

Lemma js_eqb_refl a : (a === a)%js = true.
Proof. by apply js_eqb_true. Qed.

(** [mapM] in the option monad, one element at a time. *)
Lemma mapM_cons_Some {A B} (f : A -> option B) x l y ys :
  f x = Some y -> mapM f l = Some ys -> mapM f (x :: l) = Some (y :: ys).
Proof. intros Hx Hl. simpl. by rewrite Hx, Hl. Qed.

(** A property kept by every step holds all along a path. *)
Lemma rtc_invariant {A} (R : relation A) (P : A -> Prop) x y :
  (forall a b, P a -> R a b -> P b) -> P x -> rtc R x y -> P y.
Proof. intros Hstep Hx Hr. induction Hr; eauto. Qed.

(** ** Sequences of clicks

    A page offers a click [e] in state [s] when [offered s e]; the click
    changes the state by [handle] and starts [action].  [run_clicks]
    performs a sequence of clicks and fails on one the page does not
    offer. *)
Section Clicks.
Context {S E A : Type} (offered : S -> E -> bool) (handle : E -> S -> S) (action : E -> S -> A).

Fixpoint run_clicks (es : list E) (s : S) : option (list A * S) :=
  match es with
  | [] => Some ([], s)
  | e :: es' =>
      if offered s e then
        match run_clicks es' (handle e s) with
        | Some (acts, s') => Some (action e s :: acts, s')
        | None => None
        end
      else None
  end.

(** A run is a path of any step relation that takes the offered clicks. *)
Lemma run_clicks_rtc (R : S -> A -> S -> Prop) es s acts s' :
  (forall s e, offered s e = true -> R s (action e s) (handle e s)) ->
  run_clicks es s = Some (acts, s') -> rtc (λ x y, exists a, R x a y) s s'.
Proof.
  intros HR. revert s acts. induction es as [|e es IH]; simpl; intros s acts.
  - intros [= _ <-]. apply rtc_refl.
  - destruct (offered s e) eqn:Ho; [|done].
    destruct (run_clicks es (handle e s)) as [[acts' s1]|] eqn:Hr; [|done].
    intros [= _ <-]. eapply rtc_l; [exists (action e s); exact (HR s e Ho)|]. by eapply IH.
Qed.

End Clicks.

(** The decisions a render takes on a missing profile or an empty
    list. *)
Lemma bool_decide_is_Some_None {A} : bool_decide (is_Some (@None A)) = false.
Proof. apply bool_decide_eq_false_2. by intros []. Qed.

Lemma bool_decide_elem_of_nil `{EqDecision A} (x : A) : bool_decide (x ∈ @nil A) = false.
Proof. apply bool_decide_eq_false_2, not_elem_of_nil. Qed.

Lemma js_show_read n : js_read (js_show n) = Some n.
Proof.
  unfold js_read, js_show.
  rewrite NilZero.isi.
  - by rewrite DecimalZ.of_to.
  - intros Hd. pose proof (DecimalZ.to_of (Decimal.Pos Decimal.Nil)) as H.
    rewrite <- Hd, DecimalZ.of_to in H. rewrite Hd in H. discriminate.
  - intros Hd. pose proof (DecimalZ.to_of (Decimal.Neg Decimal.Nil)) as H.
    rewrite <- Hd, DecimalZ.of_to in H. rewrite Hd in H. discriminate.
Qed.

Lemma js_show_inj n m : js_show n = js_show m -> n = m.
Proof.
  intros H. apply (f_equal js_read) in H. rewrite !js_show_read in H.
  by injection H.
Qed.

Lemma reduceM_app {E A B} (f : B -> A -> sum E B) l1 l2 acc :
  reduceM f (l1 ++ l2) acc = reduceM f l1 acc ≫= reduceM f l2.
Proof.
  revert acc. induction l1 as [|x l1 IH]; intros acc; simpl; [done|].
  destruct (f acc x); simpl; [done|]. apply IH.
Qed.

(** A loop whose callback does not throw on the elements it meets is
    [fold_left]. *)
Lemma reduceM_fold {E A B} (P : A -> Prop) (f : B -> A -> sum E B) (g : B -> A -> B) l acc :
  (forall b x, P x -> f b x = inr (g b x)) -> Forall P l ->
  reduceM f l acc = inr (fold_left g l acc).
Proof.
  intros Hf Hl. revert acc. induction Hl as [|x l Hx _ IH]; intros acc; simpl; [done|].
  rewrite Hf by done. apply IH.
Qed.

(** A sorted list stays sorted under a map that is monotone on its
    elements. *)
Lemma Sorted_map_impl {A B} (R : relation A) (R' : relation B) (P : A -> Prop) (f : A -> B) l :
  (forall a b, P a -> P b -> R a b -> R' (f a) (f b)) ->
  Forall P l -> Sorted R l -> Sorted R' (map f l).
Proof.
  intros Hf Hall Hs. induction Hs as [|a l Hs IH Hhd]; simpl; constructor.
  - apply IH. by apply Forall_cons in Hall as [_ ?].
  - destruct Hhd as [|b l' Hab]; simpl; constructor.
    apply Forall_cons in Hall as [Ha Hl]. apply Forall_cons in Hl as [Hb _]. auto.
Qed.

Lemma filter_Forall_not {A} (P : A -> Prop) `{!forall x, Decision (P x)} l :
  Forall (λ x, ~ P x) l -> filter P l = [].
Proof. induction 1; [done|]. by rewrite filter_cons_False. Qed.

Section FirstOcc.
Context `{EqDecision A}.
Implicit Types (l : list A) (x : A).

Lemma elem_of_first_occ x l : x ∈ first_occ l <-> x ∈ l.
Proof.
  induction l as [|y l IH]; simpl; [done|].
  rewrite !elem_of_cons, list_elem_of_filter, IH. destruct (decide (x = y)); naive_solver.
Qed.

Lemma NoDup_first_occ l : NoDup (first_occ l).
Proof.
  induction l as [|y l IH]; simpl; constructor.
  - rewrite list_elem_of_filter. naive_solver.
  - by apply NoDup_filter.
Qed.

Lemma first_occ_snoc l x :
  first_occ (l ++ [x]) = first_occ l ++ (if decide (x ∈ l) then [] else [x]).
Proof.
  induction l as [|y l IH]; simpl; [by rewrite filter_nil|].
  rewrite IH, filter_app. f_equal. f_equal.
  destruct (decide (x ∈ l)), (decide (x ∈ y :: l)); [done|set_solver| |].
  - rewrite filter_cons_False; [done|set_solver].
  - rewrite filter_cons_True; [done|set_solver].
Qed.

End FirstOcc.

(** A key of the list has at least one element. *)
Lemma filter_first_occ_nonnil `{EqDecision B} {A} (f : A -> B) l k :
  k ∈ first_occ (map f l) -> filter (λ x, f x = k) l <> [].
Proof.
  intros Hk Hnil. apply elem_of_first_occ, list_elem_of_fmap in Hk as [x [-> Hx]].
  by apply (filter_nil_not_elem_of _ _ x Hnil).
Qed.

(** A sublist of a sorted list is sorted. *)
Lemma Sorted_filter {A} (R : relation A) `{!Transitive R} (P : A -> Prop)
    `{!forall x, Decision (P x)} l :
  Sorted R l -> Sorted R (filter P l).
Proof.
  intros Hs. apply StronglySorted_Sorted. apply Sorted_StronglySorted in Hs; [|done].
  induction Hs as [|x l _ IH Hx]; [constructor|]. rewrite filter_cons.
  case_decide; [|done]. constructor; [done|].
  apply Forall_forall. intros y Hy. apply list_elem_of_filter in Hy as [_ Hy].
  rewrite Forall_forall in Hx. by apply Hx.
Qed.

Lemma list_ascii_of_string_app s1 s2 :
  list_ascii_of_string (s1 ++ s2) = (list_ascii_of_string s1 ++ list_ascii_of_string s2)%list.
Proof. induction s1 as [|c s1 IH]; simpl; [done|]. by rewrite IH. Qed.

Lemma split_chars_no_sep sep p : sep ∉ p -> split_chars sep p = [p].
Proof.
  induction p as [|c p IH]; intros Hp; simpl; [done|].
  rewrite IH by set_solver. by rewrite (proj2 (Ascii.eqb_neq c sep)) by set_solver.
Qed.

Lemma split_chars_sep sep p r :
  sep ∉ p -> split_chars sep (p ++ sep :: r)%list = p :: split_chars sep r.
Proof.
  induction p as [|c p IH]; intros Hp; simpl; [by rewrite Ascii.eqb_refl|].
  rewrite IH by set_solver. by rewrite (proj2 (Ascii.eqb_neq c sep)) by set_solver.
Qed.

Lemma split_chars_nonnil sep l : exists q qs, split_chars sep l = q :: qs.
Proof.
  destruct l as [|c l]; simpl; [by eexists _, _|].
  destruct (c =? sep)%char; [by eexists _, _|]. destruct (split_chars sep l); by eexists _, _.
Qed.

Lemma split_chars_app_nosep sep p r q qs :
  sep ∉ p -> split_chars sep r = q :: qs -> split_chars sep (p ++ r)%list = (p ++ q)%list :: qs.
Proof.
  intros Hp Hr. induction p as [|c p IH]; simpl; [done|].
  rewrite IH by set_solver. by rewrite (proj2 (Ascii.eqb_neq c sep)) by set_solver.
Qed.

Lemma split_chars_cons_sep sep r qs :
  split_chars sep r = qs -> split_chars sep (sep :: r) = [] :: qs.
Proof. intros <-. simpl. by rewrite Ascii.eqb_refl. Qed.

Lemma split_chars_cons_other sep c r q qs :
  c <> sep -> split_chars sep r = q :: qs -> split_chars sep (c :: r) = (c :: q) :: qs.
Proof. intros Hc Hr. simpl. by rewrite (proj2 (Ascii.eqb_neq c sep)), Hr by done. Qed.

Lemma sumZ_app l1 l2 : sumZ (l1 ++ l2) = sumZ l1 + sumZ l2.
Proof. induction l1 as [|x l1 IH]; simpl; [done|]. unfold sumZ in *. simpl. lia. Qed.

Lemma filter_map {A B} (P : B -> Prop) `{!forall x, Decision (P x)} (f : A -> B) l :
  filter P (map f l) = map f (filter (λ x, P (f x)) l).
Proof.
  induction l as [|x l IH]; simpl; [done|]. rewrite !filter_cons.
  case_decide; simpl; by rewrite IH.
Qed.

Lemma filter_neq_map `{EqDecision A, EqDecision B} (f : A -> B) x l :
  (forall x y, f x = f y -> x = y) ->
  filter (λ y, y <> f x) (map f l) = map f (filter (λ y, y <> x) l).
Proof.
  intros Hf. induction l as [|y l IH]; simpl; [done|]. rewrite !filter_cons.
  case_decide as H1; case_decide as H2; simpl; rewrite IH; try done; exfalso.
  - by apply H1; rewrite H2.
  - by apply H2, Hf.
Qed.

Lemma first_occ_map `{EqDecision A, EqDecision B} (f : A -> B) l :
  (forall x y, f x = f y -> x = y) -> first_occ (map f l) = map f (first_occ l).
Proof.
  intros Hf. induction l as [|x l IH]; simpl; [done|]. by rewrite IH, filter_neq_map.
Qed.

#[export] Hint Rewrite js_eqb_refl js_show_read @bool_decide_is_Some_None @bool_decide_elem_of_nil : model_rw.
#[export] Hint Resolve js_show_inj : model.
