(* ===== verification/JsObject.v ===== *)
(** * JavaScript plain objects

    A JS object used as a dictionary ([Record<string, V>], an object
    literal written through [obj[k] = v]) as an association list in
    property-creation order, with the lookup [o[k]], the assignment
    [o[k] = v] and [Object.entries], which lists the array-index keys
    (canonical decimals in [0, 2^32 - 2]) first in ascending numeric
    order and then the other keys in creation order.  Used by
    src/src/utils/apiError.ts ([formatApiErrors]) and by the
    accumulators of src/src/pages/latihan. *)

From Stdlib Require Import ZArith String.
From stdpp Require Import base strings list sets sorting.
From S2P Require Import Prelude.

Open Scope Z_scope.

Module JsObject.

(** The properties of [Object.prototype]. *)
Definition proto_keys : list string :=
  ["constructor"; "__defineGetter__"; "__defineSetter__"; "hasOwnProperty";
   "__lookupGetter__"; "__lookupSetter__"; "isPrototypeOf";
   "propertyIsEnumerable"; "toString"; "valueOf"; "__proto__"; "toLocaleString"]%string.

Section Obj.
Context {V : Type}.

Local Abbreviation t := (list (string * V)).

(** [o[k]] *)
Fixpoint get (k : string) (o : t) : option V :=
  match o with
  | [] => None
  | (k', v) :: o' => if String.eqb k k' then Some v else get k o'
  end.

(** [o[k] = v] *)
Fixpoint set (k : string) (v : V) (o : t) : t :=
  match o with
  | [] => [(k, v)]
  | (k', v') :: o' => if String.eqb k k' then (k', v) :: o' else (k', v') :: set k v o'
  end.

(** [o[k] = v] for a primitive [v] (a string or a number): assigning to
    [__proto__] goes to the setter inherited from [Object.prototype],
    which ignores a value that is not an object, so the object is left
    as it was. *)
Definition assign (k : string) (v : V) (o : t) : t :=
  if String.eqb k "__proto__" then o else set k v o.

(** Canonical array indices: the decimal rendering of an integer in
    [0, 2^32 - 2]. *)
Definition array_index (k : string) : option Z :=
  match js_read k with
  | Some n => if String.eqb (js_show n) k && (0 <=? n) && (n <? 4294967295)
              then Some n else None
  | None => None
  end.

Fixpoint insert_index (n : Z) (e : string * V) (l : list (Z * (string * V)))
  : list (Z * (string * V)) :=
  match l with
  | [] => [(n, e)]
  | (m, e') :: l' => if n <? m then (n, e) :: l else (m, e') :: insert_index n e l'
  end.

Definition index_step (acc : list (Z * (string * V))) (e : string * V) :
  list (Z * (string * V)) :=
  match array_index e.1 with
  | Some n => insert_index n e acc
  | None => acc
  end.

Definition index_entries (o : t) : list (Z * (string * V)) := fold_left index_step o [].

(** [Object.entries(o)] *)
Definition Object_entries (o : t) : list (string * V) :=
  map snd (index_entries o) ++ filter (fun e => array_index e.1 = None) o.

(** [o[k]] on a plain object, whose prototype is [Object.prototype]:
    an own property, a property inherited from [Object.prototype] (a
    function, or the prototype itself for [__proto__]; truthy, and with
    no [push] or other field the code reads), or [undefined]. *)
Inductive Property := Own (v : V) | Inherited | Absent.

Definition lookup (k : string) (o : t) : Property :=
  match get k o with
  | Some v => Own v
  | None => if bool_decide (k ∈ proto_keys) then Inherited else Absent
  end.

End Obj.

(** A JS object with property values of type [V]. *)
Abbreviation t V := (list (string * V)).

End JsObject.

(** ** Lemmas on JS objects *)
Module JsObjectFacts.
Import JsObject.
Section Facts.
Context {V : Type}.
Implicit Types (o : t V) (v : V) (e : string * V) (l : list (Z * (string * V))).

Lemma get_set_eq k v o : get k (set k v o) = Some v.
Proof.
  induction o as [|[k' v'] o IH]; simpl; [by rewrite String.eqb_refl|].
  destruct (String.eqb_spec k k') as [->|Hne]; simpl.
  - by rewrite String.eqb_refl.
  - by apply String.eqb_neq in Hne as ->.
Qed.

Lemma get_set_ne k k' v o : k <> k' -> get k' (set k v o) = get k' o.
Proof.
  intros Hne. induction o as [|[k1 v1] o IH]; simpl.
  - by apply String.eqb_neq in Hne; rewrite String.eqb_sym, Hne.
  - destruct (String.eqb_spec k k1); simpl; [subst|].
    + by apply String.eqb_neq in Hne; rewrite String.eqb_sym, Hne.
    + by rewrite IH.
Qed.

Lemma keys_set k v o : map fst (set k v o) = if bool_decide (k ∈ map fst o)
                                              then map fst o else map fst o ++ [k].
Proof.
  induction o as [|[k1 v1] o IH]; simpl; [done|].
  destruct (String.eqb_spec k k1) as [->|Hne]; simpl.
  - by rewrite bool_decide_eq_true_2 by set_solver.
  - rewrite IH. case_bool_decide; case_bool_decide; try set_solver.
Qed.

Lemma set_NoDup k v o : NoDup (map fst o) -> NoDup (map fst (set k v o)).
Proof.
  intros H. rewrite keys_set. case_bool_decide; [done|].
  apply NoDup_app. split_and!; [done| |apply NoDup_singleton]. set_solver.
Qed.

Lemma insert_index_perm n e l : map snd (insert_index n e l) ≡ₚ e :: map snd l.
Proof.
  induction l as [|[m e'] l IH]; simpl; [done|].
  destruct (n <? m); simpl; [done|]. rewrite IH. apply perm_swap.
Qed.

Lemma index_entries_perm_acc o acc :
  map snd (fold_left index_step o acc)
  ≡ₚ map snd acc ++ filter (fun e => array_index e.1 <> None) o.
Proof.
  revert acc. induction o as [|e o IH]; intros acc; simpl; [by rewrite app_nil_r|].
  rewrite IH, filter_cons.
  unfold index_step. destruct (array_index e.1) eqn:He; simpl.
  - rewrite insert_index_perm. simpl. by rewrite Permutation_middle.
  - done.
Qed.

Lemma get_In k v o : get k o = Some v -> In (k, v) o.
Proof.
  induction o as [|[k1 v1] o IH]; simpl; [done|].
  destruct (String.eqb_spec k k1) as [->|]; [intros [= ->]; by left|]. intros H; right; auto.
Qed.

Lemma get_None k o : get k o = None <-> k ∉ map fst o.
Proof.
  induction o as [|[k1 v1] o IH]; simpl; [set_solver|].
  destruct (String.eqb_spec k k1) as [->|Hne]; [split; [done|set_solver]|].
  rewrite IH. set_solver.
Qed.

Lemma In_get k v o : NoDup (map fst o) -> In (k, v) o -> get k o = Some v.
Proof.
  induction o as [|[k1 v1] o IH]; simpl; [done|]. intros Hnd [Heq|Hin]; invc Hnd.
  - injection Heq as -> ->. by rewrite String.eqb_refl.
  - destruct (String.eqb_spec k k1) as [->|]; [|auto].
    exfalso. apply H1. apply list_elem_of_In, in_map_iff. by exists (k1, v).
Qed.

(** On an object whose keys are distinct, lookups do not depend on the
    order of its properties. *)
Lemma get_perm k o o' : NoDup (map fst o) -> o ≡ₚ o' -> get k o' = get k o.
Proof.
  intros Hnd Hp. assert (Hnd' : NoDup (map fst o')) by (by rewrite <- Hp).
  destruct (get k o) as [v|] eqn:Hk.
  - apply In_get; [done|]. apply get_In in Hk. apply list_elem_of_In.
    rewrite <- Hp. by apply list_elem_of_In.
  - apply get_None. apply get_None in Hk. by rewrite <- Hp.
Qed.

Lemma set_set k v v' o : set k v (set k v' o) = set k v o.
Proof.
  induction o as [|[k1 v1] o IH]; simpl; [by rewrite String.eqb_refl|].
  destruct (String.eqb_spec k k1) as [->|Hne]; simpl.
  - by rewrite String.eqb_refl.
  - apply String.eqb_neq in Hne. by rewrite Hne, IH.
Qed.

Lemma get_assign f k v o :
  get f (assign k v o) = if bool_decide (f = k /\ k <> "__proto__") then Some v else get f o.
Proof.
  unfold assign. destruct (String.eqb_spec k "__proto__") as [->|Hk].
  - rewrite bool_decide_eq_false_2; [done|]. tauto.
  - destruct (decide (f = k)) as [->|Hf].
    + rewrite get_set_eq, bool_decide_eq_true_2; tauto.
    + rewrite get_set_ne, bool_decide_eq_false_2; [done|tauto|congruence].
Qed.

Lemma assign_NoDup k v o : NoDup (map fst o) -> NoDup (map fst (assign k v o)).
Proof. unfold assign. destruct (String.eqb k "__proto__"); [done|]. apply set_NoDup. Qed.

End Facts.

Section Facts2.
Context {V : Type}.
Implicit Types (o : t V) (e : string * V) (l : list (Z * (string * V))).

Lemma filter_index_split (o : t V) :
  filter (fun e => array_index e.1 <> None) o ++
  filter (fun e => array_index e.1 = None) o ≡ₚ o.
Proof.
  induction o as [|e o IH]; [done|]. rewrite !filter_cons.
  repeat case_decide; try done; simpl.
  - by rewrite IH.
  - by rewrite <- Permutation_middle, IH.
Qed.

(** [Object.entries] lists every property of the object exactly once:
    it is a permutation of the object's property list. *)
Lemma Object_entries_perm (o : t V) : Object_entries o ≡ₚ o.
Proof.
  unfold Object_entries, index_entries.
  rewrite index_entries_perm_acc. simpl.
  apply filter_index_split.
Qed.

(** [Object.entries] of an object with distinct keys has distinct keys
    and the same lookups. *)
Lemma Object_entries_get (o : t V) :
  NoDup (map fst o) ->
  NoDup (map fst (Object_entries o)) /\
  forall k, get k (Object_entries o) = get k o.
Proof.
  intros Hnd. pose proof (Object_entries_perm o) as Hp. split.
  - by rewrite Hp.
  - intros k. apply get_perm; [done|]. by symmetry.
Qed.

(** The array index of the rendering of an integer. *)
Lemma array_index_js_show n :
  array_index (js_show n) = if (0 <=? n) && (n <? 4294967295) then Some n else None.
Proof. unfold array_index. by rewrite js_show_read, String.eqb_refl. Qed.

Lemma insert_index_sorted n e l :
  Sorted (λ a b : Z * (string * V), a.1 <= b.1) l ->
  Sorted (λ a b : Z * (string * V), a.1 <= b.1) (insert_index n e l).
Proof.
  induction 1 as [|[m e'] l Hl IH Hhd]; simpl; [by repeat constructor|].
  destruct (Z.ltb_spec n m).
  - constructor; [by constructor|]. constructor; simpl; lia.
  - constructor; [done|]. destruct Hhd as [|[m' e''] l' Hm]; simpl.
    + constructor; simpl; lia.
    + destruct (n <? m'); constructor; simpl in *; lia.
Qed.

Lemma insert_index_Forall (P : Z * (string * V) -> Prop) n e l :
  P (n, e) -> Forall P l -> Forall P (insert_index n e l).
Proof.
  intros Hp. induction 1 as [|[m e'] l Hm Hl IH]; simpl; [by repeat constructor|].
  destruct (n <? m); by repeat constructor.
Qed.

Lemma index_entries_acc o acc :
  Sorted (λ a b : Z * (string * V), a.1 <= b.1) acc ->
  Forall (λ p : Z * (string * V), array_index p.2.1 = Some p.1) acc ->
  Sorted (λ a b : Z * (string * V), a.1 <= b.1) (fold_left index_step o acc) /\
  Forall (λ p : Z * (string * V), array_index p.2.1 = Some p.1) (fold_left index_step o acc).
Proof.
  revert acc. induction o as [|e o IH]; intros acc Hs Hf; simpl; [done|].
  unfold index_step. destruct (array_index e.1) eqn:He; apply IH; try done.
  - by apply insert_index_sorted.
  - by apply insert_index_Forall.
Qed.

(** An object whose keys are all array indices lists them in ascending
    order, each property with its own index. *)
Lemma Object_entries_sorted o :
  Forall (λ e, array_index e.1 <> None) o ->
  Sorted (λ e1 e2, default 0 (array_index e1.1) <= default 0 (array_index e2.1))
         (Object_entries o).
Proof.
  intros Hall. unfold Object_entries.
  rewrite filter_Forall_not, app_nil_r by (eapply Forall_impl; [exact Hall|]; simpl; tauto).
  destruct (index_entries_acc o [] (Sorted_nil _) (Forall_nil_2 _)) as [Hs Hf].
  apply (Sorted_map_impl (λ a b : Z * (string * V), a.1 <= b.1) _
           (λ p : Z * (string * V), array_index p.2.1 = Some p.1));
    [|done..]. intros [m a] [n b] Ha Hb Hle. simpl in *. by rewrite Ha, Hb.
Qed.

(** An object with distinct keys is determined by its keys and its
    lookups. *)
Lemma assoc_eq (o : t V) (ks : list string) (f : string -> V) :
  map fst o = ks -> NoDup ks -> (forall k, k ∈ ks -> get k o = Some (f k)) ->
  o = map (λ k, (k, f k)) ks.
Proof.
  revert ks. induction o as [|[k v] o IH]; intros ks <- Hnd Hget; [done|]. simpl.
  pose proof (Hget k (list_elem_of_here _ _)) as Hk. simpl in Hk.
  rewrite String.eqb_refl in Hk. injection Hk as ->. f_equal.
  apply NoDup_cons in Hnd as [Hk Hnd]. apply IH; [done..|].
  intros k' Hk'. rewrite <- (Hget k') by (by right). simpl.
  destruct (String.eqb_spec k' k) as [->|]; [done|]. done.
Qed.

(** An object whose keys are the renderings of distinct array indices
    lists its properties in ascending index order, whatever the order of
    their creation. *)
Lemma Object_entries_ints (f : Z -> V) (us : list Z) :
  NoDup us -> Forall (λ u, 0 <= u < 4294967295) us ->
  Object_entries (map (λ u, (js_show u, f u)) us) =
  map (λ u, (js_show u, f u)) (merge_sort Z.le us).
Proof.
  intros Hnd Hr. set (idx := λ e : string * V, default 0 (array_index e.1)).
  assert (Hidx : forall u, u ∈ us -> idx (js_show u, f u) = u).
  { intros u Hu. rewrite Forall_forall in Hr. specialize (Hr u Hu).
    unfold idx. simpl. rewrite array_index_js_show.
    by rewrite (proj2 (Z.leb_le 0 u)), (proj2 (Z.ltb_lt u _)) by lia. }
  assert (Hperm : map (λ u, (js_show u, f u)) (merge_sort Z.le us) ≡ₚ
                  map (λ u, (js_show u, f u)) us) by (by rewrite merge_sort_Permutation).
  assert (Hin : forall e, e ∈ map (λ u, (js_show u, f u)) us ->
            exists u, u ∈ us /\ e = (js_show u, f u)).
  { intros e He. apply list_elem_of_fmap in He as [u [-> Hu]]. by exists u. }
  assert (Transitive (λ e1 e2, idx e1 <= idx e2)) by (intros ???; lia).
  apply (Sorted_unique_strong (λ e1 e2, idx e1 <= idx e2)).
  - intros e1 e2 He1 He2 H12 H21.
    rewrite Object_entries_perm in He1. rewrite Hperm in He2.
    destruct (Hin e1 He1) as [u1 [Hu1 ->]], (Hin e2 He2) as [u2 [Hu2 ->]].
    rewrite !Hidx in H12, H21 by done. by assert (u1 = u2) as -> by lia.
  - apply Object_entries_sorted. apply Forall_forall. intros e He.
    destruct (Hin e He) as [u [Hu ->]]. simpl. rewrite array_index_js_show.
    rewrite Forall_forall in Hr. specialize (Hr u Hu).
    by rewrite (proj2 (Z.leb_le 0 u)), (proj2 (Z.ltb_lt u _)) by lia.
  - apply (Sorted_map_impl Z.le _ (λ u, u ∈ us)); [| |apply Sorted_merge_sort].
    + intros a b Ha Hb Hab. simpl. rewrite !Hidx by done. done.
    + apply Forall_forall. intros u Hu. by rewrite merge_sort_Permutation in Hu.
    + intros ??; lia.
  - by rewrite Object_entries_perm, Hperm.
Qed.

End Facts2.

(** ** Accumulating into an object

    The loop body [acc[K(x)] = step(acc[K(x)], x)] that the exercise
    pages run over an array to group or total its elements. *)
Section Accumulate.
Context {A V : Type} (K : A -> string) (step : option V -> A -> V).

Definition accumulate (acc : t V) (x : A) : t V := set (K x) (step (get (K x) acc) x) acc.

Lemma accumulate_eq acc x : accumulate acc x = set (K x) (step (get (K x) acc) x) acc.
Proof. done. Qed.

(** The keys are the distinct [K(x)], in order of first occurrence. *)
Lemma accumulate_keys l : map fst (fold_left accumulate l []) = first_occ (map K l).
Proof.
  induction l as [|x l IH] using rev_ind; [done|].
  rewrite fold_left_app, map_app. simpl. rewrite first_occ_snoc, accumulate_eq.
  rewrite keys_set, IH.
  case_bool_decide as H1; case_decide as H2; rewrite ?app_nil_r; try done;
    rewrite elem_of_first_occ in H1; done.
Qed.

(** The value at [k] is [step] run over the elements with key [k]. *)
Lemma accumulate_get l k :
  get k (fold_left accumulate l []) = fold_left (λ o x, Some (step o x)) (filter (λ x, K x = k) l) None.
Proof.
  induction l as [|x l IH] using rev_ind; [done|].
  rewrite fold_left_app, filter_app, fold_left_app. simpl. rewrite accumulate_eq.
  destruct (decide (K x = k)) as [<-|Hne].
  - rewrite get_set_eq, filter_cons_True, filter_nil by done. simpl. by rewrite IH.
  - rewrite get_set_ne, filter_cons_False, filter_nil by done. simpl. by rewrite IH.
Qed.

Lemma accumulate_NoDup l : NoDup (map fst (fold_left accumulate l [])).
Proof. rewrite accumulate_keys. apply NoDup_first_occ. Qed.

(** The object built from [[]] is determined by the value [step]
    accumulates for each key. *)
Lemma accumulate_as_map l (g : string -> V) :
  (forall k, k ∈ first_occ (map K l) ->
     fold_left (λ o x, Some (step o x)) (filter (λ x, K x = k) l) None = Some (g k)) ->
  fold_left accumulate l [] = map (λ k, (k, g k)) (first_occ (map K l)).
Proof.
  intros Hg. apply assoc_eq; [apply accumulate_keys|apply NoDup_first_occ|].
  intros k Hk. rewrite accumulate_get. by apply Hg.
Qed.

(** A reducer that performs [accumulate] on the elements whose key is
    not [bad] and throws [e] on the first one whose key is [bad] (and
    not yet a key of the object) runs to the accumulated object or
    throws [e]. *)
Lemma reduceM_accumulate {E} (f : t V -> A -> sum E (t V)) (e : E)
    (bad : string -> Prop) `{!forall k, Decision (bad k)} l acc :
  (forall acc x, ~ bad (K x) -> f acc x = inr (accumulate acc x)) ->
  (forall acc x, bad (K x) -> K x ∉ map fst acc -> f acc x = inl e) ->
  Forall (λ k, ~ bad k) (map fst acc) ->
  reduceM f l acc =
  if bool_decide (Forall (λ x, ~ bad (K x)) l) then inr (fold_left accumulate l acc) else inl e.
Proof.
  intros Hok Herr. revert acc. induction l as [|x l IH]; intros acc Hacc; [done|].
  destruct (decide (bad (K x))) as [Hb|Hb]; simpl.
  - rewrite Herr; [|done|]. 
    + rewrite bool_decide_eq_false_2; [done|]. intros Hall. by apply Forall_cons in Hall as [? _].
    + intros Hin. rewrite Forall_forall in Hacc. by apply (Hacc _ Hin).
  - rewrite Hok by done. simpl. rewrite IH.
    + rewrite (bool_decide_ext (Forall (λ x, ~ bad (K x)) (x :: l)) (Forall (λ x, ~ bad (K x)) l));
        [done|]. rewrite Forall_cons. tauto.
    + unfold accumulate. rewrite keys_set.
      destruct (decide (K x ∈ map fst acc)) as [Hin|Hin].
      * by rewrite bool_decide_eq_true_2.
      * rewrite bool_decide_eq_false_2 by done. apply Forall_app. by split; [|constructor].
Qed.

End Accumulate.

End JsObjectFacts.

#[export] Hint Rewrite @JsObjectFacts.get_set_eq : model_rw.
#[export] Hint Resolve @JsObjectFacts.set_NoDup : model.
