(* ===== verification/Types.v ===== *)
(** * Entities and UI effects

    The records and enums of src/src/types/users.types.ts and
    src/src/types/todos.type.ts, the Post and Comment shapes that the
    code imports from type files absent from the repository (modelled
    from the spec's data model), and [UiEffect], the calls a handler
    makes into antd ([message.success], [message.error],
    [form.setFields], [form.resetFields]) and into its parent
    ([onSubmit]). *)

From Stdlib Require Import ZArith String.
From stdpp Require Import base strings list.
From S2P Require Import Prelude.

Open Scope Z_scope.

(** ** users.types.ts *)
Module Users.

Inductive UserGender := Male | Female.
Inductive UserStatus := Active | Inactive.

#[export] Instance UserGender_eq_dec : EqDecision UserGender.
Proof. solve_decision. Defined.
#[export] Instance UserStatus_eq_dec : EqDecision UserStatus.
Proof. solve_decision. Defined.

(** The string value of each enum member. *)
Definition UserGender_value (g : UserGender) : string :=
  match g with Male => "male" | Female => "female" end.
Definition UserStatus_value (s : UserStatus) : string :=
  match s with Active => "active" | Inactive => "inactive" end.

Record UserType := mkUser {
  id : Z;
  name : string;
  email : string;
  gender : UserGender;
  status : UserStatus
}.

Record UserFormData := mkUserFormData {
  form_name : string;
  form_email : string;
  form_gender : UserGender;
  form_status : UserStatus
}.

End Users.

(** ** todos.type.ts *)
Module Todos.

Inductive TodoStatus := Pending | Completed.

#[export] Instance TodoStatus_eq_dec : EqDecision TodoStatus.
Proof. solve_decision. Defined.

Definition TodoStatus_value (s : TodoStatus) : string :=
  match s with Pending => "pending" | Completed => "completed" end.

Record TodoType := mkTodo {
  id : Z;
  user_id : Z;
  title : string;
  due_on : string;
  status : TodoStatus
}.

(** [CreateTodoData] of todos.service.ts: the status travels as a
    string. *)
Record CreateTodoData := mkCreateTodoData {
  data_title : string;
  data_due_on : string;
  data_status : string
}.

End Todos.

(** ** posts.types.ts and comments.type.ts (not in the repository) *)
Module Posts.

Record PostType := mkPost {
  id : Z;
  user_id : Z;
  title : string;
  body : string
}.

Record CommentType := mkComment {
  comment_id : Z;
  post_id : Z;
  comment_name : string;
  comment_email : string;
  comment_body : string
}.

(** [PostFormData] of PostsForm.tsx and the comment payload of
    PostsCard.tsx. *)
Record PostFormData := mkPostFormData { form_title : string; form_body : string }.
Record CommentData := mkCommentData {
  cdata_name : string; cdata_email : string; cdata_body : string
}.

End Posts.

(** ** UI effects *)

(** The forms a handler can write field errors to or reset. *)
Inductive FormName := TodoFormF | UserFormF | PostFormF | CommentFormF.

#[export] Instance FormName_eq_dec : EqDecision FormName.
Proof. solve_decision. Defined.

Inductive UiEffect :=
| MessageSuccess (text : string)
| MessageError (text : string)
| SetFields (form : FormName) (fields : list (string * string))
| ResetFields (form : FormName)
| OnSubmit.

#[export] Instance UiEffect_eq_dec : EqDecision UiEffect.
Proof. solve_decision. Defined.
