(* ===== verification/FormRules.v ===== *)
(** * The validation rules of the antd forms

    The rules the [Form.Item]s of UserForm.tsx, TodosForm.tsx,
    PostsForm.tsx and PostsCard.tsx declare, as antd's form
    (rc-field-form over async-validator) checks them when the form is
    submitted; [onFinish] runs only when every rule passes.
    - [{ required: true }] on an [Input] or [TextArea] ([required]): the
      field is set and is not the empty string.  A value of spaces
      passes: async-validator rejects only [undefined], [null] and [''].
    - [{ required: true }] on a [Select] or [DatePicker]: a value is
      set; the forms keep these as [option]s.
    - [{ type: 'email' }] of UserForm.tsx ([is_email]): async-validator's
      test [typeof value === 'string' && value.length <= 320 &&
      !!value.match(pattern.email)], with the pattern (DQ stands for the
      double quote character, and a space separates [*] from [)])
      [^(([^<>()\[\]\\.,;:\s@DQ]+(\.[^<>()\[\]\\.,;:\s@DQ]+)* )|(DQ.+DQ))@((\[[0-9]{1,3}\.[0-9]{1,3}\.[0-9]{1,3}\.[0-9]{1,3}])|(([a-zA-Z\-0-9\u00A0-\uD7FF\uF900-\uFDCF\uFDF0-\uFFEF]+\.)+[a-zA-Z\u00A0-\uD7FF\uF900-\uFDCF\uFDF0-\uFFEF]{2,}))$].

    A string of the model is a sequence of code units 0-255, so the
    pattern's classes are read on that range: [\s] is tab to carriage
    return, space and no-break space (160), and the ranges from
    [\u00A0] on are the units 160-255.  The recogniser follows the
    pattern's structure: no alternative of the domain admits [@], so a
    match splits the address at its last [@]; the local part is a
    dot-separated list of non-empty atoms, or a quoted string; the
    domain is a bracketed dotted quad or dot-separated labels ending
    in a top-level label of at least two letters. *)

From Stdlib Require Import String Ascii.
From stdpp Require Import base strings list.
From S2P Require Import Prelude.

Module FormRules.

(** [{ required: true }] on a text input: the value it submits. *)
Definition required (v : option string) : option string :=
  match v with
  | Some t => if String.eqb t "" then None else Some t
  | None => None
  end.

(** ** Character classes *)

Definition in_range (lo hi : nat) (c : ascii) : bool :=
  (lo <=? nat_of_ascii c)%nat && (nat_of_ascii c <=? hi)%nat.

Definition is_space (c : ascii) : bool :=
  in_range 9 13 c || (nat_of_ascii c =? 32)%nat || (nat_of_ascii c =? 160)%nat.
Definition is_digit : ascii -> bool := in_range 48 57.
Definition is_alpha (c : ascii) : bool := in_range 65 90 c || in_range 97 122 c.
Definition is_wide : ascii -> bool := in_range 160 255.
Definition dquote : ascii := "034".

(** [[^<>()\[\]\\.,;:\s@DQ]] *)
Definition atom_char (c : ascii) : bool :=
  negb (is_space c) &&
  negb (existsb (Ascii.eqb c) (dquote :: list_ascii_of_string "<>()[]\.,;:@")).

(** [[a-zA-Z\-0-9\u00A0-...]] and [[a-zA-Z\u00A0-...]] *)
Definition label_char (c : ascii) : bool :=
  is_alpha c || is_digit c || (c =? "-")%char || is_wide c.
Definition tld_char (c : ascii) : bool := is_alpha c || is_wide c.

(** [.]: any unit but a line terminator. *)
Definition not_newline (c : ascii) : bool :=
  negb ((nat_of_ascii c =? 10)%nat || (nat_of_ascii c =? 13)%nat).

(** [[class]+] *)
Definition plus (p : ascii -> bool) (l : list ascii) : bool :=
  match l with [] => false | _ => forallb p l end.

(** ** The parts of the pattern *)

(** [[^...]+(\.[^...]+)*] *)
Definition dot_atom (l : list ascii) : bool := forallb (plus atom_char) (split_chars "." l).

(** [DQ.+DQ] *)
Definition quoted (l : list ascii) : bool :=
  match l, rev l with
  | q :: _ :: _, q' :: _ =>
      (q =? dquote)%char && (q' =? dquote)%char &&
      plus not_newline (removelast (tail l))
  | _, _ => false
  end.

(** [\[[0-9]{1,3}\.[0-9]{1,3}\.[0-9]{1,3}\.[0-9]{1,3}]] *)
Definition ip_literal (l : list ascii) : bool :=
  match l, rev l with
  | b :: _ :: _, b' :: _ =>
      (b =? "[")%char && (b' =? "]")%char &&
      (let parts := split_chars "." (removelast (tail l)) in
       (length parts =? 4)%nat &&
       forallb (λ p, plus is_digit p && (length p <=? 3)%nat) parts)
  | _, _ => false
  end.

(** [([a-zA-Z\-0-9...]+\.)+[a-zA-Z...]{2,}] *)
Definition host_name (l : list ascii) : bool :=
  match rev (split_chars "." l) with
  | tld :: (_ :: _) as labels =>
      forallb (plus label_char) labels && (2 <=? length tld)%nat && forallb tld_char tld
  | _ => false
  end.

(** The units of [ps] joined by [sep]: the inverse of [split_chars]. *)
Fixpoint join_chars (sep : ascii) (ps : list (list ascii)) : list ascii :=
  match ps with
  | [] => []
  | [p] => p
  | p :: ps' => p ++ sep :: join_chars sep ps'
  end.

(** [{ type: 'email' }] *)
Definition is_email (s : string) : bool :=
  (String.length s <=? 320)%nat &&
  match rev (split_chars "@" (list_ascii_of_string s)) with
  | domain :: (_ :: _) as locals =>
      let local := join_chars "@" (rev locals) in
      (dot_atom local || quoted local) && (ip_literal domain || host_name domain)
  | _ => false
  end.

End FormRules.

Module FormRulesFacts.
Import FormRules.

Lemma required_Some v t : required v = Some t <-> v = Some t /\ t <> "".
Proof.
  destruct v as [u|]; simpl; [|naive_solver].
  destruct (String.eqb_spec u ""); split; intros; simplify_eq; naive_solver.
Qed.

(** The e-mail test on a few addresses: a plain and a bracketed
    domain, a quoted local part holding a space; rejected are a missing
    [@], a one-letter top-level label, a space, an empty atom, an [@]
    outside quotes and 321 units. *)
Example is_email_samples :
  is_email "budi@example.com" = true /\ is_email "ani.s@mail.co.id" = true /\
  is_email "a@[10.0.0.1]" = true /\
  is_email (String dquote ("a b" ++ String dquote "@x.io")) = true /\
  is_email "budi" = false /\ is_email "a@b.c" = false /\ is_email "a b@x.io" = false /\
  is_email "a..b@x.io" = false /\ is_email "a@b@x.io" = false /\
  is_email (String.append (String.concat "" (repeat "a" 316)) "@x.io") = false.
Proof. vm_compute. repeat split. Qed.

End FormRulesFacts.
