(* ===== verification/ApiError.v ===== *)
(** * utils/apiError.ts

    [handleApiError] turns what axios threw into the value the services
    rethrow; [formatApiErrors] turns a list of field errors into a JS
    object from field name to message.  Since the handlers pass any
    rejection value to [formatApiErrors] (typed [any]), the model keeps
    the JavaScript values that can reach it: an array of field errors,
    an object that is not an array, an [Error], a string.  Calling
    [errors.forEach] on anything but an array throws a [TypeError],
    which the model returns as [None].

    A JS object with string keys is an association list in property
    creation order ([JsObject]); assigning an existing property keeps
    its position.  [Object_entries] lists array-index keys first in
    ascending numeric order, then the other keys in creation order, as
    ECMAScript's OrdinaryOwnPropertyKeys does. *)

From Stdlib Require Import ZArith String.
From stdpp Require Import base strings list sets.
From S2P Require Import Prelude JsObject.

Open Scope Z_scope.

(** ** Thrown values *)

Record ApiError := mkApiError { field : string; message : string }.

(** What a rejected promise carries, as far as the handlers look at it. *)
Inductive Thrown :=
| TArray (errors : list ApiError)
| TObject (message : string)
| TErrorObj (message : string)
| TString (s : string).

(** The body of an HTTP error response, as axios exposes it in
    [error.response.data]. *)
Inductive ResponseBody :=
| BodyArray (errors : list ApiError)
| BodyObject (message : string)
| BodyText (s : string)
| BodyNull.

(** A rejection of [instance.get/post/put/delete]: [error.response] is
    missing for network failures. *)
Record AxiosError := mkAxiosError { response : option ResponseBody }.

(** ** handleApiError *)

Definition general_error : ApiError :=
  mkApiError "general" "An unexpected error occurred".

(** [error.response?.data] is truthy: arrays and objects always, a
    string when non-empty, [null]/[undefined] never. *)
Definition handleApiError (error : AxiosError) : Thrown :=
  match response error with
  | Some (BodyArray l) => TArray l
  | Some (BodyObject m) => TObject m
  | Some (BodyText s) => if String.eqb s "" then TArray [general_error] else TString s
  | Some BodyNull | None => TArray [general_error]
  end.

(** ** formatApiErrors *)

Definition formatApiErrors_list (errors : list ApiError) : (JsObject.t string) :=
  fold_left (fun acc e => JsObject.assign (field e) (message e) acc) errors [].

(** [errors.forEach] on a non-array throws: [None]. *)
Definition formatApiErrors (errors : Thrown) : option (JsObject.t string) :=
  match errors with
  | TArray l => Some (formatApiErrors_list l)
  | _ => None
  end.

(** [formErrors.general] is truthy. *)
Definition general_of (fe : (JsObject.t string)) : option string :=
  match JsObject.get "general" fe with
  | Some m => if String.eqb m "" then None else Some m
  | None => None
  end.

(** [error.response?.data] is truthy. *)
Definition response_data_truthy (r : option ResponseBody) : bool :=
  match r with
  | Some (BodyArray _) | Some (BodyObject _) => true
  | Some (BodyText s) => negb (String.eqb s "")
  | Some BodyNull | None => false
  end.

(** ** Reference: the last message given for a field *)

Definition last_message (f : string) (errors : list ApiError) : option string :=
  fold_left (fun acc e => if String.eqb f (field e) then Some (message e) else acc) errors None.

(** ** Properties of formatApiErrors and handleApiError *)

Lemma formatApiErrors_list_get_acc f l acc :
  JsObject.get f (fold_left (fun acc e => JsObject.assign (field e) (message e) acc) l acc)
  = if String.eqb f "__proto__" then JsObject.get f acc
    else fold_left (fun acc e => if String.eqb f (field e) then Some (message e) else acc)
                   l (JsObject.get f acc).
Proof.
  revert acc. induction l as [|e l IH]; intros acc; simpl; [by destruct (String.eqb f _)|].
  rewrite IH, JsObjectFacts.get_assign.
  destruct (String.eqb_spec f "__proto__") as [->|Hp].
  - rewrite bool_decide_eq_false_2; [done|].
    intros [<- ?]; done.
  - f_equal. destruct (String.eqb_spec f (field e)) as [<-|Hne].
    + by rewrite bool_decide_eq_true_2.
    + rewrite bool_decide_eq_false_2; [done|tauto].
Qed.

Lemma formatApiErrors_list_NoDup_acc l acc :
  NoDup (map fst acc) ->
  NoDup (map fst (fold_left (fun acc e => JsObject.assign (field e) (message e) acc) l acc)).
Proof.
  revert acc. induction l as [|e l IH]; intros acc Hd; simpl; [done|].
  apply IH. by apply JsObjectFacts.assign_NoDup.
Qed.

(** The object [formatApiErrors] builds from an array: each field once,
    holding the last message given for it, except [__proto__], which
    the assignment drops. *)
Lemma formatApiErrors_list_spec l :
  NoDup (map fst (formatApiErrors_list l)) /\
  forall f, JsObject.get f (formatApiErrors_list l) =
            if String.eqb f "__proto__" then None else last_message f l.
Proof.
  split; [apply formatApiErrors_list_NoDup_acc; constructor|].
  intros f. unfold formatApiErrors_list. rewrite formatApiErrors_list_get_acc.
  by destruct (String.eqb f "__proto__").
Qed.

(** C6: [formatApiErrors] on an array of field errors succeeds with an
    object that has each field once, and the message it records for a
    field is the message of the last error naming that field (later
    errors overwrite earlier ones); a field named [__proto__] is not
    recorded, since assigning a string to [__proto__] is ignored. *)
Theorem formatApiErrors_last_wins (l : list ApiError) :
  exists o, formatApiErrors (TArray l) = Some o /\
            NoDup (map fst o) /\
            forall f, JsObject.get f o = if String.eqb f "__proto__" then None else last_message f l.
Proof.
  exists (formatApiErrors_list l). split; [done|]. apply formatApiErrors_list_spec.
Qed.

(** C7: when a failed call has no truthy response body (a network error,
    an empty or null body), the value the services rethrow is formatted
    by the handlers into the one-entry object
    [{ general: "An unexpected error occurred" }], whose [general]
    message is the one shown. *)
Theorem handleApiError_general_message (e : AxiosError) :
  response_data_truthy (response e) = false ->
  exists o, formatApiErrors (handleApiError e) = Some o /\
            JsObject.Object_entries o = [("general", "An unexpected error occurred")] /\
            general_of o = Some "An unexpected error occurred".
Proof.
  intros H. exists [("general", "An unexpected error occurred")].
  unfold handleApiError.
  destruct (response e) as [[l|m|s|]|]; simpl in H; try discriminate;
    try (apply negb_false_iff in H; rewrite H); done.
Qed.

Lemma handleApiError_general_message_witness :
  response_data_truthy (response (mkAxiosError (Some (BodyText "")))) = false /\
  exists o, formatApiErrors (handleApiError (mkAxiosError (Some (BodyText "")))) = Some o /\
            JsObject.Object_entries o = [("general", "An unexpected error occurred")] /\
            general_of o = Some "An unexpected error occurred".
Proof.
  split; [reflexivity|]. apply handleApiError_general_message. reflexivity.
Defined.
