(* ===== verification/QueryCache.v ===== *)
(** * The query cache (TanStack Query, created in pages/_app.tsx)

    The library is not part of the repository; its behaviour is modelled
    from the spec (section 4.1) and from the matching rule the handlers
    rely on: [invalidateQueries({ queryKey: f })] marks every cached
    query whose key has [f] as a prefix, element by element with [===]
    ([partialMatchKey], where a missing element reads as [undefined]).
    Invalidation marks a query stale and keeps its data until the
    refetch completes ([setQueryData]); mounting a [useQuery] creates an
    entry without data ([build]).

    The handlers are verified against the interface [QueryClient] with
    its laws [QueryClientLaws]; [ListCache] implements it with an
    association list in insertion order, which is how the library's
    [QueryCache] map iterates.  Keys are compared structurally: the
    library hashes a key with [JSON.stringify], which is injective on the
    keys of this program (strings, numbers and [undefined]). *)

From Stdlib Require Import ZArith String Morphisms.
From stdpp Require Import base strings list.
From S2P Require Import Prelude.

Open Scope Z_scope.

Abbreviation QueryKey := (list jsval).

(** [partialMatchKey(a, b)]: every element of [b] is [===] to the element
    of [a] at the same index. *)
Fixpoint partialMatchKey (a b : QueryKey) : bool :=
  match b with
  | [] => true
  | y :: b' =>
      match a with
      | [] => (JUndef === y)%js && partialMatchKey [] b'
      | x :: a' => (x === y)%js && partialMatchKey a' b'
      end
  end.

Record QueryState (D : Type) := mkQueryState {
  data : option D;
  isInvalidated : bool
}.
Arguments mkQueryState {D}.
Arguments data {D}.
Arguments isInvalidated {D}.

Definition mark_invalid {D} (q : QueryState D) : QueryState D :=
  mkQueryState (data q) true.

(** ** The interface the handlers use *)

Class QueryClient (C D : Type) := {
  qc_empty : C;
  qc_find : QueryKey -> C -> option (QueryState D);
  qc_build : QueryKey -> C -> C;
  qc_invalidate : QueryKey -> C -> C;
  qc_setData : QueryKey -> D -> C -> C
}.

Class QueryClientLaws (C D : Type) `{!QueryClient C D} := {
  qc_find_empty k : qc_find k qc_empty = None;
  qc_find_build k k' c :
    qc_find k' (qc_build k c) =
      match qc_find k' c with
      | Some q => Some q
      | None => if decide (k = k') then Some (mkQueryState None false) else None
      end;
  qc_find_invalidate f k c :
    qc_find k (qc_invalidate f c) =
      if partialMatchKey k f then mark_invalid <$> qc_find k c else qc_find k c;
  qc_find_setData k k' d c :
    qc_find k' (qc_setData k d c) =
      if decide (k = k') then Some (mkQueryState (Some d) false) else qc_find k' c
}.

(** Two caches are equivalent when every key finds the same state. *)
Definition cache_equiv {C D} `{!QueryClient C D} (c1 c2 : C) : Prop :=
  forall k, qc_find k c1 = qc_find k c2.

(** Invalidating every filter of a list, in order. *)
Definition invalidate_all {C D} `{!QueryClient C D} (fs : list QueryKey) (c : C) : C :=
  fold_left (fun c f => qc_invalidate f c) fs c.

(** ** The list implementation *)
Module ListCache.
Section WithData.
Context {D : Type}.

Abbreviation t := (list (QueryKey * QueryState D)).

Fixpoint find (k : QueryKey) (c : t) : option (QueryState D) :=
  match c with
  | [] => None
  | (k', q) :: c' => if decide (k' = k) then Some q else find k c'
  end.

Definition build (k : QueryKey) (c : t) : t :=
  match find k c with
  | Some _ => c
  | None => c ++ [(k, mkQueryState None false)]
  end.

Definition invalidateQueries (f : QueryKey) (c : t) : t :=
  map (fun e => if partialMatchKey e.1 f then (e.1, mark_invalid e.2) else e) c.

Fixpoint setQueryData (k : QueryKey) (d : D) (c : t) : t :=
  match c with
  | [] => [(k, mkQueryState (Some d) false)]
  | (k', q) :: c' =>
      if decide (k' = k) then (k', mkQueryState (Some d) false) :: c'
      else (k', q) :: setQueryData k d c'
  end.

End WithData.
End ListCache.

#[export] Instance ListCache_QueryClient D : QueryClient (list (QueryKey * QueryState D)) D := {
  qc_empty := [];
  qc_find := ListCache.find;
  qc_build := ListCache.build;
  qc_invalidate := ListCache.invalidateQueries;
  qc_setData := ListCache.setQueryData
}.

(** ** partialMatchKey *)

(** Element-wise reading of [partialMatchKey]: index [i] of the filter
    equals index [i] of the key, [undefined] past its end. *)
Lemma partialMatchKey_spec (a b : QueryKey) :
  partialMatchKey a b = true <->
  forall i y, b !! i = Some y -> default JUndef (a !! i) = y.
Proof.
  revert a. induction b as [|y b IH]; intros a; simpl.
  - split; [|done]. intros _ i y H. by rewrite lookup_nil in H.
  - destruct a as [|x a]; rewrite andb_true_iff, js_eqb_true;
      [specialize (IH [])|specialize (IH a)]; rewrite IH; split.
    + intros [-> H] [|i] y' Hy; simpl in Hy; [by injection Hy|].
      by apply (H i).
    + intros H. split; [by apply (H 0%nat)|]. intros i y' Hy. by apply (H (S i)).
    + intros [-> H] [|i] y' Hy; simpl in Hy; [by injection Hy|]. by apply (H i).
    + intros H. split; [by apply (H 0%nat)|]. intros i y' Hy. by apply (H (S i)).
Qed.

(** A key matches every prefix of itself. *)
Lemma partialMatchKey_prefix (k rest : QueryKey) : partialMatchKey (k ++ rest) k = true.
Proof.
  induction k as [|x k IH]; simpl; [done|]. by rewrite js_eqb_refl, IH.
Qed.

#[export] Hint Rewrite partialMatchKey_prefix : model_rw.

(** ** The list implementation satisfies the laws *)

Section ListCacheLaws.
Context {D : Type}.

Lemma ListCache_find_invalidate f k (c : list (QueryKey * QueryState D)) :
  ListCache.find k (ListCache.invalidateQueries f c) =
    if partialMatchKey k f then mark_invalid <$> ListCache.find k c
    else ListCache.find k c.
Proof.
  induction c as [|[k' q] c IH]; simpl; [by destruct (partialMatchKey k f)|].
  destruct (partialMatchKey k' f) eqn:Hm; simpl; case_decide; subst;
    try rewrite Hm; try done.
Qed.

Lemma ListCache_find_setData k k' d (c : list (QueryKey * QueryState D)) :
  ListCache.find k' (ListCache.setQueryData k d c) =
    if decide (k = k') then Some (mkQueryState (Some d) false) else ListCache.find k' c.
Proof.
  induction c as [|[k1 q] c IH]; simpl.
  - by repeat case_decide.
  - repeat case_decide; subst; simpl; repeat case_decide; by subst.
Qed.

Lemma ListCache_find_app k (c1 c2 : list (QueryKey * QueryState D)) :
  ListCache.find k (c1 ++ c2) =
    match ListCache.find k c1 with Some q => Some q | None => ListCache.find k c2 end.
Proof.
  induction c1 as [|[k1 q] c1 IH]; simpl; [done|]. by case_decide.
Qed.

Lemma ListCache_find_build k k' (c : list (QueryKey * QueryState D)) :
  ListCache.find k' (ListCache.build k c) =
    match ListCache.find k' c with
    | Some q => Some q
    | None => if decide (k = k') then Some (mkQueryState None false) else None
    end.
Proof.
  unfold ListCache.build. destruct (ListCache.find k c) eqn:Hk.
  - destruct (ListCache.find k' c) eqn:Hk'; [done|].
    case_decide; subst; congruence.
  - rewrite ListCache_find_app. destruct (ListCache.find k' c); [done|].
    simpl. by repeat case_decide.
Qed.

End ListCacheLaws.

#[export] Instance ListCache_laws D : QueryClientLaws (list (QueryKey * QueryState D)) D.
Proof.
  split; intros; simpl.
  - done.
  - apply ListCache_find_build.
  - apply ListCache_find_invalidate.
  - apply ListCache_find_setData.
Qed.

(** ** Consequences of the laws, for any implementation *)

Section ClientFacts.
Context {C D : Type} `{QueryClientLaws C D}.

Lemma mark_invalid_idem (q : QueryState D) : mark_invalid (mark_invalid q) = mark_invalid q.
Proof. done. Qed.

Lemma find_invalidate_all fs k c :
  qc_find k (invalidate_all fs c) =
    if existsb (partialMatchKey k) fs then mark_invalid <$> qc_find k c else qc_find k c.
Proof.
  unfold invalidate_all. revert c. induction fs as [|f fs IH]; intros c; simpl; [done|].
  rewrite IH, qc_find_invalidate.
  destruct (partialMatchKey k f), (existsb (partialMatchKey k) fs); simpl; try done.
  by destruct (qc_find k c).
Qed.

#[export] Instance cache_equiv_equivalence : Equivalence (@cache_equiv C D _).
Proof.
  split; unfold cache_equiv.
  - done.
  - intros c1 c2 E k. by rewrite E.
  - intros c1 c2 c3 E1 E2 k. by rewrite E1, E2.
Qed.

#[export] Instance qc_invalidate_proper f :
  Proper (@cache_equiv C D _ ==> @cache_equiv C D _) (qc_invalidate f).
Proof. intros c1 c2 E k. by rewrite !qc_find_invalidate, E. Qed.

#[export] Instance invalidate_all_proper fs :
  Proper (@cache_equiv C D _ ==> @cache_equiv C D _) (invalidate_all fs).
Proof. intros c1 c2 E k. by rewrite !find_invalidate_all, E. Qed.

(** Invalidations commute: the order in which a handler fires them
    does not matter. *)
Lemma invalidate_comm f g c :
  cache_equiv (qc_invalidate f (qc_invalidate g c)) (qc_invalidate g (qc_invalidate f c)).
Proof.
  intros k. rewrite !qc_find_invalidate.
  destruct (partialMatchKey k f), (partialMatchKey k g); try done;
    by destruct (qc_find k c).
Qed.

End ClientFacts.

#[export] Hint Rewrite @find_invalidate_all : model_rw.
