(* ===== verification/Services.v ===== *)
(** * utils/axios.ts and services/*.service.ts

    Each service function builds one HTTP request on the shared axios
    [instance] and awaits it; a rejection is caught and rethrown through
    [handleApiError].  The model separates the two halves: a request
    builder per service function ([Request] with method, URL relative to
    the base URL, and JSON body), and [service_call], which runs a request
    against a transport [send] (the external REST service, a parameter of
    the model) and normalises its failure.  The request interceptor of
    utils/axios.ts adds the bearer token ([with_auth]). *)

From Stdlib Require Import ZArith String.
From stdpp Require Import base strings list.
From S2P Require Import Prelude Types ApiError.

Open Scope Z_scope.
Open Scope string_scope.

Inductive Method := GET | POST | PUT | DELETE.

#[export] Instance Method_eq_dec : EqDecision Method.
Proof. solve_decision. Defined.

(** A JSON object body, properties in creation order. *)
Abbreviation JsonBody := (list (string * jsval)).

Record Request := mkRequest {
  method : Method;
  url : string;
  body : option JsonBody;
  headers : list (string * string)
}.

(** [axios.create({ baseURL, headers: { "Content-Type": ... } })] *)
Definition instance_headers : list (string * string) :=
  [("Content-Type", "application/json")].

Definition request (m : Method) (u : string) (b : option JsonBody) : Request :=
  mkRequest m u b instance_headers.

(** The request interceptor: [config.headers.Authorization = `Bearer ${ACCESS_TOKEN}`]. *)
Definition with_auth (token : string) (r : Request) : Request :=
  mkRequest (method r) (url r) (body r) (headers r ++ [("Authorization", "Bearer " ++ token)]).

(** [`?page=${page}&per_page=${per_page}`] *)
Definition page_query (page per_page : Z) : string :=
  "?page=" ++ js_show page ++ "&per_page=" ++ js_show per_page.

(** ** users.service.ts *)
Module userApi.
Import Users.

Definition form_body (d : UserFormData) : JsonBody :=
  [("name", JStr (form_name d)); ("email", JStr (form_email d));
   ("gender", JStr (UserGender_value (form_gender d)));
   ("status", JStr (UserStatus_value (form_status d)))].

Definition getUsers (page per_page : Z) : Request :=
  request GET ("/users" ++ page_query page per_page) None.
Definition getUser (id : Z) : Request :=
  request GET ("/users/" ++ js_show id) None.
Definition createUser (userData : UserFormData) : Request :=
  request POST "/users" (Some (form_body userData)).
Definition updateUser (id : Z) (userData : UserFormData) : Request :=
  request PUT ("/users/" ++ js_show id) (Some (form_body userData)).
Definition deleteUser (id : Z) : Request :=
  request DELETE ("/users/" ++ js_show id) None.
End userApi.

(** ** todos.service.ts *)
Module todoApi.
Import Todos.

Definition data_body (d : CreateTodoData) : JsonBody :=
  [("title", JStr (data_title d)); ("due_on", JStr (data_due_on d));
   ("status", JStr (data_status d))].

Definition getTodos (page per_page : Z) : Request :=
  request GET ("/todos" ++ page_query page per_page) None.
Definition getUserTodos (userId page per_page : Z) : Request :=
  request GET ("/users/" ++ js_show userId ++ "/todos" ++ page_query page per_page) None.
Definition createTodo (userId : Z) (todoData : CreateTodoData) : Request :=
  request POST ("/users/" ++ js_show userId ++ "/todos") (Some (data_body todoData)).
(** [todoData: Partial<CreateTodoData>]: the body is whatever subset
    of the fields the caller passed. *)
Definition updateTodo (id : Z) (todoData : JsonBody) : Request :=
  request PUT ("/todos/" ++ js_show id) (Some todoData).
Definition deleteTodo (id : Z) : Request :=
  request DELETE ("/todos/" ++ js_show id) None.
End todoApi.

(** ** posts.service.ts *)
Module postsApi.
Import Posts.

Definition getPosts (page per_page : Z) : Request :=
  request GET ("/posts" ++ page_query page per_page) None.
Definition getUserPosts (userId page per_page : Z) : Request :=
  request GET ("/users/" ++ js_show userId ++ "/posts" ++ page_query page per_page) None.
(** [{ user_id: userId, ...data }] *)
Definition createPost (userId : Z) (data : PostFormData) : Request :=
  request POST "/posts"
    (Some [("user_id", JNum userId); ("title", JStr (form_title data));
           ("body", JStr (form_body data))]).
Definition updatePost (postId : Z) (data : PostFormData) : Request :=
  request PUT ("/posts/" ++ js_show postId)
    (Some [("title", JStr (form_title data)); ("body", JStr (form_body data))]).
Definition deletePost (postId : Z) : Request :=
  request DELETE ("/posts/" ++ js_show postId) None.
Definition getPostComments (postId page per_page : Z) : Request :=
  request GET ("/posts/" ++ js_show postId ++ "/comments" ++ page_query page per_page) None.
(** [{ post_id: postId, ...data }] *)
Definition createComment (postId : Z) (data : CommentData) : Request :=
  request POST "/comments"
    (Some [("post_id", JNum postId); ("name", JStr (cdata_name data));
           ("email", JStr (cdata_email data)); ("body", JStr (cdata_body data))]).
Definition deleteComment (commentId : Z) : Request :=
  request DELETE ("/comments/" ++ js_show commentId) None.
End postsApi.

(** ** Running a request *)

(** What the transport answers: a response, or the axios rejection. *)
Definition Outcome (R : Type) := sum AxiosError R.

(** [try { return await instance...(...) } catch (error) { throw handleApiError(error) }] *)
Definition service_call {R} (send : Request -> Outcome R) (r : Request) : sum Thrown R :=
  match send r with
  | inl e => inl (handleApiError e)
  | inr resp => inr resp
  end.
