(* ===== verification/Profile.v ===== *)
(** * The active profile

    context/UserContext.tsx keeps [selectedUser : UserType | null] in a
    React state; the only writer in the program is [handleSetAsProfile]
    of components/users/UserTable.tsx, which refuses inactive users.
    UserTable also derives, for every row, whether the "Set as Profile"
    button is disabled and which tooltip it shows, and Header.tsx colours
    the avatar from the selected user's status. *)

From Stdlib Require Import ZArith String.
From stdpp Require Import base strings list.
From S2P Require Import Prelude Types.

Open Scope Z_scope.
Open Scope string_scope.

Module Profile.
Import Users.

(** [useUser()]: the value of the nearest [UserContext.Provider] (its
    [selectedUser]; [setSelectedUser] is the writer modelled by
    [handleSetAsProfile]), or [undefined] outside every provider, where
    it throws.  pages/_app.tsx renders every page inside [UserProvider],
    whose state starts at [null]. *)
Definition useUser (context : option (option UserType)) : sum JsError (option UserType) :=
  match context with
  | None => inl (Error "useUser must be used within a UserProvider")
  | Some selectedUser => inr selectedUser
  end.

(** [selectedUser?.id] *)
Definition selected_id (selected : option UserType) : jsval :=
  js_opt_field (fun u => JNum (id u)) selected.

(** [handleSetAsProfile(user)]: the new selected user and the toasts. *)
Definition handleSetAsProfile (user : UserType) (selected : option UserType)
  : option UserType * list UiEffect :=
  if decide (status user = Inactive) then
    (selected, [MessageError "Cannot set inactive user as profile"])
  else
    (Some user, [MessageSuccess (name user ++ " set as profile successfully")]).

(** [record.id === selectedUser?.id] *)
Definition isCurrent (record : UserType) (selected : option UserType) : bool :=
  (JNum (id record) === selected_id selected)%js.

(** [disabled={record.id === selectedUser?.id || record.status === UserStatus.Inactive}] *)
Definition setProfileDisabled (record : UserType) (selected : option UserType) : bool :=
  isCurrent record selected || bool_decide (status record = Inactive).

(** The tooltip title of the button. *)
Definition setProfileTooltip (record : UserType) (selected : option UserType) : string :=
  if decide (status record = Inactive) then "Cannot set inactive user as profile"
  else if isCurrent record selected then "Current profile"
  else "Set as profile".

(** Header.tsx: [selectedUser?.status === "active" ? "bg-green-500" : "bg-gray-400"] *)
Definition avatarClass (selected : option UserType) : string :=
  if bool_decide (js_opt_field (fun u => JStr (UserStatus_value (status u))) selected
                  = JStr "active")
  then "bg-green-500" else "bg-gray-400".

(** The active-profile invariant: no inactive user is selected. *)
Definition profile_ok (selected : option UserType) : Prop :=
  forall u, selected = Some u -> status u = Active.

End Profile.

Module ProfileFacts.
Import Users Profile.

(** Selecting a profile never selects an inactive user. *)
Lemma handleSetAsProfile_ok user selected :
  profile_ok selected -> profile_ok (handleSetAsProfile user selected).1.
Proof.
  unfold handleSetAsProfile, profile_ok. intros Hok u.
  case_decide as Hs; simpl; [apply Hok|].
  intros [= <-]. destruct (status user); congruence.
Qed.

(** An inactive user leaves the selection unchanged and shows the
    error toast. *)
Lemma handleSetAsProfile_inactive user selected :
  status user = Inactive ->
  handleSetAsProfile user selected =
    (selected, [MessageError "Cannot set inactive user as profile"]).
Proof. intros Hs. unfold handleSetAsProfile. by rewrite decide_True. Qed.

Lemma handleSetAsProfile_active user selected :
  status user = Active ->
  handleSetAsProfile user selected =
    (Some user, [MessageSuccess (name user ++ " set as profile successfully")]).
Proof. intros Hs. unfold handleSetAsProfile. rewrite decide_False; [done|congruence]. Qed.

(** C10: the row's button and its tooltip agree: the button is enabled
    exactly when the tooltip reads "Set as profile", and pressing an
    enabled button selects that row's user with the success toast. *)
Theorem setProfile_button_consistent record selected :
  (setProfileDisabled record selected = false <->
   setProfileTooltip record selected = "Set as profile") /\
  (setProfileDisabled record selected = false ->
   handleSetAsProfile record selected =
     (Some record, [MessageSuccess (name record ++ " set as profile successfully")])).
Proof.
  unfold setProfileDisabled, setProfileTooltip.
  destruct (status record) eqn:Hs;
    [rewrite bool_decide_eq_false_2 by congruence | rewrite bool_decide_eq_true_2 by done];
    rewrite ?orb_false_r, ?orb_true_r.
  - rewrite decide_False by congruence.
    split; [|intros _; by apply handleSetAsProfile_active].
    destruct (isCurrent record selected); split; done.
  - rewrite decide_True by done. split; [split; done|done].
Qed.

End ProfileFacts.

#[export] Hint Resolve ProfileFacts.handleSetAsProfile_ok : model.
