(* ===== verification/Pages.v ===== *)
(** * The list queries the pages mount

    Every paginated view calls [useQuery] with a key, a query function and
    an [enabled] flag:
    - pages/users/index.tsx: [['users', page, pageSize]];
    - pages/todos/index.tsx: [['todos', selectedUser?.id, page, pageSize]],
      enabled when [selectedUser?.id] is truthy, and a local empty
      response when it is not;
    - pages/posts/all.tsx: [['posts', page, pageSize]];
    - pages/posts/my.tsx: [['my-posts', selectedUser?.id, page, pageSize]],
      enabled when a user is selected, [null] otherwise;
    - components/posts/PostsCard.tsx: [['comments', post.id]], enabled
      while the comments panel is open, always the first page of ten.
    [PageQuery] has one constructor per call site; [queryKey], [enabled]
    and [queryFn] translate the three options. *)

From Stdlib Require Import ZArith String.
From stdpp Require Import base strings list.
From S2P Require Import Prelude Types Services QueryCache Profile.

Open Scope Z_scope.
Open Scope string_scope.

Module Pages.
Import Users Profile.

Inductive PageQuery :=
| QUsers (page pageSize : Z)
| QTodos (selectedUser : option UserType) (page pageSize : Z)
| QPosts (page pageSize : Z)
| QMyPosts (selectedUser : option UserType) (page pageSize : Z)
| QComments (postId : Z) (showComments : bool).

Definition queryKey (q : PageQuery) : QueryKey :=
  match q with
  | QUsers page pageSize => [JStr "users"; JNum page; JNum pageSize]
  | QTodos sel page pageSize => [JStr "todos"; selected_id sel; JNum page; JNum pageSize]
  | QPosts page pageSize => [JStr "posts"; JNum page; JNum pageSize]
  | QMyPosts sel page pageSize => [JStr "my-posts"; selected_id sel; JNum page; JNum pageSize]
  | QComments postId _ => [JStr "comments"; JNum postId]
  end.

Definition enabled (q : PageQuery) : bool :=
  match q with
  | QTodos sel _ _ => js_truthy (selected_id sel)
  | QMyPosts sel _ _ => bool_decide (is_Some sel)
  | QComments _ show => show
  | _ => true
  end.

(** What the query function does when it runs. *)
Inductive Fetch :=
| FetchRequest (r : Request)
| FetchLocalEmpty          (** [Promise.resolve({ data: [], headers: { 'x-pagination-total': '0' } ... })] *)
| FetchNull.               (** [null] *)

Definition queryFn (q : PageQuery) : Fetch :=
  match q with
  | QUsers page pageSize => FetchRequest (userApi.getUsers page pageSize)
  | QTodos sel page pageSize =>
      match sel with
      | Some u => if js_truthy (JNum (id u))
                  then FetchRequest (todoApi.getUserTodos (id u) page pageSize)
                  else FetchLocalEmpty
      | None => FetchLocalEmpty
      end
  | QPosts page pageSize => FetchRequest (postsApi.getPosts page pageSize)
  | QMyPosts sel page pageSize =>
      match sel with
      | Some u => FetchRequest (postsApi.getUserPosts (id u) page pageSize)
      | None => FetchNull
      end
  | QComments postId _ => FetchRequest (postsApi.getPostComments postId 1 10)
  end.

(** The paginated view a query belongs to, and its page and size. *)
Definition with_page (q : PageQuery) (page pageSize : Z) : PageQuery :=
  match q with
  | QUsers _ _ => QUsers page pageSize
  | QTodos sel _ _ => QTodos sel page pageSize
  | QPosts _ _ => QPosts page pageSize
  | QMyPosts sel _ _ => QMyPosts sel page pageSize
  | QComments pid show => QComments pid show
  end.

Definition paginated (q : PageQuery) : bool :=
  match q with QComments _ _ => false | _ => true end.

(** What a page reads from its [useQuery]: [isLoading], no data
    ([data] undefined: the query is disabled, or it failed), or the
    response's [data] array with its [x-pagination-total] header. *)
Inductive QueryView (A : Type) :=
| QLoading
| QIdle
| QData (items : list A) (total_header : option string).
Arguments QLoading {A}.
Arguments QIdle {A}.
Arguments QData {A}.

(** [data?.data || []] *)
Definition view_items {A} (v : QueryView A) : list A :=
  match v with QData l _ => l | _ => [] end.

(** [data?.headers?.['x-pagination-total']] *)
Definition view_header {A} (v : QueryView A) : option string :=
  match v with QData _ h => h | _ => None end.

(** A disabled query neither loads nor has data: no other call site
    fetches the keys these pages use. *)
Definition view_consistent {A} (q : PageQuery) (v : QueryView A) : bool :=
  enabled q || match v with QIdle => true | _ => false end.

End Pages.

Module PagesFacts.
Import Users Profile Pages.

Lemma selected_id_eq s1 s2 :
  selected_id s1 = selected_id s2 ->
  (s1 = None /\ s2 = None) \/
  exists u1 u2, s1 = Some u1 /\ s2 = Some u2 /\ id u1 = id u2.
Proof.
  destruct s1 as [u1|], s2 as [u2|]; simpl; intros H; try discriminate.
  - right. exists u1, u2. by injection H as ->.
  - by left.
Qed.

(** C11: the cache key of a list view determines the fetch it stands
    for: two call sites (or two renders) that build the same key run the
    same request, so the cache never serves one view's data for
    another. *)
Theorem queryKey_determines_fetch (q1 q2 : PageQuery) :
  queryKey q1 = queryKey q2 -> queryFn q1 = queryFn q2.
Proof.
  destruct q1, q2; simpl; intros Hk; simplify_eq; try done;
    match goal with
    | H : selected_id ?s1 = selected_id ?s2 |- _ =>
        destruct (selected_id_eq s1 s2 H) as [[-> ->]|(u1 & u2 & -> & -> & Hid)];
        [done | by rewrite Hid]
    end.
Qed.

(** Two renders of the todos page for the same user id (the context's
    copy of the user differs in name) share the key and the request. *)
Lemma queryKey_determines_fetch_witness :
  queryKey (QTodos (Some (mkUser 7 "Budi" "budi@example.com" Male Active)) 1 10) =
  queryKey (QTodos (Some (mkUser 7 "Budi S." "budi@example.com" Male Active)) 1 10) /\
  queryFn (QTodos (Some (mkUser 7 "Budi" "budi@example.com" Male Active)) 1 10) =
  queryFn (QTodos (Some (mkUser 7 "Budi S." "budi@example.com" Male Active)) 1 10).
Proof.
  split; [reflexivity|]. apply queryKey_determines_fetch. reflexivity.
Defined.

(** C19: on every paginated view, changing the page or the page size
    yields a different cache key; the comments view has no page in its
    key (it always shows the first ten comments). *)
Theorem page_change_new_key (q : PageQuery) p s p' s' :
  (p, s) <> (p', s') ->
  (paginated q = true -> queryKey (with_page q p s) <> queryKey (with_page q p' s')) /\
  (paginated q = false -> queryKey (with_page q p s) = queryKey (with_page q p' s')).
Proof.
  intros Hne. destruct q; simpl; split; intros Hp; try discriminate; try done;
    intros Hk; simplify_eq; congruence.
Qed.

Lemma page_change_new_key_witness :
  ((1, 10) <> (2, 10)) /\
  (paginated (QUsers 1 10) = true ->
     queryKey (with_page (QUsers 1 10) 1 10) <> queryKey (with_page (QUsers 1 10) 2 10)) /\
  (paginated (QUsers 1 10) = false ->
     queryKey (with_page (QUsers 1 10) 1 10) = queryKey (with_page (QUsers 1 10) 2 10)).
Proof.
  assert (H : (1, 10) <> (2, 10)) by (intros [=]).
  split; [exact H|]. apply (page_change_new_key (QUsers 1 10) 1 10 2 10 H).
Defined.

End PagesFacts.
