(* ===== verification/JsNumber.v ===== *)
(** * JavaScript's string-to-number conversions

    [Number(s)] (ECMAScript StringToNumber) and [parseInt(s)] on the
    strings the program converts: the pagination header of the list
    views (Pagination.v) and the object keys of
    src/src/pages/latihan/index.tsx (Latihan.v).  [Number] trims white
    space, reads the empty string as 0, [0x]/[0o]/[0b] literals in base
    16/8/2, a signed decimal literal with optional fraction and exponent,
    or [Infinity], and gives NaN for anything else; [parseInt] reads the
    longest prefix of digits.

    The value of a decimal literal is kept exactly, as [JDec m e] meaning
    m * 10^e; rounding to the nearest double is not modelled (every
    integer below 2^53 is exact), nor is the sign of a zero.  Strings are
    Latin-1 code units, so the white space is TAB, LF, VT, FF, CR, SPACE
    and NBSP.  [JsNumberFacts] proves that both conversions read back the
    decimal rendering [`${n}`] of every integer n. *)

From Stdlib Require Import ZArith String Ascii DecimalString DecimalZ.
From stdpp Require Import base list.
From S2P Require Import Prelude.

Open Scope Z_scope.

Module JsNumber.

Inductive t :=
| JDec (m e : Z)
| JInf (neg : bool)
| JNaN.

(** [`${x}`] (Number::toString) where the program's values need it:
    an integral value below 10^21 prints its decimal digits, NaN and the
    infinities their names; a fraction or a larger magnitude (printed
    with a fraction or an exponent) is not modelled ([None]). *)
Definition toString (x : t) : option string :=
  match x with
  | JDec m e =>
      let v := if 0 <=? e then Some (m * 10 ^ e) else
               if (m mod 10 ^ (- e) =? 0) then Some (m / 10 ^ (- e)) else None in
      match v with
      | Some n => if Z.abs n <? 10 ^ 21 then Some (js_show n) else None
      | None => None
      end
  | JInf neg => Some (if neg then "-Infinity" else "Infinity")%string
  | JNaN => Some "NaN"%string
  end.

Definition negate (x : t) : t :=
  match x with
  | JDec m e => JDec (- m) e
  | JInf b => JInf (negb b)
  | JNaN => JNaN
  end.

Definition is_ws (c : ascii) : bool :=
  match nat_of_ascii c with
  | 9 | 10 | 11 | 12 | 13 | 32 | 160 => true
  | _ => false
  end%nat.

Fixpoint drop_ws (l : list ascii) : list ascii :=
  match l with
  | c :: l' => if is_ws c then drop_ws l' else l
  | [] => []
  end.

(** [String.prototype.trim] *)
Definition trim (s : string) : list ascii :=
  rev (drop_ws (rev (drop_ws (list_ascii_of_string s)))).

(** The value of a digit in a base up to 16. *)
Definition digit_val (base : Z) (c : ascii) : option Z :=
  let n := Z.of_nat (nat_of_ascii c) in
  let v := if (48 <=? n) && (n <=? 57) then Some (n - 48)
           else if (97 <=? n) && (n <=? 102) then Some (n - 87)
           else if (65 <=? n) && (n <=? 70) then Some (n - 55)
           else None in
  match v with
  | Some d => if d <? base then Some d else None
  | None => None
  end.

Fixpoint digits_acc (base : Z) (l : list ascii) (acc : Z) : option Z :=
  match l with
  | [] => Some acc
  | c :: l' =>
      match digit_val base c with
      | Some d => digits_acc base l' (acc * base + d)
      | None => None
      end
  end.

(** A non-empty run of digits. *)
Definition digits (base : Z) (l : list ascii) : option Z :=
  match l with
  | [] => None
  | _ => digits_acc base l 0
  end.

Definition is_digit (c : ascii) : bool := bool_decide (is_Some (digit_val 10 c)).

Fixpoint span (p : ascii -> bool) (l : list ascii) : list ascii * list ascii :=
  match l with
  | c :: l' => if p c then let '(a, b) := span p l' in (c :: a, b) else ([], l)
  | [] => ([], [])
  end.

(** ExponentPart: [e] or [E], an optional sign, digits. *)
Definition exponent (l : list ascii) : option Z :=
  match l with
  | [] => Some 0
  | c :: r =>
      if (c =? "e")%char || (c =? "E")%char then
        match r with
        | s :: r' =>
            if (s =? "+")%char then digits 10 r'
            else if (s =? "-")%char then option_map Z.opp (digits 10 r')
            else digits 10 r
        | [] => None
        end
      else None
  end.

(** StrUnsignedDecimalLiteral *)
Definition unsigned_decimal (l : list ascii) : t :=
  if bool_decide (l = list_ascii_of_string "Infinity") then JInf false else
  let '(d1, r1) := span is_digit l in
  let '(d2, r2) :=
    match r1 with
    | c :: r => if (c =? ".")%char then span is_digit r else ([], r1)
    | [] => ([], [])
    end in
  match d1 ++ d2, exponent r2 with
  | [], _ => JNaN
  | ds, Some e =>
      match digits 10 ds with
      | Some m => JDec m (e - Z.of_nat (length d2))
      | None => JNaN
      end
  | _, None => JNaN
  end.

(** [0x], [0o], [0b] literals: a non-empty run of digits of the base. *)
Definition non_decimal (base : Z) (l : list ascii) : t :=
  match digits base l with Some v => JDec v 0 | None => JNaN end.

(** StringToNumber on the trimmed characters. *)
Definition number_of_chars (l : list ascii) : t :=
  match l with
  | [] => JDec 0 0
  | c0 :: x :: r =>
      if (c0 =? "0")%char && ((x =? "x")%char || (x =? "X")%char) then non_decimal 16 r
      else if (c0 =? "0")%char && ((x =? "o")%char || (x =? "O")%char) then non_decimal 8 r
      else if (c0 =? "0")%char && ((x =? "b")%char || (x =? "B")%char) then non_decimal 2 r
      else if (c0 =? "+")%char then unsigned_decimal (x :: r)
      else if (c0 =? "-")%char then negate (unsigned_decimal (x :: r))
      else unsigned_decimal (c0 :: x :: r)
  | [c0] => unsigned_decimal [c0]
  end.

(** [Number(s)] for a string [s]. *)
Definition Number (s : string) : t := number_of_chars (trim s).

(** The sign step of [parseInt]: a leading [-] or [+] is consumed. *)
Definition parse_sign (l : list ascii) : bool * list ascii :=
  match l with
  | c :: r => if (c =? "-")%char then (true, r)
              else if (c =? "+")%char then (false, r) else (false, l)
  | [] => (false, [])
  end.

(** The radix step of [parseInt] with no radix argument: a [0x] or [0X]
    prefix selects base 16, and is consumed; otherwise base 10. *)
Definition parse_radix (l : list ascii) : Z * list ascii :=
  match l with
  | c0 :: x :: r =>
      if (c0 =? "0")%char && ((x =? "x")%char || (x =? "X")%char) then (16, r) else (10, l)
  | _ => (10, l)
  end.

(** [parseInt(s)] with no radix argument: leading white space, the sign,
    the radix, then the longest run of digits of the base, read as an
    integer; NaN when that run is empty.  The characters after the run
    are ignored. *)
Definition parseInt (s : string) : t :=
  let '(neg, l1) := parse_sign (drop_ws (list_ascii_of_string s)) in
  let '(base, l2) := parse_radix l1 in
  match digits base (span (fun c => bool_decide (is_Some (digit_val base c))) l2).1 with
  | Some v => if neg then negate (JDec v 0) else JDec v 0
  | None => JNaN
  end.

End JsNumber.

(** ** Reading back the decimal rendering of an integer *)
Module JsNumberFacts.
Import JsNumber.

(** Evaluate the code points of literal characters. *)
Ltac eval_chars :=
  repeat match goal with
  | |- context [Z.of_nat (nat_of_ascii ?c)] =>
      let v := eval vm_compute in (Z.of_nat (nat_of_ascii c)) in
      change (Z.of_nat (nat_of_ascii c)) with v
  end.

(** The characters of the decimal rendering of a [uint]. *)
Definition uint_chars (d : Decimal.uint) : list ascii :=
  list_ascii_of_string (NilEmpty.string_of_uint d).

Lemma uint_chars_digits d :
  Forall (fun c => is_digit c = true /\ is_ws c = false) (uint_chars d).
Proof. induction d; constructor; auto. Qed.

Lemma digits_acc_uint_pos d p :
  digits_acc 10 (uint_chars d) (Z.pos p) = Some (Z.pos (Pos.of_uint_acc d p)).
Proof.
  revert p. induction d; intros p; try done; unfold uint_chars in *; simpl;
    rewrite <- IHd; f_equal; eval_chars; lia.
Qed.

Lemma digits_acc_uint d : digits_acc 10 (uint_chars d) 0 = Some (Z.of_uint d).
Proof.
  induction d; unfold uint_chars; simpl; try done; fold (uint_chars d); eval_chars;
    match goal with |- digits_acc _ _ ?a = _ =>
      let v := eval vm_compute in a in change a with v end;
    first [exact IHd | by rewrite digits_acc_uint_pos].
Qed.

Lemma span_all (p : ascii -> bool) l : Forall (fun c => p c = true) l -> span p l = (l, []).
Proof. induction 1 as [|c l Hc _ IH]; simpl; [done|]. by rewrite Hc, IH. Qed.

Lemma drop_ws_id l : Forall (fun c => is_ws c = false) l -> drop_ws l = l.
Proof. destruct 1; simpl; [done|]. by rewrite H. Qed.

Lemma trim_id s :
  Forall (fun c => is_ws c = false) (list_ascii_of_string s) -> trim s = list_ascii_of_string s.
Proof.
  intros H. unfold trim. rewrite (drop_ws_id _ H), drop_ws_id, rev_involutive; [done|].
  by apply Forall_rev.
Qed.

Lemma digits_uint d : uint_chars d <> [] -> digits 10 (uint_chars d) = Some (Z.of_uint d).
Proof.
  intros Hne. unfold digits. destruct (uint_chars d) eqn:E; [done|].
  rewrite <- E. apply digits_acc_uint.
Qed.

(** The decimal digits are the code points 48 to 57 (checked on all 256
    characters). *)
Lemma is_digit_range c : is_digit c = true -> (48 <= nat_of_ascii c <= 57)%nat.
Proof.
  destruct c as [[] [] [] [] [] [] [] []]; vm_compute; intros H;
    first [discriminate H | lia].
Qed.

(** A digit is none of the characters that select another branch. *)
Lemma digit_neq c k :
  is_digit c = true -> (nat_of_ascii k < 48 \/ 57 < nat_of_ascii k)%nat -> (c =? k)%char = false.
Proof.
  intros Hd Hk. apply Ascii.eqb_neq. intros ->. apply is_digit_range in Hd. lia.
Qed.

(** The characters of a digit run read as an unsigned decimal literal
    with no fraction and no exponent. *)
Lemma unsigned_decimal_uint d :
  uint_chars d <> [] -> unsigned_decimal (uint_chars d) = JDec (Z.of_uint d) 0.
Proof.
  intros Hne. pose proof (uint_chars_digits d) as Hall.
  unfold unsigned_decimal. rewrite bool_decide_eq_false_2.
  2:{ intros Heq. rewrite Heq in Hall. inversion Hall as [|? ? [Hd _] _].
      vm_compute in Hd. discriminate. }
  rewrite span_all by (eapply Forall_impl; [exact Hall|]; by intros c []).
  rewrite app_nil_r. pose proof (digits_uint d Hne) as Hdg.
  destruct (uint_chars d) as [|c l] eqn:E; [done|]. cbn -[digits].
  rewrite Hdg. do 2 f_equal.
Qed.

(** A run of digits is read as the integer it spells. *)
Lemma number_of_chars_uint d :
  uint_chars d <> [] -> number_of_chars (uint_chars d) = JDec (Z.of_uint d) 0.
Proof.
  intros Hne. pose proof (uint_chars_digits d) as Hall.
  destruct (uint_chars d) as [|c0 [|x r]] eqn:E; [done| |].
  - cbn [number_of_chars]. rewrite <- E. apply unsigned_decimal_uint. by rewrite E.
  - apply Forall_cons in Hall as [[Hc0 _] Hr]. apply Forall_cons in Hr as [[Hx _] _].
    cbn [number_of_chars].
    rewrite !(digit_neq x) by (done || (vm_compute; lia)). rewrite !andb_false_r.
    rewrite (digit_neq c0 "+"), (digit_neq c0 "-") by (done || (vm_compute; lia)).
    rewrite <- E. apply unsigned_decimal_uint. by rewrite E.
Qed.

Lemma to_uint_nonnil p : Pos.to_uint p <> Decimal.Nil.
Proof.
  intros H. pose proof (DecimalZ.of_to (Z.pos p)) as Hp. simpl in Hp.
  rewrite H in Hp. discriminate.
Qed.

Lemma uint_chars_nonnil u : u <> Decimal.Nil -> uint_chars u <> [].
Proof. destruct u; done. Qed.

Lemma chars_no_ws u : Forall (fun c => is_ws c = false) (uint_chars u).
Proof. eapply Forall_impl; [apply uint_chars_digits|]. by intros c []. Qed.

Lemma nilzero_nonnil u : u <> Decimal.Nil -> NilZero.string_of_uint u = NilEmpty.string_of_uint u.
Proof. destruct u; done. Qed.

Lemma uint_string_nonempty u :
  u <> Decimal.Nil -> String.eqb (NilEmpty.string_of_uint u) "" = false.
Proof. destruct u; done. Qed.

(** A run of digits is left alone by the sign and radix steps of
    [parseInt]. *)
Lemma parse_sign_digits l :
  Forall (fun c => is_digit c = true /\ is_ws c = false) l -> parse_sign l = (false, l).
Proof.
  destruct 1 as [|c l [Hc _] _]; [done|]. simpl.
  by rewrite (digit_neq c "-"), (digit_neq c "+") by (done || (vm_compute; lia)).
Qed.

Lemma parse_radix_digits l :
  Forall (fun c => is_digit c = true /\ is_ws c = false) l -> parse_radix l = (10, l).
Proof.
  destruct 1 as [|c l _ [|x r [Hx _] _]]; [done..|]. simpl.
  by rewrite (digit_neq x "x"), (digit_neq x "X"), andb_false_r by (done || (vm_compute; lia)).
Qed.

Lemma parseInt_uint_chars (neg : bool) u :
  u <> Decimal.Nil ->
  (let '(base, l2) := parse_radix (uint_chars u) in
   match digits base (span (fun c => bool_decide (is_Some (digit_val base c))) l2).1 with
   | Some v => if neg then negate (JDec v 0) else JDec v 0
   | None => JNaN
   end) = if neg then JDec (- Z.of_uint u) 0 else JDec (Z.of_uint u) 0.
Proof.
  intros Hu. pose proof (uint_chars_digits u) as Hall.
  rewrite parse_radix_digits by done.
  rewrite span_all by (eapply Forall_impl; [exact Hall|]; by intros c []).
  simpl. rewrite digits_uint by (by apply uint_chars_nonnil). by destruct neg.
Qed.

Lemma js_show_pos p :
  js_show (Z.pos p) = NilEmpty.string_of_uint (Pos.to_uint p).
Proof. apply nilzero_nonnil, to_uint_nonnil. Qed.

Lemma js_show_neg p :
  js_show (Z.neg p) = String "-"%char (NilEmpty.string_of_uint (Pos.to_uint p)).
Proof. unfold js_show. simpl. by rewrite nilzero_nonnil by apply to_uint_nonnil. Qed.

Lemma js_show_nonempty n : String.eqb (js_show n) ""%string = false.
Proof.
  destruct n as [|p|p]; [done| |by rewrite js_show_neg].
  rewrite js_show_pos. apply uint_string_nonempty, to_uint_nonnil.
Qed.

(** [Number(`${n}`)] is n. *)
Lemma Number_js_show n : Number (js_show n) = JDec n 0.
Proof.
  pose proof (DecimalZ.of_to n) as Hn. unfold Number.
  destruct n as [|p|p]; [reflexivity| |]; simpl in Hn;
    pose proof (to_uint_nonnil p) as Hu.
  - rewrite js_show_pos, trim_id by apply chars_no_ws.
    fold (uint_chars (Pos.to_uint p)). rewrite number_of_chars_uint by (by apply uint_chars_nonnil).
    by rewrite Hn.
  - rewrite js_show_neg, trim_id by (constructor; [done|apply chars_no_ws]). simpl.
    fold (uint_chars (Pos.to_uint p)).
    destruct (uint_chars (Pos.to_uint p)) as [|x r] eqn:E;
      [by apply uint_chars_nonnil in Hu|].
    rewrite <- E, unsigned_decimal_uint by (by apply uint_chars_nonnil). simpl. by rewrite Hn.
Qed.

(** [parseInt(`${n}`)] is n. *)
(** An integer below 10^21 prints as its decimal rendering. *)
Lemma toString_int n : Z.abs n < 10 ^ 21 -> toString (JDec n 0) = Some (js_show n).
Proof.
  intros Hn. unfold toString. simpl. rewrite Z.mul_1_r.
  by rewrite (proj2 (Z.ltb_lt _ _) Hn).
Qed.

Lemma parseInt_js_show n : parseInt (js_show n) = JDec n 0.
Proof.
  pose proof (DecimalZ.of_to n) as Hn. unfold parseInt.
  destruct n as [|p|p]; [reflexivity| |]; simpl in Hn;
    pose proof (to_uint_nonnil p) as Hu.
  - rewrite js_show_pos, drop_ws_id by apply chars_no_ws.
    fold (uint_chars (Pos.to_uint p)). rewrite parse_sign_digits by apply uint_chars_digits.
    rewrite (parseInt_uint_chars false) by done. by rewrite Hn.
  - rewrite js_show_neg. cbn [list_ascii_of_string drop_ws].
    fold (uint_chars (Pos.to_uint p)). change (is_ws "-"%char) with false.
    change (parse_sign _) with (true, uint_chars (Pos.to_uint p)). cbv iota beta.
    rewrite (parseInt_uint_chars true) by done. by rewrite Hn.
Qed.

(** The rendering of an integer is made of digits and a minus sign. *)
Lemma js_show_chars n :
  Forall (λ c, is_digit c = true \/ c = "-"%char) (list_ascii_of_string (js_show n)).
Proof.
  destruct n as [|p|p]; [by repeat constructor| |].
  - rewrite js_show_pos. fold (uint_chars (Pos.to_uint p)).
    eapply Forall_impl; [apply uint_chars_digits|]. intros c [? _]. by left.
  - rewrite js_show_neg. constructor; [by right|]. fold (uint_chars (Pos.to_uint p)).
    eapply Forall_impl; [apply uint_chars_digits|]. intros c [? _]. by left.
Qed.

Lemma js_show_no_sep n sep :
  is_digit sep = false -> sep <> "-"%char -> sep ∉ list_ascii_of_string (js_show n).
Proof.
  intros Hd Hm Hin. pose proof (js_show_chars n) as Hall. rewrite Forall_forall in Hall.
  destruct (Hall sep Hin) as [H|H]; congruence.
Qed.

End JsNumberFacts.
