(* ===== verification/Endpoints.v ===== *)
(** * The services against the REST endpoint table

    The spec (section 6) lists the sixteen endpoints the console
    consumes (the services have two more, [userApi.getUser] and
    [todoApi.getTodos], that no page calls), as a method and a path with [{id}] parameters and, for the
    lists, a [?page&per_page] query.  This file reads a [Request] of
    Services.v the way a router does: the URL is split at [?], the path
    at [/], a segment that is the decimal rendering of an integer is a
    parameter, and the query must be [page=<int>&per_page=<int>].  The
    theorem of [EndpointFacts] shows that every service function's
    request is routed with its arguments read back, to its row of the
    table for the sixteen listed ones, so the services implement the table and no two calls with
    different arguments share a URL. *)

From Stdlib Require Import ZArith String Ascii.
From stdpp Require Import base strings list sets.
From S2P Require Import Prelude Types ApiError Services JsNumber.

Open Scope Z_scope.

Module Endpoints.

(** A path segment of the table: a literal or an [{id}]. *)
Inductive Seg := Lit (s : string) | Param.

#[export] Instance Seg_eq_dec : EqDecision Seg.
Proof. solve_decision. Defined.

(** A routed request: method, path pattern, the integers in the
    parameter segments, and the page query when there is one. *)
Record Route := mkRoute {
  r_method : Method;
  r_segs : list Seg;
  r_params : list Z;
  r_query : option (Z * Z)
}.

Definition parse_seg (s : string) : Seg * list Z :=
  match js_read s with
  | Some n => if String.eqb (js_show n) s then (Param, [n]) else (Lit s, [])
  | None => (Lit s, [])
  end.

(** [page=<int>&per_page=<int>] *)
Definition parse_query (q : string) : option (Z * Z) :=
  match js_split "&" q with
  | [a; b] =>
      match js_split "=" a, js_split "=" b with
      | ["page"; p], ["per_page"; s] =>
          match js_read p, js_read s with
          | Some p', Some s' => Some (p', s')
          | _, _ => None
          end
      | _, _ => None
      end
  | _ => None
  end%string.

Definition route_path (m : Method) (path : string) (q : option (Z * Z)) : Route :=
  let segs := map parse_seg (js_split "/" path) in
  mkRoute m (map fst segs) (concat (map snd segs)) q.

Definition parse_request (r : Request) : option Route :=
  match js_split "?" (url r) with
  | [path] => Some (route_path (method r) path None)
  | [path; q] => match parse_query q with
                 | Some pq => Some (route_path (method r) path (Some pq))
                 | None => None
                 end
  | _ => None
  end.

(** The table of the spec: method, path pattern, and whether the row
    takes the page query. *)
Definition endpoint_table : list (Method * list Seg * bool) :=
  [(GET, [Lit ""; Lit "users"], true);
   (POST, [Lit ""; Lit "users"], false);
   (PUT, [Lit ""; Lit "users"; Param], false);
   (DELETE, [Lit ""; Lit "users"; Param], false);
   (GET, [Lit ""; Lit "users"; Param; Lit "todos"], true);
   (POST, [Lit ""; Lit "users"; Param; Lit "todos"], false);
   (PUT, [Lit ""; Lit "todos"; Param], false);
   (DELETE, [Lit ""; Lit "todos"; Param], false);
   (GET, [Lit ""; Lit "posts"], true);
   (GET, [Lit ""; Lit "users"; Param; Lit "posts"], true);
   (POST, [Lit ""; Lit "posts"], false);
   (PUT, [Lit ""; Lit "posts"; Param], false);
   (DELETE, [Lit ""; Lit "posts"; Param], false);
   (GET, [Lit ""; Lit "posts"; Param; Lit "comments"], true);
   (POST, [Lit ""; Lit "comments"], false);
   (DELETE, [Lit ""; Lit "comments"; Param], false)]%string.

Definition row_of (r : Route) : Method * list Seg * bool :=
  (r_method r, r_segs r, bool_decide (is_Some (r_query r))).

(** The service functions with their arguments (bodies included). *)
Inductive ServiceCall :=
| SGetUsers (page per_page : Z)
| SGetUser (id : Z)
| SCreateUser (d : Users.UserFormData)
| SUpdateUser (id : Z) (d : Users.UserFormData)
| SDeleteUser (id : Z)
| SGetTodos (page per_page : Z)
| SGetUserTodos (userId page per_page : Z)
| SCreateTodo (userId : Z) (d : Todos.CreateTodoData)
| SUpdateTodo (id : Z) (d : JsonBody)
| SDeleteTodo (id : Z)
| SGetPosts (page per_page : Z)
| SGetUserPosts (userId page per_page : Z)
| SCreatePost (userId : Z) (d : Posts.PostFormData)
| SUpdatePost (postId : Z) (d : Posts.PostFormData)
| SDeletePost (postId : Z)
| SGetPostComments (postId page per_page : Z)
| SCreateComment (postId : Z) (d : Posts.CommentData)
| SDeleteComment (commentId : Z).

Definition service_request (c : ServiceCall) : Request :=
  match c with
  | SGetUsers p s => userApi.getUsers p s
  | SGetUser i => userApi.getUser i
  | SCreateUser d => userApi.createUser d
  | SUpdateUser i d => userApi.updateUser i d
  | SDeleteUser i => userApi.deleteUser i
  | SGetTodos p s => todoApi.getTodos p s
  | SGetUserTodos u p s => todoApi.getUserTodos u p s
  | SCreateTodo u d => todoApi.createTodo u d
  | SUpdateTodo i d => todoApi.updateTodo i d
  | SDeleteTodo i => todoApi.deleteTodo i
  | SGetPosts p s => postsApi.getPosts p s
  | SGetUserPosts u p s => postsApi.getUserPosts u p s
  | SCreatePost u d => postsApi.createPost u d
  | SUpdatePost i d => postsApi.updatePost i d
  | SDeletePost i => postsApi.deletePost i
  | SGetPostComments i p s => postsApi.getPostComments i p s
  | SCreateComment i d => postsApi.createComment i d
  | SDeleteComment i => postsApi.deleteComment i
  end.

(** The route each call must take: its table row, with the call's
    integer arguments as parameters and page query. *)
Definition expected_route (c : ServiceCall) : Route :=
  match c with
  | SGetUsers p s => mkRoute GET [Lit ""; Lit "users"] [] (Some (p, s))
  | SGetUser i => mkRoute GET [Lit ""; Lit "users"; Param] [i] None
  | SCreateUser _ => mkRoute POST [Lit ""; Lit "users"] [] None
  | SUpdateUser i _ => mkRoute PUT [Lit ""; Lit "users"; Param] [i] None
  | SDeleteUser i => mkRoute DELETE [Lit ""; Lit "users"; Param] [i] None
  | SGetTodos p s => mkRoute GET [Lit ""; Lit "todos"] [] (Some (p, s))
  | SGetUserTodos u p s => mkRoute GET [Lit ""; Lit "users"; Param; Lit "todos"] [u] (Some (p, s))
  | SCreateTodo u _ => mkRoute POST [Lit ""; Lit "users"; Param; Lit "todos"] [u] None
  | SUpdateTodo i _ => mkRoute PUT [Lit ""; Lit "todos"; Param] [i] None
  | SDeleteTodo i => mkRoute DELETE [Lit ""; Lit "todos"; Param] [i] None
  | SGetPosts p s => mkRoute GET [Lit ""; Lit "posts"] [] (Some (p, s))
  | SGetUserPosts u p s => mkRoute GET [Lit ""; Lit "users"; Param; Lit "posts"] [u] (Some (p, s))
  | SCreatePost _ _ => mkRoute POST [Lit ""; Lit "posts"] [] None
  | SUpdatePost i _ => mkRoute PUT [Lit ""; Lit "posts"; Param] [i] None
  | SDeletePost i => mkRoute DELETE [Lit ""; Lit "posts"; Param] [i] None
  | SGetPostComments i p s => mkRoute GET [Lit ""; Lit "posts"; Param; Lit "comments"] [i] (Some (p, s))
  | SCreateComment _ _ => mkRoute POST [Lit ""; Lit "comments"] [] None
  | SDeleteComment i => mkRoute DELETE [Lit ""; Lit "comments"; Param] [i] None
  end%string.

End Endpoints.

Module EndpointFacts.
Import Endpoints JsNumberFacts.

(** Symbolic evaluation of [split_chars sep l = ?q :: ?qs] on a list
    built from literal characters, appends and renderings of integers
    (which contain no separator). *)
Ltac solve_split :=
  lazymatch goal with
  | |- split_chars ?sep [] = _ => reflexivity
  | |- split_chars ?sep ((?a ++ ?b) ++ ?c)%list = _ => rewrite <- app_assoc; solve_split
  | |- split_chars ?sep (list_ascii_of_string (js_show ?n) ++ ?r)%list = _ =>
      eapply split_chars_app_nosep;
        [apply js_show_no_sep; [reflexivity|discriminate] | solve_split]
  | |- split_chars ?sep (list_ascii_of_string (js_show ?n)) = _ =>
      rewrite <- (app_nil_r (list_ascii_of_string (js_show n))); solve_split
  | |- split_chars ?sep (list_ascii_of_string (?s1 ++ ?s2) ++ ?r)%list = _ =>
      rewrite list_ascii_of_string_app; solve_split
  | |- split_chars ?sep (list_ascii_of_string (?s1 ++ ?s2)) = _ =>
      rewrite list_ascii_of_string_app; solve_split
  | |- split_chars ?sep (list_ascii_of_string (String ?c ?s) ++ ?r)%list = _ =>
      change (list_ascii_of_string (String c s) ++ r)%list with (c :: (list_ascii_of_string s ++ r))%list;
      solve_split
  | |- split_chars ?sep (list_ascii_of_string (String ?c ?s)) = _ =>
      change (list_ascii_of_string (String c s)) with (c :: list_ascii_of_string s); solve_split
  | |- split_chars ?sep (list_ascii_of_string EmptyString ++ ?r)%list = _ =>
      change (list_ascii_of_string EmptyString ++ r)%list with r; solve_split
  | |- split_chars ?sep (list_ascii_of_string EmptyString) = _ => reflexivity
  | |- split_chars ?sep (?c :: ?r) = _ =>
      first [ change c with sep; apply split_chars_cons_sep; solve_split
            | eapply split_chars_cons_other; [discriminate | solve_split] ]
  end.

(** Replace the first [split_chars] of the goal by its value. *)
Ltac eval_split :=
  match goal with
  | |- context [split_chars ?sep ?l] =>
      let H := fresh in
      eassert (H : split_chars sep l = _) by solve_split; rewrite H; clear H
  end.

Lemma parse_seg_js_show n : parse_seg (js_show n) = (Param, [n]).
Proof. unfold parse_seg. by rewrite js_show_read, String.eqb_refl. Qed.

(** Evaluates the router on the request of one service call. *)
Ltac route_service :=
  unfold parse_request, route_path, parse_query, js_split;
    cbn [service_request userApi.getUsers userApi.getUser todoApi.getTodos userApi.createUser userApi.updateUser
         userApi.deleteUser todoApi.getUserTodos todoApi.createTodo todoApi.updateTodo
         todoApi.deleteTodo postsApi.getPosts postsApi.getUserPosts postsApi.createPost
         postsApi.updatePost postsApi.deletePost postsApi.getPostComments
         postsApi.createComment postsApi.deleteComment request url method];
    unfold page_query;
    repeat (rewrite ?list_ascii_of_string_of_list_ascii; eval_split; cbn [map]);
    rewrite ?app_nil_r, ?string_of_list_ascii_of_string, ?js_show_read, ?parse_seg_js_show;
    reflexivity.

(** C4: the services implement the REST table of the spec: the request
    of every service function, read by a router, is its route (method,
    path pattern, page query or none) with the function's integer
    arguments as the path parameters and page query; that route is a
    row of the table for every function but [userApi.getUser]
    ([GET /users/{id}]) and [todoApi.getTodos] ([GET /todos]), which
    the table does not list (and no page calls). *)
Theorem services_follow_table (c : ServiceCall) :
  parse_request (service_request c) = Some (expected_route c) /\
  (row_of (expected_route c) ∈ endpoint_table <->
   match c with SGetUser _ | SGetTodos _ _ => False | _ => True end).
Proof.
  split; [destruct c; route_service|].
  destruct c; simpl; split; intros H; try exact I; try contradiction;
    first [ apply (bool_decide_unpack _); vm_compute; exact I
          | apply (bool_decide_pack _) in H; vm_compute in H; destruct H ].
Qed.

(** Every service call is routed to its expected route. *)
Lemma parse_service_request c : parse_request (service_request c) = Some (expected_route c).
Proof. destruct c; route_service. Qed.

(** C15: two service calls whose requests have the same method and URL
    have the same table row and the same integer arguments: no URL is
    shared by calls that differ in an id, a page or a page size. *)
Theorem service_urls_injective (c1 c2 : ServiceCall) :
  method (service_request c1) = method (service_request c2) ->
  url (service_request c1) = url (service_request c2) ->
  expected_route c1 = expected_route c2.
Proof.
  intros Hm Hu. pose proof (parse_service_request c1) as H1.
  pose proof (parse_service_request c2) as H2. unfold parse_request in H1, H2.
  rewrite Hm, Hu in H1. rewrite H1 in H2. by injection H2.
Qed.

End EndpointFacts.

Module EndpointWitnesses.
Import Endpoints EndpointFacts.

(** Two updates of todo 5 with different bodies share the URL. *)
Lemma service_urls_injective_witness :
  method (service_request (SUpdateTodo 5 [("title", JStr "a")]%string)) =
    method (service_request (SUpdateTodo 5 [])) /\
  url (service_request (SUpdateTodo 5 [("title", JStr "a")]%string)) =
    url (service_request (SUpdateTodo 5 [])) /\
  expected_route (SUpdateTodo 5 [("title", JStr "a")]%string) = expected_route (SUpdateTodo 5 []).
Proof.
  assert (Hm : method (service_request (SUpdateTodo 5 [("title", JStr "a")]%string)) =
               method (service_request (SUpdateTodo 5 []))) by reflexivity.
  assert (Hu : url (service_request (SUpdateTodo 5 [("title", JStr "a")]%string)) =
               url (service_request (SUpdateTodo 5 []))) by reflexivity.
  split; [exact Hm|]. split; [exact Hu|]. exact (service_urls_injective _ _ Hm Hu).
Defined.

End EndpointWitnesses.
