(* ===== verification/JsSort.v ===== *)
(** * [Array.prototype.sort] with a comparator

    [arr.sort(compareFn)] orders the array by [compareFn], which returns
    a negative number, zero or a positive number; since ES2019 the sort
    is stable: elements the comparator calls equal keep their order.
    The engine's algorithm is not specified, so the model takes one
    stable sort, insertion of each element, from the last to the first,
    into the sorted rest.  For a comparator [(a, b) => key(b) - key(a)],
    the one the exercise pages pass, [JsSortFacts] proves that the
    result is a permutation of the input, sorted by descending key and
    stable, and that these properties determine the list: every
    conforming engine returns the model's result ([sort_unique]). *)

From Stdlib Require Import ZArith.
From stdpp Require Import base list sorting.
From S2P Require Import Prelude.

Open Scope Z_scope.

Module JsSort.
Section Sort.
Context {A : Type} (compareFn : A -> A -> Z).

(** Insert [x], which comes before every element of [l] in the input,
    into the sorted [l]: in front of the first [y] with
    [compareFn(x, y) <= 0], so that ties keep [x] first. *)
Fixpoint insert_by (x : A) (l : list A) : list A :=
  match l with
  | [] => [x]
  | y :: l' => if compareFn x y <=? 0 then x :: l else y :: insert_by x l'
  end.

(** [arr.sort(compareFn)] *)
Definition sort (l : list A) : list A := foldr insert_by [] l.

End Sort.
End JsSort.

Module JsSortFacts.
Import JsSort.

Lemma insert_by_perm {A} (cmp : A -> A -> Z) x l : insert_by cmp x l ≡ₚ x :: l.
Proof.
  induction l as [|y l IH]; simpl; [done|].
  destruct (cmp x y <=? 0); [done|]. rewrite IH. apply perm_swap.
Qed.

Lemma sort_perm {A} (cmp : A -> A -> Z) l : sort cmp l ≡ₚ l.
Proof.
  induction l as [|x l IH]; simpl; [done|]. fold (sort cmp l).
  by rewrite insert_by_perm, IH.
Qed.

Section ByKey.
Context {A : Type} (key : A -> Z).

(** [(a, b) => key(b) - key(a)] *)
Definition by_key_desc (a b : A) : Z := key b - key a.

(** [b] may follow [a] in a list sorted by descending key. *)
Definition key_ge (a b : A) : Prop := key b <= key a.

#[local] Instance key_ge_trans : Transitive key_ge.
Proof. unfold key_ge. intros ???; lia. Qed.

Lemma insert_by_sorted x l :
  Sorted key_ge l -> Sorted key_ge (insert_by by_key_desc x l).
Proof.
  unfold by_key_desc, key_ge. induction 1 as [|y l Hl IH Hhd]; simpl; [by repeat constructor|].
  destruct (Z.leb_spec (key y - key x) 0).
  - constructor; [by constructor|]. constructor. lia.
  - constructor; [done|]. destruct Hhd as [|z l Hz]; simpl.
    + constructor. lia.
    + destruct (key z - key x <=? 0); constructor; [lia|done].
Qed.

Lemma sort_sorted l : Sorted key_ge (sort by_key_desc l).
Proof.
  induction l as [|x l IH]; simpl; [constructor|]. by apply insert_by_sorted.
Qed.

Lemma filter_insert_by k x l :
  filter (λ y, key y = k) (insert_by by_key_desc x l) =
  if decide (key x = k) then x :: filter (λ y, key y = k) l else filter (λ y, key y = k) l.
Proof.
  unfold by_key_desc. induction l as [|y l IH]; simpl.
  - by rewrite filter_cons, filter_nil.
  - destruct (Z.leb_spec (key y - key x) 0); rewrite !filter_cons.
    + by case_decide.
    + rewrite IH. repeat case_decide; try done; lia.
Qed.

(** Stability: the elements of one key keep their input order. *)
Lemma sort_stable k l :
  filter (λ y, key y = k) (sort by_key_desc l) = filter (λ y, key y = k) l.
Proof.
  induction l as [|x l IH]; simpl; [done|]. fold (sort by_key_desc l).
  rewrite filter_insert_by, filter_cons, IH. by case_decide.
Qed.

Lemma filter_key_nonempty k l : filter (λ y, key y = k) l <> [] -> exists z, z ∈ l /\ key z = k.
Proof.
  intros Hne. destruct (filter (λ y, key y = k) l) as [|z r] eqn:E; [done|].
  exists z. assert (Hz : z ∈ filter (λ y, key y = k) l) by (rewrite E; left).
  apply list_elem_of_filter in Hz as [? ?]. done.
Qed.

Lemma head_key_max y l z : StronglySorted key_ge (y :: l) -> z ∈ y :: l -> key z <= key y.
Proof.
  intros Hs Hz. apply StronglySorted_inv in Hs as [_ Hall].
  apply elem_of_cons in Hz as [->|Hz]; [lia|]. rewrite Forall_forall in Hall.
  apply (Hall z Hz).
Qed.

Lemma head_key_le a la b lb :
  StronglySorted key_ge (b :: lb) ->
  filter (λ z, key z = key a) (a :: la) = filter (λ z, key z = key a) (b :: lb) ->
  key a <= key b.
Proof.
  intros Hb Heq. rewrite filter_cons_True in Heq by done.
  destruct (filter_key_nonempty (key a) (b :: lb)) as [z [Hz <-]]; [by rewrite <- Heq|].
  by apply (head_key_max b lb).
Qed.

(** Two lists sorted by descending key with the same per-key sublists
    are equal. *)
Lemma sorted_filters_eq l1 l2 :
  StronglySorted key_ge l1 -> StronglySorted key_ge l2 ->
  (forall k, filter (λ z, key z = k) l1 = filter (λ z, key z = k) l2) -> l1 = l2.
Proof.
  revert l2. induction l1 as [|x r IH]; intros [|y l] H1 H2 Hf; [done| | |].
  - specialize (Hf (key y)). rewrite filter_cons_True in Hf by done. done.
  - specialize (Hf (key x)). rewrite filter_cons_True in Hf by done. done.
  - assert (Hk : key x = key y).
    { apply Z.le_antisymm; [apply (head_key_le x r y l) | apply (head_key_le y l x r)];
        try done; by rewrite Hf. }
    pose proof (Hf (key x)) as Hx. rewrite !filter_cons_True in Hx by done.
    injection Hx as <- _. f_equal. apply StronglySorted_inv in H1 as [H1 _].
    apply StronglySorted_inv in H2 as [H2 _]. apply IH; [done..|].
    intros k. specialize (Hf k). rewrite !filter_cons in Hf. case_decide; [by injection Hf|done].
Qed.

End ByKey.

(** [arr.sort((a, b) => key(b) - key(a))] is determined by the
    language: a list sorted by descending key that keeps the input order
    of every key is the model's result. *)
Lemma sort_unique {A} (key : A -> Z) l l' :
  Sorted (key_ge key) l' ->
  (forall k, filter (λ z, key z = k) l' = filter (λ z, key z = k) l) ->
  l' = sort (by_key_desc key) l.
Proof.
  intros Hs Hf. apply (sorted_filters_eq key).
  - apply Sorted_StronglySorted; [apply key_ge_trans|done].
  - apply Sorted_StronglySorted; [apply key_ge_trans|apply sort_sorted].
  - intros k. by rewrite Hf, sort_stable.
Qed.

End JsSortFacts.
