(* ===== verification/Latihan1.v ===== *)
(** * The exercises of src/src/pages/latihan/index.tsx

    The page [LatihanPage] defines four pure functions and renders their
    results on constant data:
    - Nomor 1, [transformNumbers]: double the even numbers, triple the
      odd ones, keep the results above 10;
    - Nomor 2, [analyzeTransactions]: total the amounts per user in a
      [Record<number, number>], then list [Object.entries] of it with the
      key read back by [parseInt] and a status by the threshold 1000;
    - Nomor 3, [organizedProduct]: the active products grouped by
      category in a [Record<string, ProductType[]>];
    - Latihan 1, [studentGrade] and [organizeStudents]: grade, keep the
      scores of at least 75 and sort by descending score.

    Numbers are integers (the data are), [%] is [Z.rem] (JavaScript's
    remainder takes the sign of the dividend).  The objects are the
    association lists of JsObject.v; reading a category that names a
    property of [Object.prototype] finds the inherited function, which
    has no [push]: the grouping throws a [TypeError] there, and the model
    returns it.  [Array.prototype.sort] is JsSort.v.

    [LatihanPage.page] is the text the page renders, heading by heading:
    the joined Nomor 1 result, one line per user, the categories with
    their items, one line per student; [organizedProduct]'s exception
    aborts the render.

    The task comments above the functions ask for more than Nomor 2
    does (filter the transactions above 100, mark a transaction above
    1000); the theorems state what the code does and where it departs
    from them. *)

From Stdlib Require Import ZArith String.
From stdpp Require Import base strings list sets sorting.
From S2P Require Import Prelude JsObject JsNumber JsSort.

Open Scope Z_scope.

(** ** Nomor 1 *)
Module Nomor1.

(** [(num) => (num % 2 === 0 ? num * 2 : num * 3)] *)
Definition transform (num : Z) : Z :=
  if bool_decide (Z.rem num 2 = 0) then num * 2 else num * 3.

Definition transformNumbers (numbers : list Z) : list Z :=
  filter (λ num, 10 < num) (map transform numbers).

End Nomor1.

(** ** Nomor 2 *)
Module Nomor2.

Record transactionsType := mkTransaction {
  userId : Z;
  amount : Z;
  type_ : string
}.

(** ["high-value" | "normal"] *)
Inductive Status := HighValue | Normal.

#[export] Instance Status_eq_dec : EqDecision Status.
Proof. solve_decision. Defined.

Record AnalyzedTransaction := mkAnalyzed {
  a_userId : JsNumber.t;
  total : Z;
  status : Status
}.

(** [acc[k] || 0]: a missing or zero total reads as 0.  The keys are
    renderings of numbers, which name no property of
    [Object.prototype]. *)
Definition or_zero (v : option Z) : Z :=
  match v with
  | Some n => if bool_decide (n = 0) then 0 else n
  | None => 0
  end.

(** [acc[curr.userId] = (acc[curr.userId] || 0) + curr.amount] *)
Definition totalBeli_step (acc : JsObject.t Z) (curr : transactionsType) : JsObject.t Z :=
  let k := js_show (userId curr) in
  JsObject.set k (or_zero (JsObject.get k acc) + amount curr) acc.

Definition totalBeli (transactions : list transactionsType) : JsObject.t Z :=
  fold_left totalBeli_step transactions [].

(** [([userId, total]) => ({ userId: parseInt(userId), total, status })] *)
Definition analyze_entry (e : string * Z) : AnalyzedTransaction :=
  mkAnalyzed (JsNumber.parseInt e.1) e.2 (if 1000 <? e.2 then HighValue else Normal).

Definition analyzeTransactions (transactions : list transactionsType) : list AnalyzedTransaction :=
  map analyze_entry (JsObject.Object_entries (totalBeli transactions)).

(** The constant [transactions] of the page. *)
Definition transactions : list transactionsType :=
  [mkTransaction 1 500 "purchase"; mkTransaction 2 1200 "purchase";
   mkTransaction 1 75 "purchase"].

End Nomor2.

(** ** Nomor 3 *)
Module Nomor3.

Record ProductType := mkProduct {
  id : Z;
  name : string;
  category : string;
  price : Z;
  active : bool
}.

(** The reducer: [if (!acc[c]) acc[c] = []; acc[c].push(product)].
    An own array is truthy, even empty; an inherited property is truthy
    and has no [push]. *)
Definition group_step (acc : JsObject.t (list ProductType)) (product : ProductType)
  : sum JsError (JsObject.t (list ProductType)) :=
  let k := category product in
  let acc := match JsObject.lookup k acc with
             | JsObject.Absent => JsObject.set k [] acc
             | _ => acc
             end in
  match JsObject.lookup k acc with
  | JsObject.Own arr => inr (JsObject.set k (arr ++ [product]) acc)
  | _ => inl (TypeError "acc[product.category].push is not a function")
  end.

Definition organizedProduct (products : list ProductType)
  : sum JsError (JsObject.t (list ProductType)) :=
  reduceM group_step (filter (λ product, active product = true) products) [].

(** The constant [products] of the page. *)
Definition products : list ProductType :=
  [mkProduct 1 "Laptop" "Electronics" 1000 true; mkProduct 2 "Book" "Books" 20 true;
   mkProduct 3 "Phone" "Electronics" 500 false; mkProduct 4 "Book2" "Books" 40 true].

End Nomor3.

(** ** Latihan 1 *)
Module Latihan1.

Record Student := mkStudent { s_id : Z; s_name : string; s_score : Z }.

Record GradedStudent := mkGraded {
  studentId : Z;
  g_name : string;
  score : Z;
  grade : string
}.

Definition studentGrade (score : Z) : string :=
  if 90 <=? score then "A"
  else if 80 <=? score then "B"
  else if 75 <=? score then "C"
  else "D".

(** The [map] callback; [Number(student.score)] of a number is the
    number. *)
Definition to_graded (student : Student) : GradedStudent :=
  mkGraded (s_id student) (toUpperCase (s_name student)) (s_score student)
           (studentGrade (s_score student)).

(** [(a, b) => b.score - a.score] *)
Definition byScoreDesc (a b : GradedStudent) : Z := score b - score a.

Definition organizeStudents (students : list Student) : list GradedStudent :=
  JsSort.sort byScoreDesc (filter (λ student, 75 <= score student) (map to_graded students)).

(** The constant [students] of the page. *)
Definition students : list Student :=
  [mkStudent 1 "Budi" 85; mkStudent 2 "Ani" 70; mkStudent 3 "Cindy" 92;
   mkStudent 4 "David" 65; mkStudent 5 "Eva" 88].

End Latihan1.

(** ** The page: the text LatihanPage renders *)
Module LatihanPage.
Import Nomor1 Nomor2 Nomor3 Latihan1.

(** [status: total > 1000 ? "high-value" : "normal"] *)
Definition status_text (s : Status) : string :=
  match s with HighValue => "high-value" | Normal => "normal" end.

(** [User {user.userId}: Total {user.total} - Status: {user.status}] *)
Definition user_line (u : AnalyzedTransaction) : option string :=
  match JsNumber.toString (a_userId u) with
  | Some uid => Some ("User " ++ uid ++ ": Total " ++ js_show (total u) ++ " - Status: " ++ status_text (status u))%string
  | None => None
  end.

(** A category's heading, then [{item.name} - ${item.price}] per item. *)
Definition product_lines (groups : JsObject.t (list ProductType)) : list string :=
  concat (map (λ '(category, items), category :: map (λ item, name item ++ " - $" ++ js_show (price item))%string items)
              (JsObject.Object_entries groups)).

(** [{student.name} - {student.score} - {student.grade}] *)
Definition student_line (g : GradedStudent) : string :=
  (g_name g ++ " - " ++ js_show (score g) ++ " - " ++ grade g)%string.

(** The page's text, heading by heading.  [organizedProduct] is computed
    in the component's body, so its [TypeError] aborts the render before
    anything is shown; [None] is a number whose printing is not
    modelled. *)
Definition page : sum JsError (option (list string)) :=
  match organizedProduct products with
  | inl e => inl e
  | inr groups =>
      inr (match mapM user_line (analyzeTransactions transactions) with
           | Some users =>
               Some (["Nomor 1"; js_join ", " (map js_show (transformNumbers [1; 2; 3; 4; 5])); "Nomor 2"]
                     ++ users ++ ["Nomor 3"] ++ product_lines groups ++ ["Latihan 1"]
                     ++ map student_line (organizeStudents students))%list
           | None => None
           end)
  end.

End LatihanPage.

(** ** Reference definitions

    What the properties compare the page's functions with. *)
Module Spec.
Import Nomor1 Nomor2 Nomor3 Latihan1.

(** An integer survives the filter when its image does: an even number
    above 5 or an odd number above 3. *)
Definition kept (n : Z) : Prop := if bool_decide (Z.rem n 2 = 0) then 5 < n else 3 < n.

#[export] Instance kept_dec n : Decision (kept n).
Proof. unfold kept. case_bool_decide; apply _. Defined.

(** The reference: the sum of a user's amounts, and the row listed for
    that user. *)
Definition total_of (transactions : list transactionsType) (u : Z) : Z :=
  sumZ (map amount (filter (λ t, userId t = u) transactions)).

Definition row (transactions : list transactionsType) (u : Z) : AnalyzedTransaction :=
  let t := total_of transactions u in
  mkAnalyzed (JsNumber.JDec u 0) t (if 1000 <? t then HighValue else Normal).

(** The task comment's steps 2 and 3, read per transaction: the
    transactions above 100, the ones the filter drops, and a user having
    a transaction above 1000. *)
Definition above_100 (transactions : list transactionsType) : list transactionsType :=
  filter (λ t, 100 < amount t) transactions.
Definition at_most_100 (transactions : list transactionsType) : list transactionsType :=
  filter (λ t, amount t <= 100) transactions.


(** Transactions of users 7 and 2, user 7 first. *)
Definition unordered_transactions : list transactionsType :=
  [mkTransaction 7 5 "purchase"; mkTransaction 2 3 "purchase"; mkTransaction 7 1 "purchase"].

(** The products [filter((product) => product.active)] keeps. *)
Definition active_products (products : list ProductType) : list ProductType :=
  filter (λ product, active product = true) products.

(** The reference grouping: one entry per category of an active
    product, in order of first occurrence, holding that category's
    active products in input order. *)
Definition groups (products : list ProductType) : JsObject.t (list ProductType) :=
  map (λ c, (c, filter (λ p, category p = c) (active_products products)))
      (first_occ (map category (active_products products))).

(** [push] on the array at a key, starting from [[]]. *)
Definition push_step (o : option (list ProductType)) (p : ProductType) : list ProductType :=
  default [] o ++ [p].

(** What calling the missing [push] of an inherited property throws. *)
Definition push_error : JsError := TypeError "acc[product.category].push is not a function".

(** The students [organizeStudents] keeps, before sorting. *)
Definition passing (students : list Student) : list GradedStudent :=
  filter (λ student, 75 <= score student) (map to_graded students).

End Spec.

(** ** Properties of Nomor 1 *)
Module Nomor1Facts.
Import Nomor1 Spec.

(** C38: [transformNumbers] follows the three rules of the task comment
    above it (double the even numbers, triple the odd ones, keep the
    results above 10): it is the transform of exactly the inputs that
    are even and above 5 or odd and above 3, in input order.  So on the
    comment's example input [[1, 2, 3, 4, 5]] it returns [[15]], and not
    the [[15, 12, 15]] the comment gives as output: the example
    contradicts the comment's own rules, which the code implements. *)
Theorem transformNumbers_filter_first (numbers : list Z) :
  transformNumbers numbers = map transform (filter kept numbers) /\
  transformNumbers [1; 2; 3; 4; 5] = [15] /\ transformNumbers [1; 2; 3; 4; 5] <> [15; 12; 15].
Proof.
  split; [|split; [reflexivity|discriminate]].
  unfold transformNumbers. rewrite filter_map. f_equal. apply list_filter_iff.
  intros n. unfold kept, transform. case_bool_decide; lia.
Qed.

End Nomor1Facts.

(** ** Properties of Nomor 2 *)
Module Nomor2Facts.
Import Nomor2 Spec.

Lemma or_zero_Some n : or_zero (Some n) = n.
Proof. simpl. case_bool_decide; lia. Qed.

Lemma total_step_fold l o :
  l <> [] ->
  fold_left (λ o x, Some (or_zero o + amount x)) l o = Some (or_zero o + sumZ (map amount l)).
Proof.
  revert o. induction l as [|x l IH]; intros o Hne; [done|]. simpl.
  destruct l as [|y l]; [simpl; f_equal; lia|].
  rewrite IH by done. rewrite or_zero_Some. f_equal. simpl. lia.
Qed.

(** [totalBeli] has one property per user, in order of the user's first
    transaction, holding the sum of the user's amounts. *)
Lemma totalBeli_eq transactions :
  totalBeli transactions =
  map (λ u, (js_show u, total_of transactions u)) (first_occ (map userId transactions)).
Proof.
  set (us := first_occ (map userId transactions)).
  set (f := λ k, match js_read k with Some u => total_of transactions u | None => 0 end).
  change (totalBeli transactions) with
    (fold_left (JsObjectFacts.accumulate (λ t, js_show (userId t)) (λ o x, or_zero o + amount x))
       transactions []).
  transitivity (map (λ k, (k, f k)) (map js_show us)).
  - apply JsObjectFacts.assoc_eq.
    + rewrite JsObjectFacts.accumulate_keys, <- map_map.
      apply first_occ_map, js_show_inj.
    + apply NoDup_fmap_2; [intros ???; by apply js_show_inj|apply NoDup_first_occ].
    + intros k Hk. apply list_elem_of_fmap in Hk as [u [-> Hu]].
      rewrite JsObjectFacts.accumulate_get, total_step_fold.
      * unfold f. rewrite js_show_read. simpl. f_equal. unfold total_of. rewrite Z.add_0_l.
        do 2 f_equal.
        apply list_filter_iff. intros t. split; [apply js_show_inj|by intros ->].
      * intros Hnil. apply (filter_first_occ_nonnil userId transactions u Hu).
        rewrite <- Hnil. apply list_filter_iff. intros t. split; [by intros ->|apply js_show_inj].
  - rewrite map_map. apply map_ext. intros u. unfold f. by rewrite js_show_read.
Qed.

Lemma analyze_entry_row transactions u :
  analyze_entry (js_show u, total_of transactions u) = row transactions u.
Proof. unfold analyze_entry, row. simpl. by rewrite JsNumberFacts.parseInt_js_show. Qed.

(** The rows are one [row] per user, in some order. *)
Lemma analyzeTransactions_perm transactions :
  analyzeTransactions transactions ≡ₚ map (row transactions) (first_occ (map userId transactions)).
Proof.
  unfold analyzeTransactions. rewrite JsObjectFacts.Object_entries_perm, totalBeli_eq, map_map.
  apply Permutation_refl'. apply map_ext. apply analyze_entry_row.
Qed.


(** A user's total splits into the transactions above 100 and the
    others. *)
Lemma total_of_split transactions u :
  total_of transactions u =
  total_of (above_100 transactions) u + total_of (at_most_100 transactions) u.
Proof.
  unfold total_of, above_100, at_most_100.
  induction transactions as [|t ts IH]; [done|].
  rewrite !filter_cons. repeat case_decide; simpl; rewrite ?filter_cons; repeat case_decide;
    simpl; lia.
Qed.

(** C21: [analyzeTransactions] does not filter the transactions above
    100 as the task comment's step 2 asks: it lists every user that has
    a transaction exactly once, with [parseInt] reading back the user
    id and the sum of all the user's amounts as total, which is the
    total of the user's transactions above 100 plus that of the ones
    the comment's filter drops (the page's user 1 shows 575, its 75
    purchase included). *)
Theorem analyzeTransactions_totals (transactions : list transactionsType) :
  analyzeTransactions transactions ≡ₚ map (row transactions) (first_occ (map userId transactions)) /\
  forall u, total_of transactions u =
            total_of (above_100 transactions) u + total_of (at_most_100 transactions) u.
Proof.
  split; [apply analyzeTransactions_perm|apply total_of_split].
Qed.

(** When every user id is an array index (an integer in
    [0, 2^32 - 2]), the rows come out in ascending user id, whatever the
    order of the transactions: [Object.entries] orders integer keys. *)
Theorem analyzeTransactions_ascending (transactions : list transactionsType) :
  Forall (λ t, 0 <= userId t < 4294967295) transactions ->
  analyzeTransactions transactions =
  map (row transactions) (merge_sort Z.le (first_occ (map userId transactions))).
Proof.
  intros Hr. unfold analyzeTransactions. rewrite totalBeli_eq.
  rewrite JsObjectFacts.Object_entries_ints.
  - rewrite map_map. apply map_ext. apply analyze_entry_row.
  - apply NoDup_first_occ.
  - apply Forall_forall. intros u Hu. apply elem_of_first_occ, list_elem_of_fmap in Hu as [t [-> Ht]].
    rewrite Forall_forall in Hr. by apply Hr.
Qed.


(** The Nomor 2 lines of the page always print (the ids below 10^21):
    each line shows the object key the user's total was stored under,
    read back by [parseInt] and printed again unchanged, with the total
    and the status of that entry. *)
Lemma user_lines_print transactions :
  Forall (λ t, Z.abs (userId t) < 10 ^ 21) transactions ->
  mapM LatihanPage.user_line (analyzeTransactions transactions) =
  Some (map (λ e, "User " ++ e.1 ++ ": Total " ++ js_show e.2 ++ " - Status: " ++
                  LatihanPage.status_text (if (1000 <? e.2)%Z then HighValue else Normal))%string
            (JsObject.Object_entries (totalBeli transactions))).
Proof.
  intros Hall. unfold analyzeTransactions.
  assert (Hkeys : forall e, e ∈ JsObject.Object_entries (totalBeli transactions) ->
            exists u, e = (js_show u, total_of transactions u) /\ Z.abs u < 10 ^ 21).
  { intros e He. rewrite JsObjectFacts.Object_entries_perm, totalBeli_eq in He.
    apply list_elem_of_fmap in He as [u [-> Hu]]. exists u. split; [done|].
    apply elem_of_first_occ, list_elem_of_fmap in Hu as [t [-> Ht]].
    rewrite Forall_forall in Hall. by apply Hall. }
  induction (JsObject.Object_entries (totalBeli transactions)) as [|e es IH]; [done|].
  destruct (Hkeys e (list_elem_of_here _ _)) as (u & -> & Hu).
  apply mapM_cons_Some.
  - unfold LatihanPage.user_line, analyze_entry. simpl.
    by rewrite JsNumberFacts.parseInt_js_show, JsNumberFacts.toString_int.
  - apply IH. intros e' He'. apply Hkeys. by apply list_elem_of_further.
Qed.

End Nomor2Facts.

(** ** Properties of Nomor 3 *)
Module Nomor3Facts.
Import Nomor3 Spec.

Lemma group_step_ok acc p :
  category p ∉ JsObject.proto_keys ->
  group_step acc p = inr (JsObjectFacts.accumulate category push_step acc p).
Proof.
  intros Hp. unfold group_step, JsObject.lookup, JsObjectFacts.accumulate, push_step.
  destruct (JsObject.get (category p) acc) as [arr|] eqn:Hk; cbn -[JsObject.set].
  - by rewrite Hk.
  - rewrite bool_decide_eq_false_2 by done. cbn -[JsObject.set].
    by rewrite JsObjectFacts.get_set_eq, JsObjectFacts.set_set.
Qed.

Lemma group_step_error acc p :
  category p ∈ JsObject.proto_keys -> category p ∉ map fst acc ->
  group_step acc p = inl push_error.
Proof.
  intros Hp Hk. apply JsObjectFacts.get_None in Hk.
  unfold group_step, JsObject.lookup. rewrite Hk, bool_decide_eq_true_2 by done.
  simpl. by rewrite Hk.
Qed.

Lemma push_fold l o :
  l <> [] -> fold_left (λ o x, Some (push_step o x)) l o = Some (default [] o ++ l).
Proof.
  revert o. induction l as [|x l IH]; intros o Hne; [done|]. simpl.
  destruct l as [|y l]; [done|]. rewrite IH by done. unfold push_step. simpl.
  by rewrite <- app_assoc.
Qed.

(** C23: [organizedProduct] groups the active products by category,
    one property per category in order of first occurrence, each
    holding that category's active products in input order; when the
    category of an active product names a property of
    [Object.prototype] ([constructor], [toString], ...), the reducer
    finds the inherited function instead of an array and throws a
    [TypeError]. *)
Theorem organizedProduct_spec (products : list ProductType) :
  organizedProduct products =
  if bool_decide (Forall (λ p, category p ∉ JsObject.proto_keys) (active_products products))
  then inr (groups products) else inl push_error.
Proof.
  unfold organizedProduct. fold (active_products products).
  rewrite (JsObjectFacts.reduceM_accumulate category push_step group_step push_error
             (λ k, k ∈ JsObject.proto_keys)); [|exact group_step_ok|exact group_step_error|constructor].
  case_bool_decide; [|done]. f_equal. apply JsObjectFacts.accumulate_as_map.
  intros c Hc. rewrite push_fold; [done|]. by apply filter_first_occ_nonnil.
Qed.

End Nomor3Facts.

(** ** Properties of Latihan 1 *)
Module Latihan1Facts.
Import Latihan1 JsSortFacts Spec.

(** C26: [organizeStudents] is the stable sort of the passing students
    by descending score, and the only one: a list is its result exactly
    when it is sorted by descending score and lists the students of
    each score in their input order, so every engine's stable
    [Array.prototype.sort] gives the same list. *)
Theorem organizeStudents_stable_sort (students : list Student) (l : list GradedStudent) :
  l = organizeStudents students <->
  Sorted (key_ge score) l /\
  forall k, filter (λ s, score s = k) l = filter (λ s, score s = k) (passing students).
Proof.
  unfold organizeStudents. fold (passing students).
  change byScoreDesc with (by_key_desc score). split.
  - intros ->. split; [apply sort_sorted|intros k; apply sort_stable].
  - intros [Hs Hf]. by apply sort_unique.
Qed.

(** Every listed student passed, with the grade of its score,
    which is never "D", and the name in upper case. *)
Theorem organizeStudents_grades (students : list Student) :
  Forall (λ s, 75 <= score s /\ grade s = studentGrade (score s) /\ grade s <> "D"%string /\
               exists st, st ∈ students /\ g_name s = toUpperCase (s_name st))
         (organizeStudents students).
Proof.
  unfold organizeStudents. apply Forall_forall. intros s Hs.
  rewrite (sort_perm byScoreDesc) in Hs.
  apply list_elem_of_filter in Hs as [Hp Hs]. apply list_elem_of_fmap in Hs as [st [-> Hst]].
  simpl in *. split_and!; [done|done| |by exists st].
  unfold studentGrade. destruct (90 <=? s_score st), (80 <=? s_score st); try done.
  by rewrite (proj2 (Z.leb_le _ _) Hp).
Qed.

End Latihan1Facts.

(** ** Witnesses *)
Module Latihan1Witnesses.
Import Nomor2 Spec Nomor2Facts.

Lemma analyzeTransactions_ascending_witness :
  Forall (λ t, 0 <= userId t < 4294967295) unordered_transactions /\
  analyzeTransactions unordered_transactions =
  map (row unordered_transactions)
      (merge_sort Z.le (first_occ (map userId unordered_transactions))).
Proof.
  assert (H : Forall (λ t, 0 <= userId t < 4294967295) unordered_transactions)
    by (repeat constructor; simpl; lia).
  split; [exact H|]. exact (analyzeTransactions_ascending unordered_transactions H).
Defined.


(** The text of the page on its constant data: Nomor 1 shows "15"
    alone, not the "15, 12, 15" its comment announces. *)
Example latihan_page_text :
  LatihanPage.page =
    inr (Some ["Nomor 1"; "15"; "Nomor 2";
               "User 1: Total 575 - Status: normal"; "User 2: Total 1200 - Status: high-value";
               "Nomor 3"; "Electronics"; "Laptop - $1000"; "Books"; "Book - $20"; "Book2 - $40";
               "Latihan 1"; "CINDY - 92 - A"; "EVA - 88 - B"; "BUDI - 85 - B"]%string).
Proof. vm_compute. reflexivity. Qed.

End Latihan1Witnesses.
