(* ===== verification/Latihan2.v ===== *)
(** * The exercise of src/src/pages/latihan/2.tsx

    [organizeStudent] grades each student ([getGrade]: Excellent from
    90, Great from 80, Good from 70, else Enough), upper-cases the name,
    drops the grade Enough, sorts by descending score, and reduces the
    list into a [Record<string, { students; averageScore }>] keyed by
    class: the first student of a class creates its entry, each student
    is pushed onto its class's array, and after every push the average
    of the class is recomputed from the whole array ([reduce] for the
    sum, divided by the length).

    Scores are integers; the average is kept as the exact rational
    [totalScore / length] ([Q]), the value JavaScript's division rounds
    to the nearest double.  A class named like a property of
    [Object.prototype] reads the inherited function, whose [students]
    is [undefined]: the push throws a [TypeError], which the model
    returns.  [Latihan2Page.page] is what the page renders: a heading,
    and per class its name, its mean and one line per student. *)

From Stdlib Require Import ZArith QArith String.
From stdpp Require Import base strings list sets sorting.
From S2P Require Import Prelude JsObject JsSort.

Open Scope Z_scope.

Module Latihan2.

Record studentType := mkStudent {
  id : Z;
  name : string;
  class : string;
  score : Z
}.

(** [studentType & { grade: string }] *)
Record studentWithGradeType := mkGraded {
  g_id : Z;
  g_name : string;
  g_class : string;
  g_score : Z;
  grade : string
}.

Definition getGrade (score : Z) : string :=
  if 90 <=? score then "Excellent"
  else if 80 <=? score then "Great"
  else if 70 <=? score then "Good"
  else "Enough".

(** [({ ...student, name: student.name.toUpperCase(), grade: getGrade(student.score) })] *)
Definition to_graded (student : studentType) : studentWithGradeType :=
  mkGraded (id student) (toUpperCase (name student)) (class student) (score student)
           (getGrade (score student)).

(** [(a, b) => b.score - a.score] *)
Definition byScoreDesc (a b : studentWithGradeType) : Z := g_score b - g_score a.

Definition studentMap (students : list studentType) : list studentWithGradeType :=
  JsSort.sort byScoreDesc
    (filter (λ student, grade student <> "Enough"%string) (map to_graded students)).

Record ClassGroup := mkGroup {
  students : list studentWithGradeType;
  averageScore : Q
}.

(** [arr.reduce((sum, s) => sum + s.score, 0)] *)
Definition totalScore (arr : list studentWithGradeType) : Z :=
  fold_left (λ sum s, sum + g_score s) arr 0.

(** The reducer: create the class's entry when [acc[student.class]] is
    falsy, push the student onto its [students], then set
    [averageScore] to the sum of the array over its length.  On an
    inherited property, [students] is [undefined] and [push] throws. *)
Definition class_step (acc : JsObject.t ClassGroup) (student : studentWithGradeType)
  : sum JsError (JsObject.t ClassGroup) :=
  let k := g_class student in
  let acc := match JsObject.lookup k acc with
             | JsObject.Absent => JsObject.set k (mkGroup [] 0) acc
             | _ => acc
             end in
  match JsObject.lookup k acc with
  | JsObject.Own g =>
      let arr := students g ++ [student] in
      inr (JsObject.set k (mkGroup arr (inject_Z (totalScore arr) / inject_Z (Z.of_nat (length arr)))) acc)
  | _ => inl (TypeError "Cannot read properties of undefined (reading 'push')")
  end.

Definition organizeStudent (students : list studentType) : sum JsError (JsObject.t ClassGroup) :=
  reduceM class_step (studentMap students) [].

(** The constant [students] of the page. *)
Definition page_students : list studentType :=
  [mkStudent 1 "Budi" "A" 85; mkStudent 2 "Ani" "C" 70; mkStudent 3 "Cindy" "B" 92;
   mkStudent 4 "David" "A" 65; mkStudent 5 "Eva" "B" 88; mkStudent 6 "Evale" "C" 88].

End Latihan2.

(** ** The page: what latihanPage2 renders *)
Module Latihan2Page.
Import Latihan2.

(** A rendered line.  The class average is shown with [toFixed(2)],
    JavaScript's rounding of the double nearest the mean, which is not
    modelled: [Average] keeps the exact mean. *)
Inductive Line :=
| Text (s : string)
| Average (mean : Q).

(** One class: [Kelas {className}], its average, and
    [{student.name} - Nilai: {student.score} ({student.grade})] per
    student. *)
Definition class_lines (className : string) (data : ClassGroup) : list Line :=
  Text ("Kelas " ++ className) :: Average (averageScore data) ::
  map (λ st, Text (g_name st ++ " - Nilai: " ++ js_show (g_score st) ++ " (" ++ grade st ++ ")"))
      (students data).

(** [organizeStudent(students)] runs in the render (and once more for
    [console.log], which is not modelled); its [TypeError] aborts it. *)
Definition page : sum JsError (list Line) :=
  match organizeStudent page_students with
  | inl e => inl e
  | inr groups =>
      inr (Text "Daftar Siswa yang Lulus"
           :: concat (map (λ '(className, data), class_lines className data)
                          (JsObject.Object_entries groups)))
  end.

End Latihan2Page.

(** ** Reference definitions *)
Module Latihan2Spec.
Import Latihan2.

(** The students of class [c], in the order of [studentMap]. *)
Definition in_class (students : list studentType) (c : string) : list studentWithGradeType :=
  filter (λ s, g_class s = c) (studentMap students).

(** The mean score of a non-empty list. *)
Definition average (arr : list studentWithGradeType) : Q :=
  inject_Z (sumZ (map g_score arr)) / inject_Z (Z.of_nat (length arr)).

(** One entry per class, in order of first appearance in
    [studentMap]: its students and their mean score. *)
Definition classes (students : list studentType) : JsObject.t ClassGroup :=
  map (λ c, (c, mkGroup (in_class students c) (average (in_class students c))))
      (first_occ (map g_class (studentMap students))).

(** The reducer's body on an own entry (or a fresh one). *)
Definition group_push (o : option ClassGroup) (s : studentWithGradeType) : ClassGroup :=
  let arr := students (default (mkGroup [] 0) o) ++ [s] in
  mkGroup arr (inject_Z (totalScore arr) / inject_Z (Z.of_nat (length arr))).

Definition class_error : JsError :=
  TypeError "Cannot read properties of undefined (reading 'push')".

(** What the page computes from its own [students], and the entry of
    class C. *)
Definition page_classes : JsObject.t ClassGroup :=
  match organizeStudent page_students with inr o => o | inl _ => [] end.

Definition page_class_C : ClassGroup :=
  default (mkGroup [] 0) (JsObject.get "C" page_classes).

End Latihan2Spec.

(** ** Properties *)
Module Latihan2Facts.
Import Latihan2 Latihan2Spec JsSortFacts.

(** The loop [reduce((sum, s) => sum + s.score, 0)] is the sum. *)
Lemma totalScore_sumZ arr : totalScore arr = sumZ (map g_score arr).
Proof.
  unfold totalScore. rewrite <- (Z.add_0_l (sumZ _)). generalize 0.
  induction arr as [|s arr IH]; intros z; simpl; [lia|]. rewrite IH. unfold sumZ. simpl. lia.
Qed.

Lemma class_step_ok acc s :
  g_class s ∉ JsObject.proto_keys ->
  class_step acc s = inr (JsObjectFacts.accumulate g_class group_push acc s).
Proof.
  intros Hp. unfold class_step, JsObject.lookup, JsObjectFacts.accumulate, group_push.
  destruct (JsObject.get (g_class s) acc) as [g|] eqn:Hk; cbn -[JsObject.set totalScore].
  - by rewrite Hk.
  - rewrite bool_decide_eq_false_2 by done. cbn -[JsObject.set totalScore].
    by rewrite JsObjectFacts.get_set_eq, JsObjectFacts.set_set.
Qed.

Lemma class_step_error acc s :
  g_class s ∈ JsObject.proto_keys -> g_class s ∉ map fst acc ->
  class_step acc s = inl class_error.
Proof.
  intros Hp Hk. apply JsObjectFacts.get_None in Hk.
  unfold class_step, JsObject.lookup. rewrite Hk, bool_decide_eq_true_2 by done.
  simpl. by rewrite Hk.
Qed.

(** Recomputing the average after every push leaves the mean of the
    whole class. *)
Lemma group_push_fold l o :
  l <> [] ->
  fold_left (λ o x, Some (group_push o x)) l o =
  Some (mkGroup (students (default (mkGroup [] 0) o) ++ l)
                (average (students (default (mkGroup [] 0) o) ++ l))).
Proof.
  revert o. induction l as [|x l IH]; intros o Hne; [done|]. simpl.
  destruct l as [|y l].
  - unfold group_push, average. by rewrite totalScore_sumZ.
  - rewrite IH by done. simpl. by rewrite <- app_assoc.
Qed.

(** C24: [organizeStudent] has one entry per class of a kept student,
    in order of the class's first student in the sorted list, holding
    the class's students in that order and, after all the recomputed
    running averages, the mean of their scores; a class named like a
    property of [Object.prototype] makes it throw a [TypeError]. *)
Theorem organizeStudent_spec (students : list studentType) :
  organizeStudent students =
  if bool_decide (Forall (λ s, g_class s ∉ JsObject.proto_keys) (studentMap students))
  then inr (classes students) else inl class_error.
Proof.
  unfold organizeStudent.
  rewrite (JsObjectFacts.reduceM_accumulate g_class group_push class_step class_error
             (λ k, k ∈ JsObject.proto_keys)); [|exact class_step_ok|exact class_step_error|constructor].
  case_bool_decide; [|done]. f_equal. apply JsObjectFacts.accumulate_as_map.
  intros c Hc. rewrite group_push_fold; [done|]. by apply filter_first_occ_nonnil.
Qed.

Lemma getGrade_passing score : getGrade score <> "Enough"%string -> 70 <= score.
Proof.
  unfold getGrade. destruct (Z.leb_spec 90 score), (Z.leb_spec 80 score), (Z.leb_spec 70 score);
    done || lia.
Qed.

Lemma sumZ_lower arr :
  Forall (λ s, 70 <= g_score s) arr -> 70 * Z.of_nat (length arr) <= sumZ (map g_score arr).
Proof. induction 1; simpl; [lia|]. unfold sumZ in *. simpl. lia. Qed.

(** The mean of scores of at least 70 is at least 70. *)
Lemma average_lower arr :
  arr <> [] -> Forall (λ s, 70 <= g_score s) arr -> (inject_Z 70 <= average arr)%Q.
Proof.
  intros Hne Hall. unfold average. apply Qle_shift_div_l.
  - destruct arr; [done|]. change 0%Q with (inject_Z 0). rewrite <- Zlt_Qlt. simpl. lia.
  - rewrite <- inject_Z_mult, <- Zle_Qle. by apply sumZ_lower.
Qed.

(** The kept students all score at least 70. *)
Lemma studentMap_passing students :
  Forall (λ s, 70 <= g_score s) (studentMap students).
Proof.
  apply Forall_forall. intros s Hs. unfold studentMap in Hs. rewrite sort_perm in Hs.
  apply list_elem_of_filter in Hs as [Hgr Hs]. apply list_elem_of_fmap in Hs as [st [-> _]].
  by apply getGrade_passing.
Qed.

(** C25: every class entry [organizeStudent] returns is non-empty,
    lists students of that class only, by descending score, all scoring
    at least 70, and holds as [averageScore] their mean, which is
    therefore at least 70. *)
Theorem organizeStudent_classes (students : list studentType) (o : JsObject.t ClassGroup)
    (c : string) (g : ClassGroup) :
  organizeStudent students = inr o -> JsObject.get c o = Some g ->
  Latihan2.students g <> [] /\ Sorted (key_ge g_score) (Latihan2.students g) /\
  Forall (λ s, g_class s = c /\ 70 <= g_score s) (Latihan2.students g) /\
  averageScore g = average (Latihan2.students g) /\ (inject_Z 70 <= averageScore g)%Q.
Proof.
  intros Ho Hg. unfold organizeStudent in Ho.
  rewrite (JsObjectFacts.reduceM_accumulate g_class group_push class_step class_error
             (λ k, k ∈ JsObject.proto_keys)) in Ho;
    [|exact class_step_ok|exact class_step_error|constructor].
  case_bool_decide; [|done]. injection Ho as <-.
  rewrite JsObjectFacts.accumulate_get in Hg.
  set (arr := filter (λ x, g_class x = c) (studentMap students)) in Hg.
  destruct (decide (arr = [])) as [E|Hne]; [by rewrite E in Hg|].
  rewrite group_push_fold in Hg by done. injection Hg as <-. simpl.
  assert (Hall : Forall (λ s, g_class s = c /\ 70 <= g_score s) arr).
  { apply Forall_forall. intros s Hs. apply list_elem_of_filter in Hs as [Hc Hs].
    split; [done|]. pose proof (studentMap_passing students) as Hp.
    rewrite Forall_forall in Hp. by apply Hp. }
  split_and!; [done| |done|done|].
  - apply (@Sorted_filter _ _ (key_ge_trans g_score)). apply sort_sorted.
  - apply average_lower; [done|]. eapply Forall_impl; [exact Hall|]. by intros s [].
Qed.

(** The page keeps ANI, who scored 70, in class C, whose mean is then
    79: the page passes scores from 70, not from 75 as its comment
    says. *)
Example page_class_C_keeps_70 :
  map g_name (Latihan2.students page_class_C) = ["EVALE"; "ANI"]%string /\
  map g_score (Latihan2.students page_class_C) = [88; 70] /\
  (averageScore page_class_C == 79)%Q.
Proof. vm_compute. split_and!; reflexivity. Qed.

End Latihan2Facts.

(** ** Witnesses *)
Module Latihan2Witnesses.
Import Latihan2 Latihan2Spec Latihan2Facts JsSortFacts.

Lemma organizeStudent_classes_witness :
  organizeStudent page_students = inr page_classes /\
  JsObject.get "C" page_classes = Some page_class_C /\
  (Latihan2.students page_class_C <> [] /\ Sorted (key_ge g_score) (Latihan2.students page_class_C) /\
   Forall (λ s, g_class s = "C"%string /\ 70 <= g_score s) (Latihan2.students page_class_C) /\
   averageScore page_class_C = average (Latihan2.students page_class_C) /\
   (inject_Z 70 <= averageScore page_class_C)%Q).
Proof.
  assert (H1 : organizeStudent page_students = inr page_classes) by (vm_compute; reflexivity).
  assert (H2 : JsObject.get "C" page_classes = Some page_class_C) by (vm_compute; reflexivity).
  split; [exact H1|]. split; [exact H2|].
  exact (organizeStudent_classes page_students page_classes "C" page_class_C H1 H2).
Defined.

(** The page on its constant data: classes B, C and A in the order of
    their first student in the descending sort, with means 90, 79 and
    85 (shown reduced). *)
Example latihan2_page_text :
  match Latihan2Page.page with
  | inr ls => map (λ l, match l with Latihan2Page.Text t => inl t | Latihan2Page.Average q => inr (Qred q) end) ls =
      [inl "Daftar Siswa yang Lulus";
       inl "Kelas B"; inr (90 # 1); inl "CINDY - Nilai: 92 (Excellent)"; inl "EVA - Nilai: 88 (Great)";
       inl "Kelas C"; inr (79 # 1); inl "EVALE - Nilai: 88 (Great)"; inl "ANI - Nilai: 70 (Good)";
       inl "Kelas A"; inr (85 # 1); inl "BUDI - Nilai: 85 (Great)"]%string
  | inl _ => False
  end.
Proof. vm_compute. reflexivity. Qed.

End Latihan2Witnesses.
