(* ===== verification/Pagination.v ===== *)
(** * The pagination total of the list views

    pages/users/index.tsx, pages/todos/index.tsx, pages/posts/all.tsx
    and pages/posts/my.tsx all pass
    [Number(data?.headers?.['x-pagination-total'] || 0)] to antd's
    pagination.  A missing header (or a response not yet loaded) is
    [undefined], and an empty header is [""]: both are falsy and give
    [0].  Any other header string goes through JavaScript's [Number], modelled
    in JsNumber.v. *)

From Stdlib Require Import ZArith String.
From stdpp Require Import base list.
From S2P Require Import Prelude JsNumber.

Open Scope Z_scope.

Module Pagination.
Import JsNumber.

(** [Number(data?.headers?.['x-pagination-total'] || 0)]: [None] is a
    missing header or a response not loaded yet. *)
Definition paginationTotal (header : option string) : JsNumber.t :=
  match header with
  | None => JDec 0 0
  | Some s => if String.eqb s "" then JDec 0 0 else Number s
  end.

End Pagination.

Module PaginationFacts.
Import JsNumber JsNumberFacts Pagination.

(** C18: the total shown by every list view reads back the count the
    server writes in [x-pagination-total] ([`${n}`] for any integer n),
    and is 0 when the header is missing or empty. *)
Theorem paginationTotal_reads_header (n : Z) :
  paginationTotal (Some (js_show n)) = JDec n 0 /\
  paginationTotal None = JDec 0 0 /\
  paginationTotal (Some ""%string) = JDec 0 0.
Proof.
  split_and!; [|done|done]. unfold paginationTotal.
  by rewrite js_show_nonempty, Number_js_show.
Qed.

(** A header that is not a numeric literal makes the total NaN; a
    hexadecimal one is read in base 16. *)
Example paginationTotal_not_numeric :
  paginationTotal (Some "12 items"%string) = JNaN /\
  paginationTotal (Some " 0x1A "%string) = JDec 26 0.
Proof. split; reflexivity. Qed.

End PaginationFacts.
