(* ===== verification/Navigation.v ===== *)
(** * The navigation menu of src/src/components/layout/Header.tsx

    The header builds a constant menu ([menuItems]: Users, My Todos, and
    a Posts submenu with All Posts and My Posts).  On wide screens every
    item without children is a link to [`/${item.key}`] and the Posts
    item a dropdown of its children's links; on narrow screens a drawer
    shows the same items as an antd [Menu] whose selected key is
    [router.pathname.split("/")[1] || "users"].  The pages that exist are
    the files under src/src/pages.

    [js_split] (Prelude.v) is [String.prototype.split]; [nth_error] is
    the index read, [undefined] past the end.

    [HeaderView] is the component around the menu: its state (drawer
    open, narrow window, the menu items, empty until the mount effect
    installs them), the resize handler, the menu button and the drawer's
    close, and the render (title link, the two external links, the
    desktop entries, the profile name, avatar and menu, the drawer). *)

From Stdlib Require Import String Ascii.
From stdpp Require Import base strings list sets.
From S2P Require Import Prelude Types Profile.

Open Scope string_scope.

Module Header.

(** [MenuItemType] of users.types.ts; [href] is the target of the
    label's [Link], when the label is one. *)
Inductive MenuItemType := mkMenuItem {
  key : string;
  href : option string;
  children : list MenuItemType
}.

(** The items [setMenuItems] installs. *)
Definition menuItems : list MenuItemType :=
  [mkMenuItem "users" (Some "/users") [];
   mkMenuItem "todos" (Some "/todos") [];
   mkMenuItem "posts" None
     [mkMenuItem "all-posts" (Some "/posts/all") [];
      mkMenuItem "my-posts" (Some "/posts/my") []]].

(** [router.pathname.split("/")[1] || "users"] *)
Definition selectedKey (pathname : string) : string :=
  match nth_error (js_split "/" pathname) 1 with
  | Some k => if String.eqb k "" then "users" else k
  | None => "users"
  end.

(** The desktop link of an item without children: [`/${item.key}`]. *)
Definition desktop_href (item : MenuItemType) : string := "/" ++ key item.



(** The route of every page under src/src/pages (Next.js file routing). *)
Definition page_routes : list string :=
  ["/users"; "/todos"; "/posts/all"; "/posts/my"; "/latihan"; "/latihan/2"].

End Header.

(** ** The header component: its state, effect, events and render *)
Module HeaderView.
Import Users Profile Header.

(** [mobileMenuOpen], [isMobile] and [menuItems] ([useState([])]). *)
Record State := mkState {
  mobileMenuOpen : bool;
  isMobile : bool;
  items : list MenuItemType
}.

Definition init : State := mkState false false [].

(** [handleResize]: [setIsMobile(window.innerWidth < 768)] *)
Definition handleResize (innerWidth : Z) (s : State) : State :=
  mkState (mobileMenuOpen s) (innerWidth <? 768)%Z (items s).

(** The mount effect ([[]] dependencies, so it runs once): install the
    menu, then [handleResize()] with the window's width; the listener
    it registers runs [handleResize] on every later resize. *)
Definition mount (innerWidth : Z) (s : State) : State :=
  handleResize innerWidth (mkState (mobileMenuOpen s) (isMobile s) menuItems).

Inductive Event :=
| Resize (innerWidth : Z)
| OpenMenu            (** the menu button: [setMobileMenuOpen(true)] *)
| CloseDrawer.        (** the drawer's [onClose] *)

Definition handle (e : Event) (s : State) : State :=
  match e with
  | Resize w => handleResize w s
  | OpenMenu => mkState true (isMobile s) (items s)
  | CloseDrawer => mkState false (isMobile s) (items s)
  end.

(** The desktop entries of [menuItems.map]: a [Dropdown] of the
    children's links for an item with children, a [Link] to
    [`/${item.key}`] otherwise. *)
Inductive DesktopEntry :=
| DLink (key href : string)
| DDropdown (key : string) (children : list (string * option string)).

Definition desktop_entry (item : MenuItemType) : DesktopEntry :=
  match children item with
  | [] => DLink (key item) (desktop_href item)
  | cs => DDropdown (key item) (map (λ c, (key c, href c)) cs)
  end.

(** The profile menu's lines: name, e-mail and [status · gender], or
    "No profile selected". *)
Definition profileMenu (sel : option UserType) : list string :=
  match sel with
  | Some u => [name u; email u; UserStatus_value (status u) ++ " · " ++ UserGender_value (gender u)]
  | None => ["No profile selected"]
  end.

Record View := mkView {
  titleHref : string;
  externalLinks : list (string * bool);    (** href, opens in a new tab *)
  desktop : list DesktopEntry;
  profileName : string;
  avatar : string;
  profileLines : list string;
  menuButton : bool;
  drawerOpen : bool;
  drawerSelected : list string;
  drawerItems : list MenuItemType
}.

Definition render (sel : option UserType) (pathname : string) (s : State) : View :=
  mkView "/"
    [("http://localhost:3001/fasilitas-dana", false); ("http://localhost:3001/fasilitas-dana", true)]
    (map desktop_entry (items s))
    (match sel with Some u => name u | None => "No profile selected" end)
    (avatarClass sel) (profileMenu sel)
    (isMobile s) (mobileMenuOpen s) [selectedKey pathname] (items s).

(** The clicks the header offers: the menu button only on a narrow
    window, the drawer's close only while it is open. *)
Definition available (vw : View) (e : Event) : bool :=
  match e with
  | Resize _ => true
  | OpenMenu => menuButton vw
  | CloseDrawer => drawerOpen vw
  end.

End HeaderView.

Module HeaderFacts.
Import Header.

Lemma selectedKey_second k l :
  k <> "" -> nth_error (split_chars "/" l) 0 = Some (list_ascii_of_string k) ->
  selectedKey (String "/" (string_of_list_ascii l)) = k.
Proof.
  intros Hk Hl. unfold selectedKey, js_split. cbn [list_ascii_of_string split_chars].
  rewrite Ascii.eqb_refl, list_ascii_of_string_of_list_ascii.
  destruct (split_chars "/" l) as [|p ps]; [done|]. injection Hl as ->. simpl.
  rewrite string_of_list_ascii_of_string. by destruct (String.eqb_spec k "").
Qed.

(** The drawer's selected key is the first segment of the route:
    [k] on [/k] and on any [/k/...], and "users" on the root [/]. *)
Theorem selectedKey_route (k r : string) :
  k <> "" -> "/"%char ∉ list_ascii_of_string k ->
  selectedKey ("/" ++ k) = k /\ selectedKey ("/" ++ k ++ "/" ++ r) = k /\ selectedKey "/" = "users".
Proof.
  intros Hk Hs. split_and!; [| |done].
  - rewrite <- (string_of_list_ascii_of_string k) at 1. apply selectedKey_second; [done|].
    by rewrite split_chars_no_sep.
  - rewrite <- (string_of_list_ascii_of_string (k ++ "/" ++ r)). apply selectedKey_second; [done|].
    rewrite list_ascii_of_string_app. simpl. by rewrite split_chars_sep.
Qed.


End HeaderFacts.

Module HeaderWitnesses.
Import Header HeaderFacts.

Lemma selectedKey_route_witness :
  "posts" <> "" /\ "/"%char ∉ list_ascii_of_string "posts" /\
  (selectedKey ("/" ++ "posts") = "posts" /\
   selectedKey ("/" ++ "posts" ++ "/" ++ "all") = "posts" /\ selectedKey "/" = "users").
Proof.
  assert (H1 : "posts" <> "") by discriminate.
  assert (H2 : "/"%char ∉ list_ascii_of_string "posts")
    by (apply (bool_decide_unpack _); vm_compute; reflexivity).
  split; [exact H1|]. split; [exact H2|]. exact (selectedKey_route "posts" "all" H1 H2).
Defined.


Import HeaderView.

(** The first render, before the mount effect, shows no navigation;
    after it the desktop shows Users, My Todos and the Posts dropdown. *)
Example header_menu_after_mount :
  desktop (render None "/users" init) = [] /\
  desktop (render None "/users" (mount 1280 init)) =
    [DLink "users" "/users"; DLink "todos" "/todos";
     DDropdown "posts" [("all-posts", Some "/posts/all"); ("my-posts", Some "/posts/my")]].
Proof. split; reflexivity. Qed.

(** A drawer opened on a narrow window stays open when the window
    widens: the menu button is gone, and the drawer's close is still
    offered. *)
Example drawer_open_after_widening :
  let s := handle (Resize 1280) (handle OpenMenu (mount 600 init)) in
  available (render None "/users" (mount 600 init)) OpenMenu = true /\
  drawerOpen (render None "/users" s) = true /\ menuButton (render None "/users" s) = false /\
  available (render None "/users" s) CloseDrawer = true.
Proof. split_and!; reflexivity. Qed.

End HeaderWitnesses.
