(* ===== verification/Mutations.v ===== *)
(** * The mutation handlers and the application they drive

    Every [useMutation] of the program is one constructor of [Mutation]:
    - UserTable.tsx: [deleteUserMutation];
    - UserForm.tsx: [createUserMutation], [updateUserMutation];
    - TodosForm.tsx: [createTodoMutation], [updateTodoMutation];
    - pages/todos/index.tsx: [deleteTodoMutation], [updateStatusMutation];
    - PostsForm.tsx: [createPostMutation], [updatePostMutation];
    - PostsCard.tsx: [deletePostMutation], [createCommentMutation],
      [deleteCommentMutation].
    Each is translated as three functions of the mutation and of what its
    closure reads when [mutate] is called (the selected user, and for
    PostCard the card's post): [mutationFn] (the request, or the value it
    throws before any request), [onSuccess] and [onError] (the calls the
    callbacks make, in order, as a list of [Effect]s; [onError] is [None]
    when the callback itself throws).

    The application state [App] holds the selected profile, the query
    cache (any [QueryClient]) and the log of UI effects.  [app_step] is
    the program's step relation: selecting a profile, settling a
    mutation against a transport outcome, a query fetch completing, and a
    query being mounted. *)

From Stdlib Require Import ZArith String.
From stdpp Require Import base strings list.
From S2P Require Import Prelude JsObject Types ApiError QueryCache Services Profile Pages.

Open Scope Z_scope.
Open Scope string_scope.

Module Mutations.
Import Users Todos Posts Profile Pages.

Inductive Mutation :=
| DeleteUser (id : Z)
| CreateUser (data : UserFormData)
| UpdateUser (id : Z) (data : UserFormData)
| CreateTodo (data : CreateTodoData)
| UpdateTodo (id : Z) (data : CreateTodoData)
| DeleteTodo (id : Z)
| UpdateTodoStatus (id : Z) (status : TodoStatus)
| CreatePost (data : PostFormData)
| UpdatePost (initialData : option PostType) (data : PostFormData)
| DeletePost (card : PostType) (postId : Z)
| CreateComment (card : PostType) (postId : Z) (data : CommentData)
| DeleteComment (card : PostType) (commentId : Z).

(** ** The invalidation filters the callbacks pass *)

Definition users_filter : QueryKey := [JStr "users"].
Definition todos_filter (sel : option UserType) : QueryKey :=
  [JStr "todos"; selected_id sel].
Definition posts_filter : QueryKey := [JStr "posts"].
Definition my_posts_filter (uid : Z) : QueryKey := [JStr "my-posts"; JNum uid].
Definition comments_filter (postId : Z) : QueryKey := [JStr "comments"; JNum postId].

(** What a callback does, in order. *)
Inductive Effect :=
| Invalidate (filter : QueryKey)
| Ui (e : UiEffect).

(** One [useMutation]: its mutation function applied to the variables
    passed to [mutate], and its callbacks, with what the closure reads
    fixed.  [onError] is [None] when the callback throws. *)
Record MutationDef := mkMutationDef {
  mutationFn : sum Thrown Request;
  onSuccess : list Effect;
  onError : Thrown -> option (list Effect)
}.

Definition no_onError : Thrown -> option (list Effect) := fun _ => Some [].

(** [if (formErrors.general) message.error(formErrors.general)] *)
Definition show_general (fe : JsObject.t string) : list Effect :=
  match general_of fe with Some g => [Ui (MessageError g)] | None => [] end.

(** [const formErrors = formatApiErrors(error);
     form.setFields(Object.entries(formErrors).map(...)); ...general] *)
Definition form_errors (form : FormName) (error : Thrown) : option (list Effect) :=
  match formatApiErrors error with
  | Some fe => Some (Ui (SetFields form (JsObject.Object_entries fe)) :: show_general fe)
  | None => None
  end.

(** [const formErrors = formatApiErrors(error); ...general] *)
Definition toast_errors (error : Thrown) : option (list Effect) :=
  match formatApiErrors error with
  | Some fe => Some (show_general fe)
  | None => None
  end.

(** ** components/users/UserTable.tsx *)
Definition deleteUserMutation (id : Z) : MutationDef :=
  mkMutationDef (inr (userApi.deleteUser id))
    [Ui (MessageSuccess "User deleted successfully"); Invalidate users_filter]
    no_onError.

(** ** components/users/UserForm.tsx *)
Definition createUserMutation (data : UserFormData) : MutationDef :=
  mkMutationDef (inr (userApi.createUser data))
    [Ui (MessageSuccess "User created successfully"); Invalidate users_filter; Ui OnSubmit]
    no_onError.

Definition updateUserMutation (id : Z) (data : UserFormData) : MutationDef :=
  mkMutationDef (inr (userApi.updateUser id data))
    [Ui (MessageSuccess "User updated successfully"); Invalidate users_filter; Ui OnSubmit]
    no_onError.

(** ** components/todos/TodosForm.tsx *)
Definition createTodoMutation (selectedUser : option UserType) (data : CreateTodoData)
  : MutationDef :=
  mkMutationDef
    (* [if (!selectedUser?.id) throw new Error('No user selected')] *)
    (if js_truthy (selected_id selectedUser) then
       match selectedUser with
       | Some u => inr (todoApi.createTodo (Users.id u) data)
       | None => inl (TErrorObj "No user selected")
       end
     else inl (TErrorObj "No user selected"))
    [Ui (MessageSuccess "Todo created successfully"); Invalidate (todos_filter selectedUser);
     Ui OnSubmit]
    no_onError.

Definition updateTodoMutation (selectedUser : option UserType) (id : Z) (data : CreateTodoData)
  : MutationDef :=
  mkMutationDef (inr (todoApi.updateTodo id (todoApi.data_body data)))
    [Ui (MessageSuccess "Todo updated successfully"); Invalidate (todos_filter selectedUser);
     Ui OnSubmit]
    no_onError.

(** ** pages/todos/index.tsx *)
Definition deleteTodoMutation (selectedUser : option UserType) (id : Z) : MutationDef :=
  mkMutationDef (inr (todoApi.deleteTodo id))
    [Ui (MessageSuccess "Todo deleted successfully"); Invalidate (todos_filter selectedUser)]
    no_onError.

Definition updateStatusMutation (selectedUser : option UserType) (id : Z) (status : TodoStatus)
  : MutationDef :=
  mkMutationDef (inr (todoApi.updateTodo id [("status", JStr (TodoStatus_value status))]))
    [Invalidate (todos_filter selectedUser)]
    no_onError.

(** ** components/posts/PostsForm.tsx and PostsCard.tsx: [invalidateQueries] *)
Definition invalidatePostQueries (selectedUser : option UserType) : list Effect :=
  Invalidate posts_filter ::
  match selectedUser with Some u => [Invalidate (my_posts_filter (Users.id u))] | None => [] end.

(** ** components/posts/PostsForm.tsx *)
Definition createPostMutation (selectedUser : option UserType) (data : PostFormData)
  : MutationDef :=
  mkMutationDef
    (match selectedUser with
     | Some u => inr (postsApi.createPost (Users.id u) data)
     | None => inl (TString "No user selected")
     end)
    (Ui (MessageSuccess "Post created successfully") :: invalidatePostQueries selectedUser
     ++ [Ui OnSubmit])
    (form_errors PostFormF).

Definition updatePostMutation (selectedUser : option UserType) (initialData : option PostType)
  (data : PostFormData) : MutationDef :=
  mkMutationDef
    (match initialData with
     | Some p => inr (postsApi.updatePost (Posts.id p) data)
     | None => inl (TString "No post selected")
     end)
    (Ui (MessageSuccess "Post updated successfully") :: invalidatePostQueries selectedUser
     ++ [Ui OnSubmit])
    (form_errors PostFormF).

(** ** components/posts/PostsCard.tsx *)
Definition deletePostMutation (selectedUser : option UserType) (postId : Z) : MutationDef :=
  mkMutationDef (inr (postsApi.deletePost postId))
    (Ui (MessageSuccess "Post deleted successfully") :: invalidatePostQueries selectedUser)
    toast_errors.

Definition createCommentMutation (post : PostType) (postId : Z) (data : CommentData)
  : MutationDef :=
  mkMutationDef (inr (postsApi.createComment postId data))
    [Ui (MessageSuccess "Comment added successfully"); Ui (ResetFields CommentFormF);
     Invalidate (comments_filter (Posts.id post))]
    (form_errors CommentFormF).

Definition deleteCommentMutation (post : PostType) (commentId : Z) : MutationDef :=
  mkMutationDef (inr (postsApi.deleteComment commentId))
    [Ui (MessageSuccess "Comment deleted successfully");
     Invalidate (comments_filter (Posts.id post))]
    toast_errors.

(** ** Every mutation of the program *)
Definition mutation_def (m : Mutation) (sel : option UserType) : MutationDef :=
  match m with
  | DeleteUser id => deleteUserMutation id
  | CreateUser d => createUserMutation d
  | UpdateUser id d => updateUserMutation id d
  | CreateTodo d => createTodoMutation sel d
  | UpdateTodo id d => updateTodoMutation sel id d
  | DeleteTodo id => deleteTodoMutation sel id
  | UpdateTodoStatus id s => updateStatusMutation sel id s
  | CreatePost d => createPostMutation sel d
  | UpdatePost init d => updatePostMutation sel init d
  | DeletePost _ postId => deletePostMutation sel postId
  | CreateComment card postId d => createCommentMutation card postId d
  | DeleteComment card commentId => deleteCommentMutation card commentId
  end.

(** ** Dispatch: which mutation a user action starts *)

(** What a handler does: start a mutation with these variables, or only
    show effects. *)
Inductive Action :=
| Start (m : Mutation)
| Show (es : list UiEffect).

(** TodosForm.tsx [handleSubmit]: [values.due_on.toISOString()] is the
    ISO string [due_on_iso]. *)
Definition todoForm_handleSubmit (initialData : option TodoType)
  (title due_on_iso status : string) : Action :=
  let todoData := mkCreateTodoData title due_on_iso status in
  match initialData with
  | Some t => Start (UpdateTodo (Todos.id t) todoData)
  | None => Start (CreateTodo todoData)
  end.

(** UserForm.tsx [handleSubmit] *)
Definition userForm_handleSubmit (initialData : option UserType) (values : UserFormData) : Action :=
  match initialData with
  | Some u => Start (UpdateUser (Users.id u) values)
  | None => Start (CreateUser values)
  end.

(** PostsForm.tsx [handleSubmit] *)
Definition postForm_handleSubmit (initialData : option PostType) (values : PostFormData) : Action :=
  match initialData with
  | Some _ => Start (UpdatePost initialData values)
  | None => Start (CreatePost values)
  end.

(** PostsCard.tsx [handleAddComment] *)
Definition handleAddComment (post : PostType) (selectedUser : option UserType) (body : string)
  : Action :=
  match selectedUser with
  | None => Show [MessageError "Please select a profile first"]
  | Some u =>
      Start (CreateComment post (Posts.id post) (mkCommentData (Users.name u) (Users.email u) body))
  end.

(** pages/todos/index.tsx [handleStatusChange] *)
Definition toggleStatus (s : TodoStatus) : TodoStatus :=
  if decide (s = Completed) then Pending else Completed.

Definition handleStatusChange (todo : TodoType) : Action :=
  Start (UpdateTodoStatus (Todos.id todo) (toggleStatus (Todos.status todo))).

(** PostsCard.tsx [isUserComment]: [selectedUser?.email === comment.email] *)
Definition isUserComment (selectedUser : option UserType) (comment : CommentType) : bool :=
  (js_opt_field (fun u => JStr (Users.email u)) selectedUser === JStr (comment_email comment))%js.

(** The forms whose [onError] writes field errors. *)
Definition error_form (m : Mutation) : option FormName :=
  match m with
  | CreatePost _ | UpdatePost _ _ => Some PostFormF
  | CreateComment _ _ _ => Some CommentFormF
  | _ => None
  end.

End Mutations.

Module DispatchFacts.
Import Users Todos Posts Profile Mutations.

(** C16: adding a comment with no profile selected only shows the
    "select a profile" error and then no comment counts as the user's;
    with a profile selected it starts [createCommentMutation] on the
    card's post with the user's name and email, and every comment the
    server returns with that email is recognised as the user's own (its
    delete button is shown). *)
Theorem handleAddComment_ownership post sel body :
  match handleAddComment post sel body with
  | Start (CreateComment p pid d) =>
      p = post /\ pid = Posts.id post /\ cdata_body d = body /\
      (exists u, sel = Some u /\ cdata_name d = Users.name u /\ cdata_email d = Users.email u) /\
      forall c, comment_email c = cdata_email d -> isUserComment sel c = true
  | Start _ => False
  | Show es =>
      sel = None /\ es = [MessageError "Please select a profile first"] /\
      forall c, isUserComment sel c = false
  end.
Proof.
  destruct sel as [u|]; simpl.
  - split_and!; try done; [by exists u|].
    intros c Hc. unfold isUserComment. simpl. rewrite Hc. apply js_eqb_refl.
  - split_and!; try done.
Qed.

(** PostsForm's [handleSubmit] updates exactly when the form was
    opened on a post and creates otherwise, so the "No post selected"
    rejection of [updatePostMutation] is never reached from it. *)
Theorem postForm_submit_never_missing_post init values sel :
  exists m, postForm_handleSubmit init values = Start m /\
    mutationFn (mutation_def m sel) <> inl (TString "No post selected") /\
    ((exists p, init = Some p /\ m = UpdatePost init values) \/ (init = None /\ m = CreatePost values)).
Proof.
  destruct init as [p|]; simpl.
  - eexists. split_and!; [done| |left; by exists p]. done.
  - eexists. split_and!; [done| |by right]. simpl. by destruct sel.
Qed.

End DispatchFacts.
