(* ===== verification/Modals.v ===== *)
(** * The create and edit dialogs

    Users, todos and posts are created and edited in antd [Modal]s that
    hold a form ([UserForm], [TodoForm], [PostForm]) whose
    [initialValues] come from the [initialData] prop, the item being
    edited or nothing:
    - components/users/UserTable.tsx: one modal for editing a user,
      without [destroyOnClose]; the edit button sets [editingUser] and
      opens it, closing resets [editingUser] to [null];
    - pages/users/index.tsx: a create modal, without [destroyOnClose];
    - pages/todos/index.tsx: one modal for both, without
      [destroyOnClose]; "Add Todo" only opens it, the edit button sets
      [editingTodo] first;
    - pages/posts/all.tsx and my.tsx: a create modal and an edit modal,
      both with [destroyOnClose].

    [ModalForm] models one modal with the state the page keeps (open
    flag, item being edited) and the form's store (its fields, or
    nothing before the form is mounted), under the behaviour antd
    documents: a [Modal] renders its content when it first opens and
    keeps it mounted when it closes unless [destroyOnClose] is set; a
    [Form] reads [initialValues] when it mounts, and later changes of
    that prop do not touch the fields.  Events are the clicks that open
    the modal (only while it is closed, the modal's mask covering the
    page otherwise), closing it (Cancel or [onSubmit] after a successful
    mutation), and typing into the fields (while it is open).
    Submitting reads the fields back (the [required] rules must hold)
    and calls the form's [handleSubmit] of Mutations.v with the current
    [initialData]. *)

From Stdlib Require Import ZArith String.
From stdpp Require Import base strings list relations.
From S2P Require Import Prelude Types FormRules ApiError QueryCache Services Profile Pages Mutations.

Open Scope Z_scope.

Module ModalForm.

Record t (T F : Type) := mkModal {
  open : bool;
  editing : option T;
  fields : option F
}.
Arguments mkModal {T F}.
Arguments open {T F}.
Arguments editing {T F}.
Arguments fields {T F}.

Section Modal.
Context {T F : Type} (initialValues : option T -> F) (destroyOnClose : bool).

Definition init : t T F := mkModal false None None.

(** The render after the modal is opened: the form is mounted now if
    it was not, reading [initialValues] from the [initialData] of this
    render. *)
Definition show (s : t T F) : t T F :=
  mkModal true (editing s)
    (Some (match fields s with Some f => f | None => initialValues (editing s) end)).

(** [setIsModalOpen(true)] alone (Add Todo, Create Post, Add User). *)
Definition open_create (s : t T F) : t T F := show s.

(** [setEditingX(item); setIsModalOpen(true)] *)
Definition open_edit (x : T) (s : t T F) : t T F := show (mkModal (open s) (Some x) (fields s)).

(** [setIsModalOpen(false); setEditingX(null)]: Cancel, or [onSubmit]
    after a successful mutation. *)
Definition close (s : t T F) : t T F :=
  mkModal false None (if destroyOnClose then None else fields s).

(** The user edits the fields of the open form. *)
Definition type_fields (f : F) (s : t T F) : t T F := mkModal (open s) (editing s) (Some f).

Inductive step : relation (t T F) :=
| StepOpenCreate s : open s = false -> step s (open_create s)
| StepOpenEdit x s : open s = false -> step s (open_edit x s)
| StepClose s : open s = true -> step s (close s)
| StepType f s : open s = true -> step s (type_fields f s).

Definition reachable (s : t T F) : Prop := rtc step init s.

(** Pressing the submit button: the fields, if the required rules
    pass, and the [initialData] the form is rendered with. *)
Definition submit {V} (validate : F -> option V) (s : t T F) : option (option T * V) :=
  if open s then
    match fields s with
    | Some f => match validate f with Some v => Some (editing s, v) | None => None end
    | None => None
    end
  else None.

End Modal.
End ModalForm.

(** ** UserTable.tsx and UserForm.tsx *)
Module UserModal.
Import Users.

(** The store of [UserForm]: the four fields, each unset or set. *)
Record UserFields := mkUserFields {
  uf_name : option string;
  uf_email : option string;
  uf_gender : option UserGender;
  uf_status : option UserStatus
}.

(** [initialValues={initialData || {}}] *)
Definition initialValues (initialData : option UserType) : UserFields :=
  match initialData with
  | Some u => mkUserFields (Some (name u)) (Some (email u)) (Some (gender u)) (Some (status u))
  | None => mkUserFields None None None None
  end.

(** The rules of the four items: [required] on the name and e-mail
    inputs and on the two selects, and [{ type: 'email' }]. *)
Definition validate (f : UserFields) : option UserFormData :=
  match FormRules.required (uf_name f), FormRules.required (uf_email f), uf_gender f, uf_status f with
  | Some n, Some e, Some g, Some st =>
      if FormRules.is_email e then Some (mkUserFormData n e g st) else None
  | _, _, _, _ => None
  end.

(** A stored user passes the form's rules. *)
Definition accepts (u : UserType) : bool :=
  negb (String.eqb (name u) "") && negb (String.eqb (email u) "") && FormRules.is_email (email u).

(** The edit modal of UserTable has no [destroyOnClose]. *)
Definition destroyOnClose : bool := false.

(** The submit button: [handleSubmit(values)] of UserForm. *)
Definition submit (s : ModalForm.t UserType UserFields) : option Mutations.Action :=
  match ModalForm.submit validate s with
  | Some (initialData, values) => Some (Mutations.userForm_handleSubmit initialData values)
  | None => None
  end.

End UserModal.

(** ** pages/todos/index.tsx and TodosForm.tsx *)
Module TodoModal.
Import Todos.

(** The store of [TodoForm]: title, due date (the dayjs value, kept as
    the date string it was built from) and status. *)
Record TodoFields := mkTodoFields {
  tf_title : option string;
  tf_due_on : option string;
  tf_status : option string
}.

Section WithClock.
(** [dayjs()] at the time the form mounts, and [toISOString()] of a
    date. *)
Context (now : string) (toISOString : string -> string).

(** [initialValues]: the todo with [due_on: dayjs(initialData.due_on)],
    or [{ status: TodoStatus.Pending, due_on: dayjs() }]. *)
Definition initialValues (initialData : option TodoType) : TodoFields :=
  match initialData with
  | Some t => mkTodoFields (Some (title t)) (Some (due_on t)) (Some (TodoStatus_value (status t)))
  | None => mkTodoFields None (Some now) (Some (TodoStatus_value Pending))
  end.

(** [required] on the title input, the date picker and the status
    select.  The picker only yields valid dates, so [toISOString] of a
    picked date does not throw. *)
Definition validate (f : TodoFields) : option (string * string * string) :=
  match FormRules.required (tf_title f), tf_due_on f, tf_status f with
  | Some ti, Some d, Some st => Some (ti, toISOString d, st)
  | _, _, _ => None
  end.

Definition submit (s : ModalForm.t TodoType TodoFields) : option Mutations.Action :=
  match ModalForm.submit validate s with
  | Some (initialData, (ti, d, st)) => Some (Mutations.todoForm_handleSubmit initialData ti d st)
  | None => None
  end.

End WithClock.

(** A stored todo passes the form's rules. *)
Definition accepts (t : TodoType) : bool := negb (String.eqb (title t) "").

(** The todos modal has no [destroyOnClose]. *)
Definition destroyOnClose : bool := false.

End TodoModal.

(** ** pages/posts/all.tsx, my.tsx and PostsForm.tsx *)
Module PostModal.
Import Posts.

Record PostFields := mkPostFields { pf_title : option string; pf_body : option string }.

(** [initialValues={initialData ?? undefined}] *)
Definition initialValues (initialData : option PostType) : PostFields :=
  match initialData with
  | Some p => mkPostFields (Some (title p)) (Some (body p))
  | None => mkPostFields None None
  end.

(** [required] on the title input and the content text area. *)
Definition validate (f : PostFields) : option PostFormData :=
  match FormRules.required (pf_title f), FormRules.required (pf_body f) with
  | Some ti, Some b => Some (mkPostFormData ti b)
  | _, _ => None
  end.

(** A stored post passes the form's rules. *)
Definition accepts (p : PostType) : bool :=
  negb (String.eqb (title p) "") && negb (String.eqb (body p) "").

(** Both posts modals have [destroyOnClose]. *)
Definition destroyOnClose : bool := true.

Definition submit (s : ModalForm.t PostType PostFields) : option Mutations.Action :=
  match ModalForm.submit validate s with
  | Some (initialData, values) => Some (Mutations.postForm_handleSubmit initialData values)
  | None => None
  end.

End PostModal.

Module ModalFacts.
Import ModalForm.

Section Facts.
Context {T F : Type} (initialValues : option T -> F) (destroyOnClose : bool).

(** Whatever step led to it, a closed modal edits nothing, and has no
    mounted form when it is destroyed on close. *)
Lemma step_closed s s' :
  step initialValues destroyOnClose s s' -> open s' = false ->
  editing s' = None /\ (destroyOnClose = true -> fields s' = None).
Proof.
  destruct 1 as [s0 Ho|x s0 Ho|s0 Ho|f s0 Ho]; simpl; try done.
  - intros _. split; [done|]. by intros ->.
  - by rewrite Ho.
Qed.

Lemma closed_inv s :
  reachable initialValues destroyOnClose s -> open s = false ->
  editing s = None /\ (destroyOnClose = true -> fields s = None).
Proof.
  intros Hr. apply rtc_inv_r in Hr as [<-|(s0 & _ & Hs)]; [done|]. by apply step_closed with s0.
Qed.

(** Opening a closed modal that is destroyed on close mounts a fresh
    form with the initial values of what it opens for. *)
Lemma fresh_open s :
  destroyOnClose = true -> reachable initialValues destroyOnClose s -> open s = false ->
  (forall x, fields (open_edit initialValues x s) = Some (initialValues (Some x))) /\
  fields (open_create initialValues s) = Some (initialValues None).
Proof.
  intros Hd Hr Ho. destruct (closed_inv s Hr Ho) as [He Hf]. specialize (Hf Hd).
  unfold open_edit, open_create, show. simpl. by rewrite Hf, He.
Qed.

End Facts.

(** The form opened on a stored item submits its values exactly when the
    item passes the form's rules. *)
Lemma user_validate_initial u :
  UserModal.validate (UserModal.initialValues (Some u)) =
    if UserModal.accepts u then
      Some (Users.mkUserFormData (Users.name u) (Users.email u) (Users.gender u) (Users.status u))
    else None.
Proof.
  unfold UserModal.validate, UserModal.accepts, FormRules.required; simpl.
  by destruct (String.eqb _ ""), (String.eqb (Users.email u) ""), (FormRules.is_email _).
Qed.

Lemma post_validate_initial p :
  PostModal.validate (PostModal.initialValues (Some p)) =
    if PostModal.accepts p then Some (Posts.mkPostFormData (Posts.title p) (Posts.body p)) else None.
Proof.
  unfold PostModal.validate, PostModal.accepts, FormRules.required; simpl.
  by destruct (String.eqb _ ""), (String.eqb (Posts.body p) "").
Qed.

Lemma todo_validate_initial now toISOString t :
  TodoModal.validate toISOString (TodoModal.initialValues now (Some t)) =
    if TodoModal.accepts t then
      Some (Todos.title t, toISOString (Todos.due_on t), Todos.TodoStatus_value (Todos.status t))
    else None.
Proof.
  unfold TodoModal.validate, TodoModal.accepts, FormRules.required; simpl.
  by destruct (String.eqb _ "").
Qed.

(** C13: the posts dialogs (destroyed on close) always open fresh: from
    any state the page can reach with the dialog closed, opening it to
    edit a post shows that post's title and body, so submitting at once
    updates that post with its own values (when they pass the form's
    rules, as what the server stored through this form does), and
    opening it to create
    shows empty fields, so nothing can be submitted before they are
    filled. *)
Theorem post_modal_fresh (s : ModalForm.t Posts.PostType PostModal.PostFields) (p : Posts.PostType) :
  reachable PostModal.initialValues PostModal.destroyOnClose s -> open s = false ->
  PostModal.submit (open_edit PostModal.initialValues p s) =
    (if PostModal.accepts p then
       Some (Mutations.Start (Mutations.UpdatePost (Some p) (Posts.mkPostFormData (Posts.title p) (Posts.body p))))
     else None) /\
  PostModal.submit (open_create PostModal.initialValues s) = None.
Proof.
  intros Hr Ho. destruct (fresh_open PostModal.initialValues PostModal.destroyOnClose s eq_refl Hr Ho)
    as [He Hc].
  unfold PostModal.submit, submit. rewrite He, Hc, post_validate_initial. simpl.
  split; [by destruct (PostModal.accepts p)|reflexivity].
Qed.

(** C5: the user edit dialog of UserTable (kept mounted on close)
    reopens with stale fields: after editing user A and cancelling,
    opening user B shows A's name, e-mail, gender and status, and
    pressing Update sends them as the update of user B (when they pass
    the form's rules, as what the server stored through this form
    does; otherwise the rules refuse the submit). *)
Theorem user_modal_stale_edit (A B : Users.UserType) :
  let s := open_edit UserModal.initialValues B
             (close UserModal.destroyOnClose (open_edit UserModal.initialValues A init)) in
  reachable UserModal.initialValues UserModal.destroyOnClose s /\
  editing s = Some B /\
  UserModal.submit s =
    if UserModal.accepts A then
      Some (Mutations.Start (Mutations.UpdateUser (Users.id B)
              (Users.mkUserFormData (Users.name A) (Users.email A) (Users.gender A) (Users.status A))))
    else None.
Proof.
  split_and!; [|done|].
  2:{ unfold UserModal.submit, submit. cbn [open editing fields open_edit show close init UserModal.destroyOnClose].
      rewrite user_validate_initial. by destruct (UserModal.accepts A). }
  eapply rtc_l; [by apply StepOpenEdit|]. eapply rtc_l; [by apply StepClose|].
  eapply rtc_l; [by apply StepOpenEdit|]. apply rtc_refl.
Qed.

(** The todo dialog (kept mounted on close) opened with "Add Todo"
    after editing a todo and cancelling is in create mode but shows the
    edited todo's fields, and pressing Create creates a copy of it
    (when its fields pass the form's rules). *)
Theorem todo_modal_stale_create (now : string) (toISOString : string -> string) (A : Todos.TodoType) :
  let s := open_create (TodoModal.initialValues now)
             (close TodoModal.destroyOnClose (open_edit (TodoModal.initialValues now) A init)) in
  reachable (TodoModal.initialValues now) TodoModal.destroyOnClose s /\
  editing s = None /\
  TodoModal.submit toISOString s =
    if TodoModal.accepts A then
      Some (Mutations.Start (Mutations.CreateTodo
              (Todos.mkCreateTodoData (Todos.title A) (toISOString (Todos.due_on A))
                                      (Todos.TodoStatus_value (Todos.status A)))))
    else None.
Proof.
  split_and!; [|done|].
  2:{ unfold TodoModal.submit, submit.
      cbn [open editing fields open_create show close init TodoModal.destroyOnClose].
      cbn [open_edit show fields editing init].
      rewrite todo_validate_initial. by destruct (TodoModal.accepts A). }
  eapply rtc_l; [by apply StepOpenEdit|]. eapply rtc_l; [by apply StepClose|].
  eapply rtc_l; [by apply StepOpenCreate|]. apply rtc_refl.
Qed.

End ModalFacts.

Module ModalWitnesses.
Import ModalForm ModalFacts.

Lemma post_modal_fresh_witness :
  reachable PostModal.initialValues PostModal.destroyOnClose init /\
  @open Posts.PostType PostModal.PostFields init = false /\
  (PostModal.submit (open_edit PostModal.initialValues (Posts.mkPost 3 7 "t" "b") init) =
     Some (Mutations.Start (Mutations.UpdatePost (Some (Posts.mkPost 3 7 "t" "b"))
                             (Posts.mkPostFormData "t" "b"))) /\
   PostModal.submit (open_create PostModal.initialValues init) = None).
Proof.
  assert (Hr : reachable PostModal.initialValues PostModal.destroyOnClose init) by apply rtc_refl.
  assert (Ho : @open Posts.PostType PostModal.PostFields init = false) by reflexivity.
  split; [exact Hr|]. split; [exact Ho|].
  exact (post_modal_fresh init (Posts.mkPost 3 7 "t" "b") Hr Ho).
Defined.

End ModalWitnesses.
