(* ===== verification/PostsPages.v ===== *)
(** * The posts pages: pages/posts/all.tsx and pages/posts/my.tsx

    Both pages keep the same local state: the create modal's and the
    edit modal's open flags, the post being edited, and the page and page
    size of the list; my.tsx also has the flag of its "Select Profile"
    prompt, which a [useEffect] opens when no profile is selected.  The
    two modals hold a [PostForm] and are destroyed on close, so each is
    the [ModalForm] machine of Modals.v with [PostModal]'s initial
    values: [State] keeps the two machines (open flag, item edited, form
    store) beside the rest of the page's state.

    A render ([render]) reads the selected profile, the state of the
    page's [useQuery] ([QueryView]) and the page state, and shows either
    the prompt (my.tsx without a profile) or the list: the info alert and
    the Create button of all.tsx, the cards of [PostCard] with their
    action buttons, the pagination and the two modals.  An event
    ([Event]) is a click the rendered view offers ([available]): the
    page's buttons only while both modals are closed (their masks cover
    the page), a modal's own controls only while it is open.  [step]
    runs the event's handler and then the page's effect; a visit of the
    page starts at [mount] (Next.js mounts a page anew on every
    navigation). *)

From Stdlib Require Import ZArith String.
From stdpp Require Import base strings list relations.
From S2P Require Import Prelude Types JsNumber Pagination Profile Pages Mutations Modals.

Open Scope Z_scope.

Module PostsPage.
Import Users Posts Profile Pages ModalForm.

#[export] Instance PostType_eq_dec : EqDecision PostType.
Proof. solve_decision. Defined.

(** Which of the two pages. *)
Inductive Variant := AllPosts | MyPosts.

(** The [useState]s of the page; [createModal] is
    [isCreateModalOpen] with the create form's store, [editModal] is
    [isEditModalOpen] and [editingPost] with the edit form's store. *)
Record State := mkState {
  createModal : ModalForm.t PostType PostModal.PostFields;
  editModal : ModalForm.t PostType PostModal.PostFields;
  isRedirectModalOpen : bool;
  page : Z;
  pageSize : Z
}.

(** [useState(false)], [useState(null)], [useState(1)], [useState(10)] *)
Definition init : State := mkState ModalForm.init ModalForm.init false 1 10.

(** The page's [useQuery] options, as the call sites of Pages.v. *)
Definition query (v : Variant) (sel : option UserType) (s : State) : PageQuery :=
  match v with
  | AllPosts => QPosts (page s) (pageSize s)
  | MyPosts => QMyPosts sel (page s) (pageSize s)
  end.

(** my.tsx: [if (!selectedUser && !isRedirectModalOpen)
    setIsRedirectModalOpen(true)]; all.tsx has no effect. *)
Definition redirectEffect (v : Variant) (sel : option UserType) (s : State) : State :=
  match v with
  | MyPosts =>
      if negb (bool_decide (is_Some sel)) && negb (isRedirectModalOpen s)
      then mkState (createModal s) (editModal s) true (page s) (pageSize s)
      else s
  | AllPosts => s
  end.

(** The render-effect cycle after a change: React runs the effect when
    one of its dependencies ([selectedUser], fixed while the page is
    shown, and [isRedirectModalOpen]) changed since the last run, and the
    effect's [setState] renders again.  [settle fuel] runs the effect and
    repeats while it changes a dependency; [None] is running out of
    fuel. *)
Fixpoint settle (fuel : nat) (v : Variant) (sel : option UserType) (s : State) : option State :=
  match fuel with
  | O => None
  | S fuel' =>
      let s' := redirectEffect v sel s in
      if Bool.eqb (isRedirectModalOpen s') (isRedirectModalOpen s) then Some s'
      else settle fuel' v sel s'
  end.

(** [handleEditPost]: [setEditingPost(post); setIsEditModalOpen(true)] *)
Definition handleEditPost (post : PostType) (s : State) : State :=
  mkState (createModal s) (open_edit PostModal.initialValues post (editModal s))
    (isRedirectModalOpen s) (page s) (pageSize s).

(** [handlePageChange]: [setPage(newPage); setPageSize(newPageSize)] *)
Definition handlePageChange (newPage newPageSize : Z) (s : State) : State :=
  mkState (createModal s) (editModal s) (isRedirectModalOpen s) newPage newPageSize.

Definition with_create (m : ModalForm.t PostType PostModal.PostFields) (s : State) : State :=
  mkState m (editModal s) (isRedirectModalOpen s) (page s) (pageSize s).

Definition with_edit (m : ModalForm.t PostType PostModal.PostFields) (s : State) : State :=
  mkState (createModal s) m (isRedirectModalOpen s) (page s) (pageSize s).

(** ** The render *)

Inductive CardAction := CommentsButton | EditButton | DeleteButton.

#[export] Instance CardAction_eq_dec : EqDecision CardAction.
Proof. solve_decision. Defined.

(** PostsCard.tsx: [[Comments, isOwner && Edit, isOwner && Delete].filter(Boolean)] *)
Definition card_actions (isOwner : bool) : list CardAction :=
  CommentsButton :: (if isOwner then [EditButton; DeleteButton] else []).

(** The [isOwner] prop: [post.user_id === selectedUser?.id] on
    all.tsx, [true] on my.tsx. *)
Definition isOwner (v : Variant) (sel : option UserType) (p : PostType) : bool :=
  match v with
  | AllPosts => (JNum (user_id p) === selected_id sel)%js
  | MyPosts => true
  end.

Inductive Body :=
| BodyLoading                            (** the spinner *)
| BodyEmpty (createFirst : bool)         (** [<Empty>], with my.tsx's button *)
| BodyCards (cards : list (PostType * list CardAction))
| BodyNothing.                           (** [data?.data.map] of [undefined] *)

Definition body (v : Variant) (sel : option UserType) (q : QueryView PostType) : Body :=
  match q with
  | QLoading => BodyLoading
  | QIdle => BodyNothing
  | QData ps _ =>
      match ps with
      | [] => BodyEmpty (match v with MyPosts => true | AllPosts => false end)
      | _ :: _ => BodyCards (map (λ p, (p, card_actions (isOwner v sel p))) ps)
      end
  end.

Record Listing := mkListing {
  alert : bool;                       (** all.tsx's "Select a profile" alert *)
  createButton : bool;
  subtitle : option string;           (** my.tsx's "Posts by ..." *)
  content : Body;
  current : Z;
  size : Z;
  total : JsNumber.t;
  createOpen : bool;
  editOpen : bool;
  editInitialData : option PostType
}.

Inductive View :=
| RedirectPrompt (open : bool)
| ListView (l : Listing).

Definition render (v : Variant) (sel : option UserType) (q : QueryView PostType) (s : State) : View :=
  match v, sel with
  | MyPosts, None => RedirectPrompt (isRedirectModalOpen s)
  | _, _ =>
      ListView (mkListing
        (match v with AllPosts => negb (bool_decide (is_Some sel)) | MyPosts => false end)
        (match v with AllPosts => bool_decide (is_Some sel) | MyPosts => true end)
        (match v, sel with MyPosts, Some u => Some ("Posts by " ++ Users.name u)%string | _, _ => None end)
        (body v sel q) (page s) (pageSize s)
        (Pagination.paginationTotal (view_header q))
        (open (createModal s)) (open (editModal s)) (editing (editModal s)))
  end.

(** ** Events *)

Inductive Event :=
| ClickCreate                                (** "Create Post", or "Create your first post" *)
| CloseCreate                                (** the create modal's Cancel or [onSubmit] *)
| TypeCreate (f : PostModal.PostFields)
| EditPost (p : PostType)                    (** a card's Edit: [onEdit?.(post)] *)
| CloseEdit                                  (** the edit modal's Cancel or [onSubmit] *)
| TypeEdit (f : PostModal.PostFields)
| ChangePage (newPage newPageSize : Z)       (** the pagination's [onChange] *)
| Redirect.                                  (** the prompt's OK or Cancel: [handleRedirect] *)

Definition has_edit (p : PostType) (b : Body) : bool :=
  match b with
  | BodyCards cs => bool_decide ((p, card_actions true) ∈ cs)
  | _ => false
  end.

Definition has_create (l : Listing) : bool :=
  createButton l || match content l with BodyEmpty true => true | _ => false end.

(** The clicks the rendered view offers. *)
Definition available (vw : View) (e : Event) : bool :=
  match vw with
  | RedirectPrompt o => match e with Redirect => o | _ => false end
  | ListView l =>
      let closed := negb (createOpen l) && negb (editOpen l) in
      match e with
      | ClickCreate => closed && has_create l
      | CloseCreate | TypeCreate _ => createOpen l
      | EditPost p => closed && has_edit p (content l)
      | CloseEdit | TypeEdit _ => editOpen l
      | ChangePage _ _ => closed
      | Redirect => false
      end
  end.

(** The handlers, each [setState] of the source in order. *)
Definition handle (e : Event) (s : State) : State :=
  match e with
  | ClickCreate => with_create (open_create PostModal.initialValues (createModal s)) s
  | CloseCreate => with_create (close PostModal.destroyOnClose (createModal s)) s
  | TypeCreate f => with_create (type_fields f (createModal s)) s
  | EditPost p => handleEditPost p s
  | CloseEdit => with_edit (close PostModal.destroyOnClose (editModal s)) s
  | TypeEdit f => with_edit (type_fields f (editModal s)) s
  | ChangePage p sz => handlePageChange p sz s
  | Redirect => s
  end.

(** [router.push('/users')] of [handleRedirect]: the only event that
    leaves the page. *)
Definition navigation (e : Event) : option string :=
  match e with Redirect => Some "/users"%string | _ => None end.

Definition mount (v : Variant) (sel : option UserType) : State := redirectEffect v sel init.

(** A click the view rendered from the query's state [q] offers (a
    disabled query shows nothing), its handler, and the effect. *)
Inductive step (v : Variant) (sel : option UserType) : relation State :=
| PageStep q e s :
    view_consistent (query v sel s) q = true ->
    available (render v sel q s) e = true ->
    step v sel s (redirectEffect v sel (handle e s)).

Definition reachable (v : Variant) (sel : option UserType) (s : State) : Prop :=
  rtc (step v sel) (mount v sel) s.

End PostsPage.

(** Sample pages: Budi (id 7) signed in, a page with one post of his
    and one of another user. *)
Module PostsPageSamples.
Import Users Posts Pages PostsPage.

Definition budi : UserType := mkUser 7 "Budi" "budi@example.com" Male Active.
Definition post_budi : PostType := mkPost 1 7 "Hello" "First post".
Definition post_ani : PostType := mkPost 2 9 "Hi" "Another post".
Definition resp_all : QueryView PostType := QData [post_budi; post_ani] (Some "2"%string).
Definition mine : list PostType := [post_budi].

(** All Posts after Budi clicks Edit on his post. *)
Definition editing_all : State :=
  redirectEffect AllPosts (Some budi) (handle (EditPost post_budi) (mount AllPosts (Some budi))).

End PostsPageSamples.

Module PostsPageFacts.
Import Users Posts Profile Pages ModalForm PostsPage.

Local Abbreviation mstep := (ModalForm.step PostModal.initialValues PostModal.destroyOnClose).

(** The effect touches neither modal. *)
Lemma redirectEffect_modals v sel s :
  createModal (redirectEffect v sel s) = createModal s /\
  editModal (redirectEffect v sel s) = editModal s.
Proof. destruct v; simpl; [done|]. by case_match. Qed.

(** Without a profile, my.tsx's prompt is open after every effect. *)
Lemma redirectEffect_open s :
  isRedirectModalOpen (redirectEffect MyPosts None s) = true.
Proof.
  unfold redirectEffect. rewrite (bool_decide_eq_false_2 (is_Some (@None UserType))) by by intros [].
  destruct (isRedirectModalOpen s) eqn:E; simpl; done.
Qed.

(** A card offers Edit only for a post of the response that the page
    deems the user's. *)
Lemma has_edit_owner v sel q p :
  has_edit p (body v sel q) = true ->
  isOwner v sel p = true /\ p ∈ view_items q.
Proof.
  destruct q as [| |ps h]; try done. unfold body, has_edit, view_items.
  destruct ps as [|p0 ps]; [done|].
  rewrite bool_decide_eq_true, !list_elem_of_In, in_map_iff.
  intros (p' & [= -> Ha] & Hin).
  split; [destruct (isOwner v sel p); simpl in Ha; congruence|done].
Qed.

(** [post.user_id === selectedUser?.id] holds only for the selected
    profile's own posts. *)
Lemma isOwner_all_posts sel p :
  isOwner AllPosts sel p = true -> exists u, sel = Some u /\ user_id p = Users.id u.
Proof.
  unfold isOwner. rewrite js_eqb_true. destruct sel as [u|]; simpl; [|done].
  intros [= ->]. by exists u.
Qed.

(** What a click offered by the view guarantees of the state. *)
Lemma available_guard v sel q s e :
  available (render v sel q s) e = true ->
  match e with
  | ClickCreate | ChangePage _ _ => open (createModal s) = false /\ open (editModal s) = false
  | CloseCreate | TypeCreate _ => open (createModal s) = true
  | EditPost p => open (createModal s) = false /\ open (editModal s) = false /\
                  has_edit p (body v sel q) = true
  | CloseEdit | TypeEdit _ => open (editModal s) = true
  | Redirect => True
  end.
Proof.
  destruct v, sel, e; simpl; try done;
    destruct (open (createModal s)), (open (editModal s)); simpl; try done.
  all: by destruct (has_edit _ _).
Qed.

(** Every click moves each modal by at most one step of its
    [ModalForm] machine. *)
Lemma step_modals v sel s s' :
  step v sel s s' ->
  rtc mstep (createModal s) (createModal s') /\ rtc mstep (editModal s) (editModal s').
Proof.
  destruct 1 as [q e s _ Ha]. apply available_guard in Ha.
  destruct (redirectEffect_modals v sel (handle e s)) as [-> ->].
  destruct e; simpl; split; try apply rtc_refl; apply rtc_once;
    first [apply StepOpenCreate | apply StepOpenEdit | apply StepClose | apply StepType]; naive_solver.
Qed.

Lemma steps_modals v sel s s' :
  rtc (step v sel) s s' ->
  rtc mstep (createModal s) (createModal s') /\ rtc mstep (editModal s) (editModal s').
Proof.
  induction 1 as [|s1 s2 s3 Hs _ [IHc IHe]]; [split; apply rtc_refl|].
  destruct (step_modals _ _ _ _ Hs) as [Hc He]. split; by etrans.
Qed.

(** So the two modals of a reachable page are reachable states of the
    dialog machine of Modals.v. *)
Lemma reachable_modals v sel s :
  reachable v sel s ->
  ModalForm.reachable PostModal.initialValues PostModal.destroyOnClose (createModal s) /\
  ModalForm.reachable PostModal.initialValues PostModal.destroyOnClose (editModal s).
Proof.
  intros Hr. destruct (steps_modals _ _ _ _ Hr) as [Hc He].
  unfold mount in Hc, He. destruct (redirectEffect_modals v sel init) as [Ec Ee].
  rewrite Ec in Hc. rewrite Ee in He. done.
Qed.

(** On all.tsx a post being edited is the selected profile's own. *)
Definition edits_own (sel : option UserType) (s : State) : Prop :=
  forall p, editing (editModal s) = Some p -> exists u, sel = Some u /\ user_id p = Users.id u.

Lemma all_posts_step_edits_own sel s s' :
  step AllPosts sel s s' -> edits_own sel s -> edits_own sel s'.
Proof.
  destruct 1 as [q e s _ Ha]. apply available_guard in Ha. simpl.
  intros Hown p. destruct e; simpl; try apply Hown; try discriminate.
  intros [= <-]. destruct Ha as (_ & _ & Hb).
  apply isOwner_all_posts, (has_edit_owner _ _ _ _ Hb).
Qed.

(** Without a profile, my.tsx always shows its prompt open. *)
Lemma reachable_my_posts_prompt s :
  reachable MyPosts None s -> isRedirectModalOpen s = true.
Proof.
  intros Hr. apply rtc_inv_r in Hr as [<-|(s0 & _ & Hs)]; [apply redirectEffect_open|].
  destruct Hs. apply redirectEffect_open.
Qed.

(** C29: on the All Posts page only the author can edit: in every state
    the page can reach, a post held by the edit dialog is a post of the
    selected profile (the card's Edit button is shown only when
    [post.user_id === selectedUser?.id]), and the dialog is open while
    it holds one. *)
Theorem all_posts_edit_only_own sel s p :
  reachable AllPosts sel s -> editing (editModal s) = Some p ->
  open (editModal s) = true /\ exists u, sel = Some u /\ user_id p = Users.id u.
Proof.
  intros Hr He. split.
  - destruct (open (editModal s)) eqn:Ho; [done|].
    destruct (ModalFacts.closed_inv _ _ _ (proj2 (reachable_modals _ _ _ Hr)) Ho) as [Hn _].
    congruence.
  - revert p He. change (edits_own sel s).
    refine (rtc_invariant _ _ _ _ (λ a b Ha Hs, all_posts_step_edits_own _ _ _ Hs Ha) _ Hr).
    intros p0 Hp0. discriminate Hp0.
Qed.

(** C30: the My Posts page cannot be used without a profile: in every
    state it reaches with no profile selected it shows only the open
    "Select Profile" prompt, whose two buttons (OK and Cancel alike) lead
    to /users, and its query is disabled, with a query function that
    would return [null]. *)
Theorem my_posts_requires_profile q s :
  reachable MyPosts None s ->
  render MyPosts None q s = RedirectPrompt true /\
  (forall e, available (render MyPosts None q s) e = true -> navigation e = Some "/users"%string) /\
  enabled (query MyPosts None s) = false /\ queryFn (query MyPosts None s) = FetchNull.
Proof.
  intros Hr. pose proof (reachable_my_posts_prompt s Hr) as Ho. simpl. rewrite Ho.
  split_and!; [done| |done|done].
  by intros [].
Qed.

(** C31: clicking Edit on a card, in any state the page reaches, opens
    the edit dialog on that card's post with its own title and body, so
    pressing Update at once sends [updatePost] of that post with its
    values when they pass the form's rules (as the server's posts,
    stored through this form, do); the card is one of the fetched page's posts and the page
    deems it the user's ([isOwner]). *)
Theorem edit_click_opens_post v sel q s p :
  reachable v sel s -> available (render v sel q s) (EditPost p) = true ->
  PostModal.submit (editModal (redirectEffect v sel (handle (EditPost p) s))) =
    (if PostModal.accepts p then
       Some (Mutations.Start (Mutations.UpdatePost (Some p) (mkPostFormData (title p) (Posts.body p))))
     else None) /\
  isOwner v sel p = true /\ p ∈ view_items q.
Proof.
  intros Hr Ha. apply available_guard in Ha as (_ & Hc & Hb). split; [|exact (has_edit_owner _ _ _ _ Hb)].
  rewrite (proj2 (redirectEffect_modals _ _ _)). simpl.
  destruct (ModalFacts.fresh_open _ _ _ eq_refl (proj2 (reachable_modals _ _ _ Hr)) Hc) as [He _].
  unfold PostModal.submit, submit. rewrite He, ModalFacts.post_validate_initial. simpl.
  by destruct (PostModal.accepts p).
Qed.

(** C32: My Posts marks every card as the user's own ([isOwner={true}])
    without comparing ids; when the endpoint keeps its contract (every
    post of [/users/{id}/posts] is by that user) the cards are exactly
    the ones All Posts would show for the same posts, Edit and Delete
    included. *)
Theorem my_posts_cards_as_owner u ps h :
  ps <> [] -> Forall (λ p, user_id p = Users.id u) ps ->
  body MyPosts (Some u) (QData ps h) = body AllPosts (Some u) (QData ps h).
Proof.
  intros Hne Hall. unfold body. destruct ps as [|p0 ps]; [done|]. f_equal.
  apply map_ext_Forall. eapply Forall_impl; [exact Hall|]. intros p Hp.
  unfold isOwner. simpl. by rewrite Hp, js_eqb_refl.
Qed.

(** A second run of the effect changes nothing. *)
Lemma redirectEffect_idem v sel s :
  redirectEffect v sel (redirectEffect v sel s) = redirectEffect v sel s.
Proof.
  destruct v; [done|]. unfold redirectEffect.
  destruct (bool_decide (is_Some sel)), (isRedirectModalOpen s) eqn:Ho; simpl; try rewrite Ho; done.
Qed.

(** C40: the render-effect cycle of the posts pages terminates: from any
    state, given fuel for two runs or more, the effect runs at most twice
    and the cycle ends in [redirectEffect v sel s], the state [step]
    moves to, on which a further run changes nothing. *)
Theorem effect_cycle_terminates v sel s n :
  (2 <= n)%nat ->
  settle n v sel s = Some (redirectEffect v sel s) /\
  redirectEffect v sel (redirectEffect v sel s) = redirectEffect v sel s.
Proof.
  intros Hn. split; [|apply redirectEffect_idem].
  destruct n as [|[|n]]; [lia|lia|]. cbn [settle].
  destruct (Bool.eqb _ _); [done|]. cbn [settle].
  rewrite redirectEffect_idem, Bool.eqb_reflx. done.
Qed.

(** Off my.tsx without a profile the effect does nothing. *)
Lemma redirectEffect_id v sel s :
  ~ (v = MyPosts /\ sel = None) -> redirectEffect v sel s = s.
Proof. intros Hn. destruct v; [done|]. destruct sel; [done|]. by destruct Hn. Qed.

Lemma render_close_available v sel q s :
  ~ (v = MyPosts /\ sel = None) ->
  available (render v sel q s) CloseCreate = open (createModal s) /\
  available (render v sel q s) CloseEdit = open (editModal s).
Proof. intros Hn. destruct v, sel; try done. by destruct Hn. Qed.

Section Closable.
Context (v : Variant) (sel : option UserType) (q : QueryView PostType).
Hypothesis Hn : ~ (v = MyPosts /\ sel = None).

(** An open create dialog can be closed by its Cancel. *)
Lemma close_create s :
  view_consistent (query v sel s) q = true ->
  exists s1, rtc (step v sel) s s1 /\ open (createModal s1) = false /\
             editModal s1 = editModal s /\ query v sel s1 = query v sel s.
Proof.
  intros Hq. destruct (open (createModal s)) eqn:Ho; [|by exists s].
  pose proof (PageStep v sel q CloseCreate s Hq) as Hs.
  rewrite (proj1 (render_close_available _ _ q s Hn)), redirectEffect_id in Hs by done.
  exists (handle CloseCreate s). split_and!; try done. by apply rtc_once, Hs.
Qed.

Lemma close_edit s :
  view_consistent (query v sel s) q = true ->
  exists s1, rtc (step v sel) s s1 /\ open (editModal s1) = false /\
             createModal s1 = createModal s /\ query v sel s1 = query v sel s.
Proof.
  intros Hq. destruct (open (editModal s)) eqn:Ho; [|by exists s].
  pose proof (PageStep v sel q CloseEdit s Hq) as Hs.
  rewrite (proj2 (render_close_available _ _ q s Hn)), redirectEffect_id in Hs by done.
  exists (handle CloseEdit s). split_and!; try done. by apply rtc_once, Hs.
Qed.

End Closable.

(** C17: the posts pages never trap the user in a dialog: from every
    state either page reaches, the offered clicks lead to a state where
    both post dialogs are closed, except on My Posts without a profile,
    where the open prompt offers its buttons, which leave for /users. *)
Theorem posts_page_dialogs_closable v sel q s :
  reachable v sel s -> view_consistent (query v sel s) q = true ->
  (v = MyPosts /\ sel = None /\ available (render v sel q s) Redirect = true /\
   navigation Redirect = Some "/users"%string) \/
  exists s', rtc (step v sel) s s' /\ open (createModal s') = false /\ open (editModal s') = false.
Proof.
  intros Hr Hq.
  assert (Hcase : (v = MyPosts /\ sel = None) \/ ~ (v = MyPosts /\ sel = None))
    by (destruct v, sel; first [by left | right; by intros []]).
  destruct Hcase as [[-> ->]|Hn].
  { left. split_and!; try done. simpl. by rewrite reachable_my_posts_prompt. }
  right. destruct (close_create v sel q Hn s Hq) as (s1 & H1 & Hc1 & _ & Hq1).
  rewrite <- Hq1 in Hq. destruct (close_edit v sel q Hn s1 Hq) as (s2 & H2 & He2 & Hc2 & _).
  exists s2. split_and!; [by etrans|congruence|done].
Qed.

End PostsPageFacts.

Module PostsPageWitnesses.
Import Users Posts Profile Pages ModalForm PostsPage PostsPageSamples PostsPageFacts.

Lemma all_posts_edit_only_own_witness :
  reachable AllPosts (Some budi) editing_all /\ editing (editModal editing_all) = Some post_budi /\
  (open (editModal editing_all) = true /\
   exists u, Some budi = Some u /\ user_id post_budi = Users.id u).
Proof.
  assert (Hr : reachable AllPosts (Some budi) editing_all).
  { apply rtc_once, (PageStep AllPosts (Some budi) resp_all (EditPost post_budi)).
    { vm_compute. reflexivity. }
    vm_compute. reflexivity. }
  assert (He : editing (editModal editing_all) = Some post_budi) by reflexivity.
  split; [exact Hr|]. split; [exact He|]. exact (all_posts_edit_only_own _ _ _ Hr He).
Defined.

Lemma my_posts_requires_profile_witness :
  reachable MyPosts None (mount MyPosts None) /\
  (render MyPosts None QIdle (mount MyPosts None) = RedirectPrompt true /\
   (forall e, available (render MyPosts None QIdle (mount MyPosts None)) e = true ->
      navigation e = Some "/users"%string) /\
   enabled (query MyPosts None (mount MyPosts None)) = false /\
   queryFn (query MyPosts None (mount MyPosts None)) = FetchNull).
Proof.
  assert (Hr : reachable MyPosts None (mount MyPosts None)) by apply rtc_refl.
  split; [exact Hr|]. exact (my_posts_requires_profile QIdle _ Hr).
Defined.

Lemma edit_click_opens_post_witness :
  reachable AllPosts (Some budi) (mount AllPosts (Some budi)) /\
  available (render AllPosts (Some budi) resp_all (mount AllPosts (Some budi)))
    (EditPost post_budi) = true /\
  (PostModal.submit (editModal editing_all) =
     Some (Mutations.Start (Mutations.UpdatePost (Some post_budi)
             (mkPostFormData (title post_budi) (Posts.body post_budi)))) /\
   isOwner AllPosts (Some budi) post_budi = true /\
   post_budi ∈ view_items resp_all).
Proof.
  assert (Hr : reachable AllPosts (Some budi) (mount AllPosts (Some budi))) by apply rtc_refl.
  assert (Ha : available (render AllPosts (Some budi) resp_all (mount AllPosts (Some budi)))
                 (EditPost post_budi) = true) by (vm_compute; reflexivity).
  split; [exact Hr|]. split; [exact Ha|]. exact (edit_click_opens_post _ _ _ _ _ Hr Ha).
Defined.

Lemma my_posts_cards_as_owner_witness :
  mine <> [] /\ Forall (λ p, user_id p = Users.id budi) mine /\
  body MyPosts (Some budi) (QData mine (Some "1"%string)) =
  body AllPosts (Some budi) (QData mine (Some "1"%string)).
Proof.
  assert (Hne : mine <> []) by discriminate.
  assert (Hall : Forall (λ p, user_id p = Users.id budi) mine)
    by (repeat constructor).
  split; [exact Hne|]. split; [exact Hall|]. exact (my_posts_cards_as_owner _ _ _ Hne Hall).
Defined.

Lemma posts_page_dialogs_closable_witness :
  reachable AllPosts (Some budi) editing_all /\
  view_consistent (query AllPosts (Some budi) editing_all) resp_all = true /\
  ((AllPosts = MyPosts /\ Some budi = None /\
    available (render AllPosts (Some budi) resp_all editing_all) Redirect = true /\
    navigation Redirect = Some "/users"%string) \/
   exists s', rtc (step AllPosts (Some budi)) editing_all s' /\
              open (createModal s') = false /\ open (editModal s') = false).
Proof.
  assert (Hr : reachable AllPosts (Some budi) editing_all).
  { apply rtc_once, (PageStep AllPosts (Some budi) resp_all (EditPost post_budi)).
    { vm_compute. reflexivity. }
    vm_compute. reflexivity. }
  assert (Hq : view_consistent (query AllPosts (Some budi) editing_all) resp_all = true) by reflexivity.
  split; [exact Hr|]. split; [exact Hq|]. exact (posts_page_dialogs_closable _ _ _ _ Hr Hq).
Defined.

Lemma effect_cycle_terminates_witness :
  (2 <= 2)%nat /\
  settle 2 MyPosts None init = Some (redirectEffect MyPosts None init) /\
  redirectEffect MyPosts None (redirectEffect MyPosts None init) = redirectEffect MyPosts None init.
Proof.
  assert (H : (2 <= 2)%nat) by lia.
  split; [exact H|]. exact (effect_cycle_terminates MyPosts None init 2 H).
Defined.

(** One run does not settle the cycle when the effect opens the prompt. *)
Example settle_one_short : settle 1 MyPosts None init = None.
Proof. reflexivity. Qed.

End PostsPageWitnesses.
