(* ===== verification/PostCard.v ===== *)
(** * One post card: components/posts/PostsCard.tsx

    A card shows a post with its action buttons (Comments, and Edit and
    Delete when [isOwner]) and, while [showComments] is set, the comments
    panel: a form with one text area (disabled, with a help text, when
    no profile is selected) and its submit button, and the list of the
    post's comments, each with a "You" tag and a delete button when its
    e-mail is the profile's.  Deleting the post or a comment asks for
    confirmation ([Modal.confirm]) first.

    [State] is the card's [showComments], the comment form's [body]
    field ([commentForm] lives as long as the card, so the text survives
    closing the panel) and the open confirm dialog.  A render reads the
    [isOwner] prop, the selected profile and the state of the comments
    query; the clicks it offers ([available]) change the state
    ([handle]) and start a mutation or a toast ([action]); [Settle]
    applies the UI effects of a settled mutation to the card (the
    comment form's [resetFields]). *)

From Stdlib Require Import ZArith String.
From stdpp Require Import base strings list relations.
From S2P Require Import Prelude Types Profile Pages Mutations PostsPages.

Open Scope Z_scope.

Module PostCard.
Import Users Posts Pages Mutations PostsPage.

#[export] Instance CommentType_eq_dec : EqDecision CommentType.
Proof. solve_decision. Defined.

(** The confirm dialog of [handleDeletePost] or [handleDeleteComment]. *)
Inductive Confirm := ConfirmPost | ConfirmComment (c : CommentType).

Record State := mkState {
  showComments : bool;
  body : option string;          (** the [body] field of [commentForm] *)
  confirming : option Confirm
}.

Definition init : State := mkState false None None.

(** The comments query of the card: [['comments', post.id]], enabled
    while the panel is shown. *)
Definition query (post : PostType) (s : State) : PageQuery := QComments (Posts.id post) (showComments s).

Record CommentRow := mkCommentRow {
  comment : CommentType;
  youTag : bool;
  deleteButton : bool
}.

#[export] Instance CommentRow_eq_dec : EqDecision CommentRow.
Proof. solve_decision. Defined.

Record Panel := mkPanel {
  textareaDisabled : bool;
  help : option string;
  submitDisabled : bool;
  rows : list CommentRow;        (** [commentsData?.data || []] *)
  listLoading : bool
}.

Record View := mkView {
  actions : list CardAction;
  panel : option Panel;
  confirmOpen : bool
}.

Definition render (isOwner : bool) (sel : option UserType) (q : QueryView CommentType) (s : State) : View :=
  mkView (card_actions isOwner)
    (if showComments s then
       Some (mkPanel (negb (bool_decide (is_Some sel)))
               (match sel with Some _ => None | None => Some "Select a profile to comment"%string end)
               (negb (bool_decide (is_Some sel)))
               (map (λ c, mkCommentRow c (isUserComment sel c) (isUserComment sel c)) (view_items q))
               (match q with QLoading => true | _ => false end))
     else None)
    (bool_decide (is_Some (confirming s))).

Inductive Event :=
| ToggleComments                     (** [setShowComments(!showComments)] *)
| TypeComment (b : option string)
| SubmitComment                      (** "Add Comment": the form's [onFinish] *)
| ClickDeletePost                    (** [handleDeletePost] *)
| ClickDeleteComment (c : CommentType)  (** [handleDeleteComment(comment.id)] *)
| ConfirmOk
| ConfirmCancel
| Settle (es : list UiEffect).       (** a mutation of the card settled *)

Definition panel_open (vw : View) : option Panel := if confirmOpen vw then None else panel vw.

Definition available (vw : View) (e : Event) : bool :=
  match e with
  | ToggleComments => negb (confirmOpen vw)
  | TypeComment _ => match panel_open vw with Some p => negb (textareaDisabled p) | None => false end
  | SubmitComment => match panel_open vw with Some p => negb (submitDisabled p) | None => false end
  | ClickDeletePost => negb (confirmOpen vw) && bool_decide (DeleteButton ∈ actions vw)
  | ClickDeleteComment c =>
      match panel_open vw with
      | Some p => bool_decide (mkCommentRow c true true ∈ rows p)
      | None => false
      end
  | ConfirmOk | ConfirmCancel => confirmOpen vw
  | Settle _ => true
  end.

(** The effect of a settled mutation on the card's form. *)
Definition apply_ui (e : UiEffect) (s : State) : State :=
  match e with
  | ResetFields CommentFormF => mkState (showComments s) None (confirming s)
  | _ => s
  end.

Definition handle (e : Event) (s : State) : State :=
  match e with
  | ToggleComments => mkState (negb (showComments s)) (body s) (confirming s)
  | TypeComment b => mkState (showComments s) b (confirming s)
  | ClickDeletePost => mkState (showComments s) (body s) (Some ConfirmPost)
  | ClickDeleteComment c => mkState (showComments s) (body s) (Some (ConfirmComment c))
  | ConfirmOk | ConfirmCancel => mkState (showComments s) (body s) None
  | Settle es => fold_left (λ s e, apply_ui e s) es s
  | SubmitComment => s
  end.

(** The [required] rule of the body item: [onFinish] runs only with a
    non-empty body. *)
Definition validate (b : option string) : option string :=
  match b with
  | Some t => if String.eqb t "" then None else Some t
  | None => None
  end.

Definition action (post : PostType) (sel : option UserType) (e : Event) (s : State) : option Action :=
  match e with
  | SubmitComment =>
      match validate (body s) with
      | Some b => Some (handleAddComment post sel b)
      | None => None
      end
  | ConfirmOk =>
      match confirming s with
      | Some ConfirmPost => Some (Start (DeletePost post (Posts.id post)))
      | Some (ConfirmComment c) => Some (Start (DeleteComment post (comment_id c)))
      | None => None
      end
  | _ => None
  end.

(** The UI calls among a mutation's callback effects. *)
Definition ui_effects (es : list Effect) : list UiEffect :=
  omap (λ e, match e with Ui u => Some u | Invalidate _ => None end) es.

Section Card.
Context (post : PostType) (isOwner : bool) (sel : option UserType).

Inductive step : State -> option Action -> State -> Prop :=
| CardStep q e s :
    view_consistent (query post s) q = true ->
    available (render isOwner sel q s) e = true ->
    step s (action post sel e s) (handle e s).

Definition reachable (s : State) : Prop := rtc (λ x y, exists a, step x a y) init s.

Definition run (q : QueryView CommentType) : list Event -> State -> option (list (option Action) * State) :=
  run_clicks (λ s e, view_consistent (query post s) q && available (render isOwner sel q s) e)
    handle (action post sel).

End Card.
End PostCard.

Module PostCardFacts.
Import Users Posts Pages Mutations PostsPage PostCard.

Section Facts.
Context (post : PostType) (isOwner : bool) (sel : option UserType).

Local Abbreviation step := (PostCard.step post isOwner sel).
Local Abbreviation reachable := (PostCard.reachable post isOwner sel).

(** Settling a mutation touches neither the panel nor the confirm dialog. *)
Lemma settle_confirming es s : confirming (handle (Settle es) s) = confirming s.
Proof.
  simpl. revert s. induction es as [|e es IH]; intros s; [done|]. simpl. rewrite IH.
  destruct e as [| | |[]|]; done.
Qed.

(** A comment's delete button is shown only for the profile's comments. *)
Lemma delete_row_own c (q : QueryView CommentType) :
  bool_decide (mkCommentRow c true true ∈ map (λ c, mkCommentRow c (isUserComment sel c) (isUserComment sel c))
                                              (view_items q)) = true ->
  isUserComment sel c = true.
Proof.
  rewrite bool_decide_eq_true, list_elem_of_In, in_map_iff. by intros (c' & [= -> ->] & _).
Qed.

(** The open confirm dialog is always one the user was allowed to open. *)
Definition confirm_ok (s : State) : Prop :=
  (confirming s = Some ConfirmPost -> isOwner = true) /\
  (forall c, confirming s = Some (ConfirmComment c) -> isUserComment sel c = true).

Lemma step_confirm_ok s a s' : confirm_ok s -> step s a s' -> confirm_ok s'.
Proof.
  intros Hok. destruct 1 as [q e s _ Ha].
  destruct e; try (unfold handle; simpl; done);
    [| |unfold confirm_ok; rewrite settle_confirming; exact Hok].
  - simpl in Ha. apply andb_true_iff in Ha as [_ Hd].
    split; [|done]. intros _. by destruct isOwner; [|rewrite bool_decide_eq_true in Hd; set_solver].
  - unfold available, panel_open, render in Ha. simpl in Ha.
    destruct (bool_decide _), (showComments s); try done.
    split; [done|]. intros c' [= <-]. by eapply delete_row_own.
Qed.

Lemma reachable_confirm_ok s : reachable s -> confirm_ok s.
Proof.
  intros Hr. refine (rtc_invariant _ _ _ _ (λ x y Hx '(ex_intro _ a Hs), step_confirm_ok _ _ _ Hx Hs) _ Hr).
  by split.
Qed.

(** C37: a card's deletions are confirmed and authorised as the UI
    means: every [deletePostMutation] the card starts is the OK of the
    post's confirm dialog, on a card shown with [isOwner], for this
    post's id; every [deleteCommentMutation] is the OK of a comment's
    confirm dialog, for a comment whose e-mail is the profile's. *)
Theorem card_deletions_authorised s a s' :
  reachable s -> step s a s' ->
  (forall p i, a = Some (Start (DeletePost p i)) ->
     p = post /\ i = Posts.id post /\ isOwner = true /\ confirming s = Some ConfirmPost) /\
  (forall p i, a = Some (Start (DeleteComment p i)) ->
     p = post /\ exists c, confirming s = Some (ConfirmComment c) /\ comment_id c = i /\
                           isUserComment sel c = true).
Proof.
  intros Hr Hs. destruct (reachable_confirm_ok s Hr) as [Hp Hc].
  destruct Hs as [q e s _ _]. split; intros p i Ha; destruct e; simpl in Ha; try discriminate;
    try (destruct (validate (body s)); [|done]; unfold handleAddComment in Ha;
         destruct sel; simplify_eq);
    destruct (confirming s) as [[|c]|] eqn:Hcf; simplify_eq.
  - by split_and!; [| |apply Hp|].
  - split; [done|]. exists c. split_and!; [done|done|by apply Hc].
Qed.

(** A sequence of clicks on a fresh card ends in a state the card
    reaches. *)
Lemma card_run_reachable q es acts s' :
  run post isOwner sel q es init = Some (acts, s') -> reachable s'.
Proof.
  apply run_clicks_rtc. intros s0 e Ho. apply andb_true_iff in Ho as [Hq Ha]. by eapply CardStep.
Qed.

End Facts.

(** On a card that is not the user's ([isOwner] false) with no
    profile selected, nothing the card offers starts a mutation: the
    comment box and its button are disabled, no comment shows a delete
    button, and no confirm dialog can open; the "Please select a profile
    first" branch of [handleAddComment] is never reached. *)
Theorem card_without_profile_inert post s a s' :
  PostCard.reachable post false None s -> PostCard.step post false None s a s' -> a = None.
Proof.
  intros Hr Hs. destruct (reachable_confirm_ok post false None s Hr) as [Hp Hc].
  assert (Hn : confirming s = None).
  { destruct (confirming s) as [[|c]|] eqn:Hcf; [by discriminate Hp| |done].
    specialize (Hc c eq_refl). discriminate Hc. }
  destruct Hs as [q e s _ Ha]. destruct e; simpl; try done.
  - unfold available, panel_open, render in Ha. simpl in Ha. rewrite Hn in Ha. simpl in Ha.
    by destruct (showComments s).
  - by rewrite Hn.
Qed.

(** C39: a successful comment clears the comment box: with a profile
    selected, opening the panel, typing a non-empty comment and pressing
    "Add Comment" starts [createCommentMutation] with the profile's name
    and e-mail; once its [onSuccess] calls have run ([resetFields] among
    them), pressing "Add Comment" again starts nothing, the required
    body being empty. *)
Theorem comment_box_cleared post isOwner u b :
  String.eqb b "" = false ->
  exists s', run post isOwner (Some u) QIdle
      [ToggleComments; TypeComment (Some b); SubmitComment;
       Settle (ui_effects (onSuccess (createCommentMutation post (Posts.id post)
                                        (mkCommentData (Users.name u) (Users.email u) b))));
       SubmitComment] init =
    Some ([None; None;
           Some (Start (CreateComment post (Posts.id post) (mkCommentData (Users.name u) (Users.email u) b)));
           None; None], s') /\
    reachable post isOwner (Some u) s'.
Proof.
  intros Hb. eexists.
  split; [|eapply (card_run_reachable post isOwner (Some u) QIdle
                     [ToggleComments; TypeComment (Some b); SubmitComment;
                      Settle (ui_effects (onSuccess (createCommentMutation post (Posts.id post)
                                        (mkCommentData (Users.name u) (Users.email u) b))));
                      SubmitComment])];
  cbn; by rewrite Hb.
Qed.

End PostCardFacts.

Module PostCardWitnesses.
Import Users Posts Pages Mutations PostsPage PostsPageSamples PostCard PostCardFacts.

(** Budi confirms the deletion of his own post. *)
Lemma card_deletions_authorised_witness :
  reachable post_budi true (Some budi) (handle ClickDeletePost init) /\
  step post_budi true (Some budi) (handle ClickDeletePost init)
    (action post_budi (Some budi) ConfirmOk (handle ClickDeletePost init))
    (handle ConfirmOk (handle ClickDeletePost init)) /\
  ((forall p i, action post_budi (Some budi) ConfirmOk (handle ClickDeletePost init) =
                  Some (Start (DeletePost p i)) ->
      p = post_budi /\ i = Posts.id post_budi /\ true = true /\
      confirming (handle ClickDeletePost init) = Some ConfirmPost) /\
   (forall p i, action post_budi (Some budi) ConfirmOk (handle ClickDeletePost init) =
                  Some (Start (DeleteComment p i)) ->
      p = post_budi /\ exists c, confirming (handle ClickDeletePost init) = Some (ConfirmComment c) /\
                                comment_id c = i /\ isUserComment (Some budi) c = true)).
Proof.
  assert (Hr : reachable post_budi true (Some budi) (handle ClickDeletePost init)).
  { apply rtc_once. eexists. apply (CardStep post_budi true (Some budi) QIdle); reflexivity. }
  assert (Hs : step post_budi true (Some budi) (handle ClickDeletePost init)
                 (action post_budi (Some budi) ConfirmOk (handle ClickDeletePost init))
                 (handle ConfirmOk (handle ClickDeletePost init)))
    by (apply (CardStep post_budi true (Some budi) QIdle); reflexivity).
  split; [exact Hr|]. split; [exact Hs|]. exact (card_deletions_authorised _ _ _ _ _ _ Hr Hs).
Defined.

(** Without a profile, opening the comments of Ani's post starts nothing. *)
Lemma card_without_profile_inert_witness :
  reachable post_ani false None init /\
  step post_ani false None init (action post_ani None ToggleComments init) (handle ToggleComments init) /\
  action post_ani None ToggleComments init = None.
Proof.
  assert (Hr : reachable post_ani false None init) by apply rtc_refl.
  assert (Hs : step post_ani false None init (action post_ani None ToggleComments init)
                 (handle ToggleComments init))
    by (apply (CardStep post_ani false None QIdle); reflexivity).
  split; [exact Hr|]. split; [exact Hs|]. exact (card_without_profile_inert _ _ _ _ Hr Hs).
Defined.

Lemma comment_box_cleared_witness :
  String.eqb "Nice post" "" = false /\
  exists s', run post_ani false (Some budi) QIdle
      [ToggleComments; TypeComment (Some "Nice post"%string); SubmitComment;
       Settle (ui_effects (onSuccess (createCommentMutation post_ani (Posts.id post_ani)
                                        (mkCommentData (Users.name budi) (Users.email budi) "Nice post"))));
       SubmitComment] init =
    Some ([None; None;
           Some (Start (CreateComment post_ani (Posts.id post_ani)
                          (mkCommentData (Users.name budi) (Users.email budi) "Nice post")));
           None; None], s') /\
    reachable post_ani false (Some budi) s'.
Proof.
  assert (Hb : String.eqb "Nice post" "" = false) by reflexivity.
  split; [exact Hb|]. exact (comment_box_cleared post_ani false budi _ Hb).
Defined.

End PostCardWitnesses.
