(* ===== verification/ListPages.v ===== *)
(** * The todos page and the users page

    pages/todos/index.tsx keeps a "Select Profile" prompt flag that its
    effect raises when the page mounts without a profile, one dialog for
    both creating and editing a todo ([isCreateModalOpen] and
    [editingTodo], with [TodoForm]'s store: the [TodoModal] machine of
    Modals.v), and the page and page size; each listed todo has a status
    toggle, an edit button and a delete button that asks for
    confirmation ([Modal.confirm]) first.

    pages/users/index.tsx keeps a create dialog holding a [UserForm]
    without [initialData], and components/users/UserTable.tsx an edit
    dialog holding another ([editingUser]); neither is destroyed on
    close.  Each row has the profile button, an edit button and a delete
    button with confirmation.

    As for the posts pages, [render] computes what the page shows from
    the selected profile, the query's state and the page state,
    [available] the clicks it offers (the page's own controls only while
    no dialog covers them), [handle] the state change of a click and
    [action] the mutation or toast it starts.  [run] executes a sequence
    of clicks against one render input and fails on a click the view
    does not offer. *)

From Stdlib Require Import ZArith String.
From stdpp Require Import base strings list relations.
From S2P Require Import Prelude Types FormRules JsNumber Pagination Profile Pages Mutations Modals.

Open Scope Z_scope.

Module TodosPage.
Import Users Todos Profile Pages ModalForm.

#[export] Instance TodoType_eq_dec : EqDecision TodoType.
Proof. solve_decision. Defined.

Record State := mkState {
  isModalOpen : bool;                                   (** the "Select Profile" prompt *)
  dialog : ModalForm.t TodoType TodoModal.TodoFields;   (** [isCreateModalOpen], [editingTodo], the form *)
  confirming : option TodoType;                         (** the open [Modal.confirm] of [handleDelete] *)
  page : Z;
  pageSize : Z
}.

Definition init : State := mkState false ModalForm.init None 1 10.

Definition with_dialog (d : ModalForm.t TodoType TodoModal.TodoFields) (s : State) : State :=
  mkState (isModalOpen s) d (confirming s) (page s) (pageSize s).

Definition with_confirming (c : option TodoType) (s : State) : State :=
  mkState (isModalOpen s) (dialog s) c (page s) (pageSize s).

(** [useEffect(() => { if (!selectedUser) setIsModalOpen(true) },
    [selectedUser])]: it runs when the page mounts, the profile not
    changing while the page is shown. *)
Definition mount (sel : option UserType) : State :=
  match sel with
  | None => mkState true (dialog init) (confirming init) (page init) (pageSize init)
  | Some _ => init
  end.

Definition query (sel : option UserType) (s : State) : PageQuery := QTodos sel (page s) (pageSize s).

(** One row of the list: the toggle's [type] ([primary] when
    completed), the tag's colour and text. *)
Record TodoItem := mkTodoItem {
  item : TodoType;
  toggle_primary : bool;
  tag_color : string;
  tag_text : string
}.

Definition render_item (t : TodoType) : TodoItem :=
  mkTodoItem t (bool_decide (status t = Completed))
    (if decide (status t = Completed) then "green" else "orange")%string
    (TodoStatus_value (status t)).

Record View := mkView {
  addButton : bool;
  items : list TodoItem;
  loading : bool;
  current : Z;
  size : Z;
  total : JsNumber.t;
  promptOpen : bool;
  dialogOpen : bool;
  dialogTitle : string;
  confirmOpen : bool
}.

Definition render (sel : option UserType) (q : QueryView TodoType) (s : State) : View :=
  mkView (bool_decide (is_Some sel)) (map render_item (view_items q))
    (match q with QLoading => true | _ => false end)
    (page s) (pageSize s) (Pagination.paginationTotal (view_header q))
    (isModalOpen s) (open (dialog s))
    (match editing (dialog s) with Some _ => "Edit Todo" | None => "Create Todo" end)%string
    (bool_decide (is_Some (confirming s))).

Inductive Event :=
| AddTodo                                  (** "Add Todo" *)
| ClickEdit (t : TodoType)                 (** a row's edit button *)
| CloseDialog                              (** the dialog's Cancel, or [onSubmit] after success *)
| TypeDialog (f : TodoModal.TodoFields)
| SubmitDialog                             (** the form's Create/Update button *)
| ClickToggle (t : TodoType)               (** a row's status toggle *)
| ClickDelete (t : TodoType)               (** a row's delete button *)
| ConfirmOk
| ConfirmCancel
| ChangePage (newPage newPageSize : Z)
| Redirect.                                (** the prompt's OK or Cancel *)

Definition page_free (vw : View) : bool :=
  negb (promptOpen vw) && negb (dialogOpen vw) && negb (confirmOpen vw).

Definition listed (t : TodoType) (vw : View) : bool := bool_decide (t ∈ map item (items vw)).

(** The status item is a [Select] whose options are the two
    [TodoStatus] values: the user can only set one of them. *)
Definition todo_statuses : list string := map TodoStatus_value [Pending; Completed].

Definition status_ok (f : TodoModal.TodoFields) : bool :=
  match TodoModal.tf_status f with
  | Some st => bool_decide (st ∈ todo_statuses)
  | None => true
  end.

Definition available (vw : View) (e : Event) : bool :=
  match e with
  | AddTodo => page_free vw && addButton vw
  | ClickEdit t | ClickToggle t | ClickDelete t => page_free vw && listed t vw
  | CloseDialog | SubmitDialog => dialogOpen vw
  | TypeDialog f => dialogOpen vw && status_ok f
  | ConfirmOk | ConfirmCancel => confirmOpen vw
  | ChangePage _ _ => page_free vw
  | Redirect => promptOpen vw
  end.

Section WithClock.
Context (now : string) (toISOString : string -> string).

Definition handle (e : Event) (s : State) : State :=
  match e with
  | AddTodo => with_dialog (open_create (TodoModal.initialValues now) (dialog s)) s
  | ClickEdit t => with_dialog (open_edit (TodoModal.initialValues now) t (dialog s)) s
  | CloseDialog => with_dialog (close TodoModal.destroyOnClose (dialog s)) s
  | TypeDialog f => with_dialog (type_fields f (dialog s)) s
  | ClickDelete t => with_confirming (Some t) s
  | ConfirmOk | ConfirmCancel => with_confirming None s
  | ChangePage p sz => mkState (isModalOpen s) (dialog s) (confirming s) p sz
  | Redirect => mkState false (dialog s) (confirming s) (page s) (pageSize s)
  | SubmitDialog | ClickToggle _ => s
  end.

(** What the click starts: the form's [handleSubmit], [handleStatusChange],
    or the confirm dialog's [onOk]. *)
Definition action (e : Event) (s : State) : option Mutations.Action :=
  match e with
  | SubmitDialog => TodoModal.submit toISOString (dialog s)
  | ClickToggle t => Some (Mutations.handleStatusChange t)
  | ConfirmOk =>
      match confirming s with
      | Some t => Some (Mutations.Start (Mutations.DeleteTodo (id t)))
      | None => None
      end
  | _ => None
  end.

Inductive step (sel : option UserType) : State -> option Mutations.Action -> State -> Prop :=
| PageStep q e s :
    view_consistent (query sel s) q = true ->
    available (render sel q s) e = true ->
    step sel s (action e s) (handle e s).

Definition reachable (sel : option UserType) (s : State) : Prop :=
  rtc (λ x y, exists a, step sel x a y) (mount sel) s.

Definition run (sel : option UserType) (q : QueryView TodoType)
  : list Event -> State -> option (list (option Mutations.Action) * State) :=
  run_clicks (λ s e, view_consistent (query sel s) q && available (render sel q s) e) handle action.

End WithClock.
End TodosPage.

Module UsersPage.
Import Users Profile Pages ModalForm.

#[export] Instance UserType_eq_dec : EqDecision UserType.
Proof. solve_decision. Defined.

(** The state of the users page with its table: the context's
    [selectedUser], which the table reads and writes; the page's create
    dialog ([isModalOpen] of users/index.tsx and its [UserForm]); the
    table's edit dialog ([isModalOpen], [editingUser] and its
    [UserForm]); the open [Modal.confirm]; the page and page size. *)
Record State := mkState {
  selected : option UserType;
  createDialog : ModalForm.t UserType UserModal.UserFields;
  editDialog : ModalForm.t UserType UserModal.UserFields;
  confirming : option UserType;
  page : Z;
  pageSize : Z
}.

Definition mount (sel : option UserType) : State := mkState sel ModalForm.init ModalForm.init None 1 10.

Definition query (s : State) : PageQuery := QUsers (page s) (pageSize s).

(** [text.charAt(0).toUpperCase() + text.slice(1)] *)
Definition capitalize (text : string) : string :=
  match text with
  | EmptyString => EmptyString
  | String c rest => (toUpperCase (String c EmptyString) ++ rest)%string
  end.

(** One row of the table, as the column renders compute it. *)
Record UserRow := mkUserRow {
  record : UserType;
  currentIcon : bool;            (** [record.id === selectedUser?.id &&] the icon *)
  genderText : string;
  statusText : string;
  statusClass : string;
  profileDisabled : bool;
  profileTooltip : string;
  profileLabel : string
}.

Definition render_row (sel : option UserType) (r : UserType) : UserRow :=
  mkUserRow r (isCurrent r sel)
    (capitalize (UserGender_value (gender r)))
    (capitalize (UserStatus_value (status r)))
    (if String.eqb (UserStatus_value (status r)) "active" then "text-green-600" else "text-red-600")%string
    (setProfileDisabled r sel) (setProfileTooltip r sel)
    (if isCurrent r sel then "Current Profile" else "Set as Profile")%string.

Record View := mkView {
  rows : list UserRow;           (** [users={data?.data || []}] *)
  loading : bool;
  current : Z;
  size : Z;
  total : JsNumber.t;            (** [totalUsers] *)
  createOpen : bool;
  editOpen : bool;
  editTitle : string;
  confirmOpen : bool
}.

Definition render (q : QueryView UserType) (s : State) : View :=
  mkView (map (render_row (selected s)) (view_items q))
    (match q with QLoading => true | _ => false end)
    (page s) (pageSize s) (Pagination.paginationTotal (view_header q))
    (open (createDialog s)) (open (editDialog s))
    (match editing (editDialog s) with Some _ => "Edit User" | None => "Create User" end)%string
    (bool_decide (is_Some (confirming s))).

Inductive Event :=
| AddUser                                 (** "Add User" *)
| CloseCreate                             (** its Cancel, or [onSubmit] after success *)
| TypeCreate (f : UserModal.UserFields)
| SubmitCreate
| SetProfile (u : UserType)               (** a row's profile button *)
| ClickEdit (u : UserType)
| CloseEdit
| TypeEdit (f : UserModal.UserFields)
| SubmitEdit
| ClickDelete (u : UserType)
| ConfirmOk
| ConfirmCancel
| ChangePage (newPage newPageSize : Z).

Definition page_free (vw : View) : bool :=
  negb (createOpen vw) && negb (editOpen vw) && negb (confirmOpen vw).

Definition row_of (u : UserType) (vw : View) : option UserRow :=
  find (λ r, bool_decide (record r = u)) (rows vw).

(** A disabled button does not fire [onClick]. *)
Definition available (vw : View) (e : Event) : bool :=
  match e with
  | AddUser | ChangePage _ _ => page_free vw
  | SetProfile u =>
      page_free vw && match row_of u vw with Some r => negb (profileDisabled r) | None => false end
  | ClickEdit u | ClickDelete u => page_free vw && bool_decide (is_Some (row_of u vw))
  | CloseCreate | TypeCreate _ | SubmitCreate => createOpen vw
  | CloseEdit | TypeEdit _ | SubmitEdit => editOpen vw
  | ConfirmOk | ConfirmCancel => confirmOpen vw
  end.

Definition with_create (d : ModalForm.t UserType UserModal.UserFields) (s : State) : State :=
  mkState (selected s) d (editDialog s) (confirming s) (page s) (pageSize s).

Definition with_edit (d : ModalForm.t UserType UserModal.UserFields) (s : State) : State :=
  mkState (selected s) (createDialog s) d (confirming s) (page s) (pageSize s).

Definition with_confirming (c : option UserType) (s : State) : State :=
  mkState (selected s) (createDialog s) (editDialog s) c (page s) (pageSize s).

Definition handle (e : Event) (s : State) : State :=
  match e with
  | AddUser => with_create (open_create UserModal.initialValues (createDialog s)) s
  | CloseCreate => with_create (close UserModal.destroyOnClose (createDialog s)) s
  | TypeCreate f => with_create (type_fields f (createDialog s)) s
  | SetProfile u =>
      mkState (handleSetAsProfile u (selected s)).1 (createDialog s) (editDialog s)
        (confirming s) (page s) (pageSize s)
  | ClickEdit u => with_edit (open_edit UserModal.initialValues u (editDialog s)) s
  | CloseEdit => with_edit (close UserModal.destroyOnClose (editDialog s)) s
  | TypeEdit f => with_edit (type_fields f (editDialog s)) s
  | ClickDelete u => with_confirming (Some u) s
  | ConfirmOk | ConfirmCancel => with_confirming None s
  | ChangePage p sz => mkState (selected s) (createDialog s) (editDialog s) (confirming s) p sz
  | SubmitCreate | SubmitEdit => s
  end.

(** What a click starts: a form's [handleSubmit], the toasts of
    [handleSetAsProfile], or the confirm dialog's [onOk]. *)
Definition action (e : Event) (s : State) : option Mutations.Action :=
  match e with
  | SubmitCreate => UserModal.submit (createDialog s)
  | SubmitEdit => UserModal.submit (editDialog s)
  | SetProfile u => Some (Mutations.Show (handleSetAsProfile u (selected s)).2)
  | ConfirmOk =>
      match confirming s with
      | Some u => Some (Mutations.Start (Mutations.DeleteUser (id u)))
      | None => None
      end
  | _ => None
  end.

Inductive step : State -> option Mutations.Action -> State -> Prop :=
| PageStep q e s :
    view_consistent (query s) q = true ->
    available (render q s) e = true ->
    step s (action e s) (handle e s).

Definition reachable (sel : option UserType) (s : State) : Prop :=
  rtc (λ x y, exists a, step x a y) (mount sel) s.

Definition run (q : QueryView UserType)
  : list Event -> State -> option (list (option Mutations.Action) * State) :=
  run_clicks (λ s e, view_consistent (query s) q && available (render q s) e) handle action.

End UsersPage.

(** Sample data: Budi (id 7) with one todo; a clock and an ISO
    formatter for the todo form. *)
Module ListPagesSamples.
Import Users Todos.

Definition budi : UserType := mkUser 7 "Budi" "budi@example.com" Male Active.
Definition todo_a : TodoType := mkTodo 3 7 "Write report" "2024-05-02" Pending.
Definition sample_now : string := "2024-05-01".
Definition sample_iso (d : string) : string := (d ++ "T00:00:00.000Z")%string.
Definition form_ani : Modals.UserModal.UserFields :=
  Modals.UserModal.mkUserFields (Some "Ani") (Some "ani@example.com") (Some Female) (Some Active).

(** The todos page after Budi opened his todo for editing. *)
Definition edit_state : TodosPage.State :=
  TodosPage.handle sample_now (TodosPage.ClickEdit todo_a) (TodosPage.mount (Some budi)).

End ListPagesSamples.

Module TodosPageFacts.
Import Users Todos Profile Pages ModalForm TodosPage.

Section Facts.
Context (now : string) (toISOString : string -> string).

Local Abbreviation step := (TodosPage.step now toISOString).
Local Abbreviation run := (TodosPage.run now toISOString).
Local Abbreviation handle := (TodosPage.handle now).
Local Abbreviation action := (TodosPage.action toISOString).

(** A sequence of clicks from the mounted page ends in a state the
    page reaches. *)
Lemma todos_run_reachable sel q es acts s' :
  run sel q es (mount sel) = Some (acts, s') -> reachable now toISOString sel s'.
Proof.
  apply run_clicks_rtc. intros s0 e Ho. apply andb_true_iff in Ho as [Hq Ha]. by eapply PageStep.
Qed.

(** Without a profile the todos query is disabled, so the page shows no
    data. *)
Lemma no_profile_idle s (q : QueryView TodoType) :
  view_consistent (query None s) q = true -> q = QIdle.
Proof. by destruct q. Qed.

(** The todo form holds a status the [Select] offers. *)
Definition fields_typed (s : State) : Prop :=
  forall f, ModalForm.fields (dialog s) = Some f -> status_ok f = true.

Lemma initialValues_status_ok t : status_ok (TodoModal.initialValues now t) = true.
Proof.
  unfold status_ok, todo_statuses.
  destruct t as [t|]; simpl; [destruct (status t)|];
    first [reflexivity | apply bool_decide_eq_true_2; set_solver].
Qed.

Lemma step_fields_typed sel s a s' : fields_typed s -> step sel s a s' -> fields_typed s'.
Proof.
  intros Hs. destruct 1 as [q e s _ Ha]. intros f. destruct e; simpl; try apply Hs.
  - unfold open_create, show. simpl. destruct (fields (dialog s)) eqn:E; intros [= <-];
      [by apply Hs|exact (initialValues_status_ok (editing (dialog s)))].
  - unfold open_edit, show. simpl. destruct (fields (dialog s)) eqn:E; intros [= <-];
      [by apply Hs|exact (initialValues_status_ok (Some t0))].
  - intros [= <-]. simpl in Ha. by apply andb_true_iff in Ha as [_ ?].
Qed.

(** What the dialog's submit starts: an update or a create of the
    validated fields, the status as the form holds it. *)
Lemma todo_submit_status d m :
  TodoModal.submit toISOString d = Some (Mutations.Start m) ->
  exists f st, ModalForm.fields d = Some f /\ TodoModal.tf_status f = Some st /\
    match m with
    | Mutations.CreateTodo cd | Mutations.UpdateTodo _ cd => data_status cd = st
    | _ => False
    end.
Proof.
  unfold TodoModal.submit, ModalForm.submit. destruct (open d); [|done].
  destruct (fields d) as [f|] eqn:Hf; [|done]. unfold TodoModal.validate.
  destruct (FormRules.required (TodoModal.tf_title f)), (TodoModal.tf_due_on f), (TodoModal.tf_status f) as [st|] eqn:Hst;
    try done.
  unfold Mutations.todoForm_handleSubmit. intros Hm. exists f, st. split_and!; [done|done|].
  destruct (editing d); simpl in Hm; simplify_eq; done.
Qed.

(** Without a profile the dialog and the confirm dialog stay closed. *)
Definition closed_dialogs (s : State) : Prop := open (dialog s) = false /\ confirming s = None.

Lemma no_profile_step s a s' :
  closed_dialogs s -> step None s a s' -> a = None /\ closed_dialogs s'.
Proof.
  intros [Hd Hc]. destruct 1 as [q e s Hq Ha]. apply no_profile_idle in Hq as ->.
  unfold available, page_free, listed, render in Ha. simpl in Ha. rewrite Hd, Hc in Ha.
  autorewrite with model_rw in Ha.
  unfold closed_dialogs. destruct e; simpl in Ha |- *; try (destruct (isModalOpen s); discriminate); by split.
Qed.

(** C33: without a profile the todos page never starts a mutation: its
    query is disabled, so no todo is listed, the "Add Todo" button is
    hidden, and the dialog and the delete confirmation never open; every
    click the page offers (page change, the prompt's buttons) starts
    nothing. *)
Theorem todos_no_profile_no_mutation s a s' :
  reachable now toISOString None s -> step None s a s' -> a = None.
Proof.
  intros Hr Hs.
  assert (Hc : closed_dialogs s).
  { refine (rtc_invariant _ _ _ _ (λ x y Hx '(ex_intro _ a0 Hxy), proj2 (no_profile_step _ _ _ Hx Hxy)) _ Hr).
    by split. }
  exact (proj1 (no_profile_step _ _ _ Hc Hs)).
Qed.

(** C27: every todo the todos page sends (created or updated through
    its dialog) carries as [status] one of the two [TodoStatus] values:
    the form opens with the edited todo's status or "pending", and the
    status [Select] offers nothing else. *)
Theorem todos_page_status_typed sel s a s' m :
  reachable now toISOString sel s -> step sel s a s' -> a = Some (Mutations.Start m) ->
  match m with
  | Mutations.CreateTodo d | Mutations.UpdateTodo _ d => data_status d ∈ todo_statuses
  | _ => True
  end.
Proof.
  intros Hr Hs Ha.
  assert (Ht : fields_typed s).
  { refine (rtc_invariant _ _ _ _ (λ x y Hx '(ex_intro _ a0 Hxy), step_fields_typed _ _ _ _ Hx Hxy) _ Hr).
    by destruct sel. }
  destruct Hs as [q e s _ _]. destruct e; simpl in Ha; try discriminate.
  - destruct (todo_submit_status _ _ Ha) as (f & st & Hf & Hst & Hm).
    specialize (Ht f Hf). unfold status_ok in Ht. rewrite Hst, bool_decide_eq_true in Ht.
    destruct m; subst; done.
  - injection Ha as <-. done.
  - destruct (confirming s); [|done]. injection Ha as <-. done.
Qed.

(** With a profile of non-zero id the todos query is enabled. *)
Lemma view_consistent_profile u s (q : QueryView TodoType) :
  Users.id u <> 0 -> view_consistent (query (Some u) s) q = true.
Proof. intros H. unfold view_consistent. simpl. by rewrite (proj2 (Z.eqb_neq _ _) H). Qed.

(** C34: the stale create of the todo dialog happens through the page's
    own clicks: with a profile whose todos are listed, Edit on a todo,
    Cancel, "Add Todo" and Create are all offered in turn and start
    nothing until Create, which posts a new todo with the edited todo's
    title, due date and status (when they pass the form's rules, as the
    server's todos, stored through this form, do). *)
Theorem todos_page_stale_create u A h :
  Users.id u <> 0 ->
  exists s', run (Some u) (QData [A] h) [ClickEdit A; CloseDialog; AddTodo; SubmitDialog] (mount (Some u)) =
    Some ([None; None; None;
           if TodoModal.accepts A then
             Some (Mutations.Start (Mutations.CreateTodo
                     (mkCreateTodoData (title A) (toISOString (due_on A)) (TodoStatus_value (status A)))))
           else None], s') /\
    reachable now toISOString (Some u) s'.
Proof.
  intros Hid. eexists.
  split; [|eapply (todos_run_reachable (Some u) (QData [A] h) [ClickEdit A; CloseDialog; AddTodo; SubmitDialog])];
  cbn; rewrite !(view_consistent_profile u _ _ Hid); unfold listed; simpl;
  rewrite (bool_decide_eq_true_2 (A ∈ [A])) by (by apply list_elem_of_singleton);
  rewrite ?(proj2 (proj2 (ModalFacts.todo_modal_stale_create now toISOString A))); reflexivity.
Qed.

(** Opening or closing the confirm dialog keeps the query. *)
Lemma query_with_confirming sel c s : query sel (with_confirming c s) = query sel s.
Proof. done. Qed.

(** What a click offered in a view with no dialog open guarantees. *)
Lemma page_free_closed sel q s :
  page_free (render sel q s) = true ->
  isModalOpen s = false /\ open (dialog s) = false /\ confirming s = None.
Proof.
  unfold page_free, render. simpl.
  destruct (isModalOpen s), (open (dialog s)), (confirming s); simpl; try done; by rewrite andb_false_r.
Qed.

(** C35: deleting a todo needs confirmation: the delete button of a
    listed todo only opens the confirm dialog, whose OK then starts
    [deleteTodoMutation] on that todo's id and whose Cancel starts
    nothing, both closing it; and no other click of the page starts a
    deletion: every [DeleteTodo] the page starts is the OK of an open
    confirm dialog for a todo with that id. *)
Theorem todos_delete_confirmed sel q s t :
  view_consistent (query sel s) q = true ->
  available (render sel q s) (ClickDelete t) = true ->
  run sel q [ClickDelete t; ConfirmOk] s =
    Some ([None; Some (Mutations.Start (Mutations.DeleteTodo (Todos.id t)))], s) /\
  run sel q [ClickDelete t; ConfirmCancel] s = Some ([None; None], s) /\
  (forall s1 a s2 i, step sel s1 a s2 -> a = Some (Mutations.Start (Mutations.DeleteTodo i)) ->
     exists t', confirming s1 = Some t' /\ Todos.id t' = i /\ confirming s2 = None).
Proof.
  intros Hq Ha. pose proof Ha as Ha'. simpl in Ha'. apply andb_true_iff in Ha' as [Hf _].
  destruct (page_free_closed _ _ _ Hf) as (Hp & Hd & Hc).
  destruct s as [pm d c pg psz]; simpl in Hc; subst c.
  cbn in Hq, Ha |- *. rewrite !query_with_confirming, Hq, Ha.
  split_and!; [reflexivity|reflexivity|].
  - intros s1 a s2 i [q' e s1' _ _] Hact. destruct e; simpl in Hact; try discriminate.
    + unfold TodoModal.submit in Hact. destruct (ModalForm.submit _ _) as [[? [[? ?] ?]]|]; [|done].
      unfold Mutations.todoForm_handleSubmit in Hact. by case_match.
    + destruct (confirming s1') as [t'|]; [|done]. injection Hact as <-. by exists t'.
Qed.

End Facts.
End TodosPageFacts.

Module UsersPageFacts.
Import Users Profile Pages ModalForm UsersPage.

(** A sequence of clicks from the mounted page ends in a state the
    page reaches. *)
Lemma users_run_reachable sel q es acts s' :
  run q es (mount sel) = Some (acts, s') -> reachable sel s'.
Proof.
  apply run_clicks_rtc. intros s0 e Ho. apply andb_true_iff in Ho as [Hq Ha]. by eapply PageStep.
Qed.

(** C36: the "Create User" dialog of the users page (kept mounted, its
    form never reset) submits the same user twice: after filling it in
    and creating a user, and [onSubmit] closing it, "Add User" reopens
    it with the values just sent and Create posts [createUser] with them
    again; every click is one the page offers, whatever the list
    shows. *)
Theorem users_create_twice sel (q : QueryView UserType) f v :
  UserModal.validate f = Some v ->
  exists s', run q [AddUser; TypeCreate f; SubmitCreate; CloseCreate; AddUser; SubmitCreate] (mount sel) =
    Some ([None; None; Some (Mutations.Start (Mutations.CreateUser v)); None; None;
           Some (Mutations.Start (Mutations.CreateUser v))], s') /\ reachable sel s'.
Proof.
  intros Hv. eexists.
  split; [|eapply (users_run_reachable sel q
                     [AddUser; TypeCreate f; SubmitCreate; CloseCreate; AddUser; SubmitCreate])];
  cbn; unfold UserModal.submit, submit; cbn; by rewrite Hv.
Qed.

End UsersPageFacts.

Module ListPagesWitnesses.
Import Users Todos Pages ListPagesSamples.

Lemma todos_no_profile_no_mutation_witness :
  TodosPage.reachable sample_now sample_iso None (TodosPage.mount None) /\
  TodosPage.step sample_now sample_iso None (TodosPage.mount None) None
    (TodosPage.handle sample_now TodosPage.Redirect (TodosPage.mount None)) /\
  @None Mutations.Action = None.
Proof.
  assert (Hr : TodosPage.reachable sample_now sample_iso None (TodosPage.mount None)) by apply rtc_refl.
  assert (Hs : TodosPage.step sample_now sample_iso None (TodosPage.mount None) None
                 (TodosPage.handle sample_now TodosPage.Redirect (TodosPage.mount None)))
    by (apply (TodosPage.PageStep sample_now sample_iso None QIdle TodosPage.Redirect); reflexivity).
  split; [exact Hr|]. split; [exact Hs|].
  exact (TodosPageFacts.todos_no_profile_no_mutation sample_now sample_iso _ _ _ Hr Hs).
Defined.

Lemma todos_page_stale_create_witness :
  Users.id budi <> 0 /\
  exists s', TodosPage.run sample_now sample_iso (Some budi) (QData [todo_a] None)
               [TodosPage.ClickEdit todo_a; TodosPage.CloseDialog; TodosPage.AddTodo; TodosPage.SubmitDialog]
               (TodosPage.mount (Some budi)) =
    Some ([None; None; None;
           Some (Mutations.Start (Mutations.CreateTodo
                   (mkCreateTodoData (title todo_a) (sample_iso (due_on todo_a))
                                     (TodoStatus_value (status todo_a)))))], s') /\
    TodosPage.reachable sample_now sample_iso (Some budi) s'.
Proof.
  assert (H : Users.id budi <> 0) by discriminate.
  split; [exact H|]. exact (TodosPageFacts.todos_page_stale_create sample_now sample_iso budi todo_a None H).
Defined.

Lemma todos_delete_confirmed_witness :
  view_consistent (TodosPage.query (Some budi) (TodosPage.mount (Some budi))) (QData [todo_a] None) = true /\
  TodosPage.available (TodosPage.render (Some budi) (QData [todo_a] None) (TodosPage.mount (Some budi)))
    (TodosPage.ClickDelete todo_a) = true /\
  (TodosPage.run sample_now sample_iso (Some budi) (QData [todo_a] None)
     [TodosPage.ClickDelete todo_a; TodosPage.ConfirmOk] (TodosPage.mount (Some budi)) =
     Some ([None; Some (Mutations.Start (Mutations.DeleteTodo (Todos.id todo_a)))], TodosPage.mount (Some budi)) /\
   TodosPage.run sample_now sample_iso (Some budi) (QData [todo_a] None)
     [TodosPage.ClickDelete todo_a; TodosPage.ConfirmCancel] (TodosPage.mount (Some budi)) =
     Some ([None; None], TodosPage.mount (Some budi)) /\
   (forall s1 a s2 i, TodosPage.step sample_now sample_iso (Some budi) s1 a s2 ->
      a = Some (Mutations.Start (Mutations.DeleteTodo i)) ->
      exists t', TodosPage.confirming s1 = Some t' /\ Todos.id t' = i /\ TodosPage.confirming s2 = None)).
Proof.
  assert (Hq : view_consistent (TodosPage.query (Some budi) (TodosPage.mount (Some budi)))
                 (QData [todo_a] None) = true) by reflexivity.
  assert (Ha : TodosPage.available (TodosPage.render (Some budi) (QData [todo_a] None)
                 (TodosPage.mount (Some budi))) (TodosPage.ClickDelete todo_a) = true)
    by (vm_compute; reflexivity).
  split; [exact Hq|]. split; [exact Ha|].
  exact (TodosPageFacts.todos_delete_confirmed sample_now sample_iso _ _ _ _ Hq Ha).
Defined.

Lemma users_create_twice_witness :
  Modals.UserModal.validate form_ani = Some (mkUserFormData "Ani" "ani@example.com" Female Active) /\
  exists s', UsersPage.run QLoading
               [UsersPage.AddUser; UsersPage.TypeCreate form_ani; UsersPage.SubmitCreate;
                UsersPage.CloseCreate; UsersPage.AddUser; UsersPage.SubmitCreate] (UsersPage.mount None) =
    Some ([None; None; Some (Mutations.Start (Mutations.CreateUser (mkUserFormData "Ani" "ani@example.com" Female Active)));
           None; None; Some (Mutations.Start (Mutations.CreateUser (mkUserFormData "Ani" "ani@example.com" Female Active)))], s') /\
    UsersPage.reachable None s'.
Proof.
  assert (Hv : Modals.UserModal.validate form_ani = Some (mkUserFormData "Ani" "ani@example.com" Female Active))
    by reflexivity.
  split; [exact Hv|]. exact (UsersPageFacts.users_create_twice None QLoading _ _ Hv).
Defined.

Lemma todos_page_status_typed_witness :
  TodosPage.reachable sample_now sample_iso (Some budi) edit_state /\
  TodosPage.step sample_now sample_iso (Some budi) edit_state
    (TodosPage.action sample_iso TodosPage.SubmitDialog edit_state)
    (TodosPage.handle sample_now TodosPage.SubmitDialog edit_state) /\
  TodosPage.action sample_iso TodosPage.SubmitDialog edit_state =
    Some (Mutations.Start (Mutations.UpdateTodo 3
            (mkCreateTodoData "Write report" (sample_iso "2024-05-02") "pending"))) /\
  "pending"%string ∈ TodosPage.todo_statuses.
Proof.
  assert (Hr : TodosPage.reachable sample_now sample_iso (Some budi) edit_state).
  { apply rtc_once. eexists.
    apply (TodosPage.PageStep sample_now sample_iso (Some budi) (QData [todo_a] None)); vm_compute; reflexivity. }
  assert (Hs : TodosPage.step sample_now sample_iso (Some budi) edit_state
                 (TodosPage.action sample_iso TodosPage.SubmitDialog edit_state)
                 (TodosPage.handle sample_now TodosPage.SubmitDialog edit_state))
    by (apply (TodosPage.PageStep sample_now sample_iso (Some budi) (QData [todo_a] None)); vm_compute; reflexivity).
  assert (Ha : TodosPage.action sample_iso TodosPage.SubmitDialog edit_state =
    Some (Mutations.Start (Mutations.UpdateTodo 3
            (mkCreateTodoData "Write report" (sample_iso "2024-05-02") "pending")))) by reflexivity.
  split; [exact Hr|]. split; [exact Hs|]. split; [exact Ha|].
  exact (TodosPageFacts.todos_page_status_typed sample_now sample_iso _ _ _ _ _ Hr Hs Ha).
Defined.

End ListPagesWitnesses.
