(* ===== verification/App.v ===== *)
(** * The application state and its step relation

    [App] is what the running console keeps across handlers: the selected
    profile of UserContext, the query client of pages/_app.tsx, and the
    UI effects emitted so far.  Callbacks run their effects in order
    ([run_effects]); [mutate] settles a mutation: [mutationFn] runs with
    the selected user, the request goes to the transport, and the
    outcome picks [onSuccess] or [onError].  Invalidation does not await
    the refetch: a refetch is a separate [StepFetch].

    The callbacks read the profile selected when the request settles
    ([selectedUser] of the state [mutate] settles in), as TanStack Query
    runs a pending mutation's callbacks from the latest render; on every
    page the profile is fixed while the page is shown (it changes only
    from the users page, whose mutations do not read it), so this is the
    profile of the render that started the request.  A profile change
    while a todos or posts request is in flight is not modelled.

    The section is parameterised by any query client satisfying
    [QueryClientLaws]; the theorems hold for every implementation, and
    the witnesses use [ListCache]. *)

From Stdlib Require Import ZArith String.
From stdpp Require Import base strings list relations.
From S2P Require Import Prelude JsObject Types ApiError QueryCache Services Profile Pages Mutations.

Open Scope Z_scope.
Open Scope string_scope.

Module App.
Import Users Posts Profile Pages Mutations.

Section WithClient.
Context {C D R : Type} `{!QueryClient C D}.

Record App := mkApp {
  selectedUser : option UserType;
  cache : C;
  ui : list UiEffect
}.

Definition apply_effect (a : App) (e : Effect) : App :=
  match e with
  | Invalidate f => mkApp (selectedUser a) (qc_invalidate f (cache a)) (ui a)
  | Ui u => mkApp (selectedUser a) (cache a) (ui a ++ [u])
  end.

Definition run_effects (es : list Effect) (a : App) : App :=
  fold_left apply_effect es a.

(** The value the mutation's promise settles with. *)
Definition mutate_result (m : Mutation) (sel : option UserType)
  (send : Request -> Outcome R) : sum Thrown R :=
  match mutationFn (mutation_def m sel) with
  | inl t => inl t
  | inr r => service_call send r
  end.

Definition settle (m : Mutation) (sel : option UserType) (res : sum Thrown R) (a : App) : App :=
  match res with
  | inr _ => run_effects (onSuccess (mutation_def m sel)) a
  | inl t =>
      match onError (mutation_def m sel) t with
      | Some es => run_effects es a
      | None => a
      end
  end.

(** [mutation.mutate(vars)] with the closure's selected user. *)
Definition mutate (m : Mutation) (send : Request -> Outcome R) (a : App) : App :=
  settle m (selectedUser a) (mutate_result m (selectedUser a) send) a.

(** UserTable.tsx: the "Set as Profile" button. *)
Definition select_profile (user : UserType) (a : App) : App :=
  let '(sel, es) := handleSetAsProfile user (selectedUser a) in
  mkApp sel (cache a) (ui a ++ es).

Inductive app_step : App -> App -> Prop :=
| StepSelect user a : app_step a (select_profile user a)
| StepMutate m send a : app_step a (mutate m send a)
| StepFetch k d a : app_step a (mkApp (selectedUser a) (qc_setData k d (cache a)) (ui a))
| StepMount k a : app_step a (mkApp (selectedUser a) (qc_build k (cache a)) (ui a)).

Definition init : App := mkApp None qc_empty [].

Definition reachable (a : App) : Prop := rtc app_step init a.

End WithClient.

Arguments App : clear implicits.

(** ** The contract of section 4.1: key-spaces per mutated resource *)

Inductive KeySpace :=
| KSUsers
| KSTodosOf (owner : jsval)
| KSPosts
| KSMyPostsOf (uid : Z)
| KSCommentsOf (postId : Z).

Definition in_keyspace (q : PageQuery) (ks : KeySpace) : bool :=
  match ks, q with
  | KSUsers, QUsers _ _ => true
  | KSTodosOf o, QTodos sel _ _ => bool_decide (selected_id sel = o)
  | KSPosts, QPosts _ _ => true
  | KSMyPostsOf u, QMyPosts sel _ _ => bool_decide (selected_id sel = JNum u)
  | KSCommentsOf p, QComments p' _ => bool_decide (p = p')
  | _, _ => false
  end.

(** The key-spaces a successful mutation must invalidate: the list of
    the mutated resource, scoped to the acting user where the views are
    scoped (todos, my posts), and a post's comments for comments. *)
Definition keyspaces (m : Mutation) (sel : option UserType) : list KeySpace :=
  match m with
  | DeleteUser _ | CreateUser _ | UpdateUser _ _ => [KSUsers]
  | CreateTodo _ | UpdateTodo _ _ | DeleteTodo _ | UpdateTodoStatus _ _ =>
      [KSTodosOf (selected_id sel)]
  | CreatePost _ | UpdatePost _ _ | DeletePost _ _ =>
      KSPosts :: match sel with Some u => [KSMyPostsOf (Users.id u)] | None => [] end
  | CreateComment card _ _ | DeleteComment card _ => [KSCommentsOf (Posts.id card)]
  end.

(** The filters a list of effects invalidates. *)
Definition filters_of (es : list Effect) : list QueryKey :=
  omap (fun e => match e with Invalidate f => Some f | Ui _ => None end) es.

Definition ui_of (es : list Effect) : list UiEffect :=
  omap (fun e => match e with Ui u => Some u | Invalidate _ => None end) es.

(** The toast a list of field errors from the server should produce: its
    last non-empty [general] message. *)
Definition general_toast (l : list ApiError) : list UiEffect :=
  match last_message "general" l with
  | Some g => if String.eqb g "" then [] else [MessageError g]
  | None => []
  end.

End App.

(** ** Concrete data for the witnesses *)
Module Samples.
Import Users Todos Posts Mutations App.

Abbreviation Cache := (list (QueryKey * QueryState unit)).

Definition user7 : UserType := mkUser 7 "Budi" "budi@example.com" Male Active.
Definition user9 : UserType := mkUser 9 "Ani" "ani@example.com" Female Inactive.
Definition todo_data : CreateTodoData :=
  mkCreateTodoData "Write report" "2026-11-10T00:00:00.000Z" "pending".

(** A cache holding user 7's first todo page and the first users page. *)
Definition sample_cache : Cache :=
  [([JStr "todos"; JNum 7; JNum 1; JNum 10], mkQueryState (Some tt) false);
   ([JStr "users"; JNum 1; JNum 10], mkQueryState (Some tt) false)].

Definition sample_app : App Cache := mkApp (Some user7) sample_cache [].

Definition send_ok : Request -> Outcome unit := fun _ => inr tt.
Definition send_404 : Request -> Outcome unit :=
  fun _ => inl (mkAxiosError (Some (BodyObject "Resource not found"))).
Definition post_data : PostFormData := mkPostFormData "Hello" "First post".
Definition send_422 : Request -> Outcome unit :=
  fun _ => inl (mkAxiosError (Some (BodyArray
    [mkApiError "title" "can't be blank"; mkApiError "general" "Check the form";
     mkApiError "title" "is too short"]))).
End Samples.

Module AppFacts.
Import Users Posts Profile Pages Mutations App.

(** ** Key matching against the handlers' filters *)

Lemma pm_cons x a y b :
  partialMatchKey (x :: a) (y :: b) = (x === y)%js && partialMatchKey a b.
Proof. done. Qed.

Lemma str_eqb s s' : (JStr s === JStr s')%js = bool_decide (s = s').
Proof.
  unfold js_eqb. apply bool_decide_ext. split; [by injection 1|by intros ->].
Qed.

Ltac match_keys :=
  intros []; intros; simpl queryKey; unfold in_keyspace;
  rewrite ?pm_cons, ?str_eqb; simpl; rewrite ?andb_true_r;
  unfold js_eqb; repeat case_bool_decide; simplify_eq; done.

Lemma match_users q : partialMatchKey (queryKey q) users_filter = in_keyspace q KSUsers.
Proof. revert q. match_keys. Qed.

Lemma match_posts q : partialMatchKey (queryKey q) posts_filter = in_keyspace q KSPosts.
Proof. revert q. match_keys. Qed.

Lemma match_todos q sel :
  partialMatchKey (queryKey q) (todos_filter sel) = in_keyspace q (KSTodosOf (selected_id sel)).
Proof. revert q. match_keys. Qed.

Lemma match_my_posts q uid :
  partialMatchKey (queryKey q) (my_posts_filter uid) = in_keyspace q (KSMyPostsOf uid).
Proof. revert q. match_keys. Qed.

Lemma match_comments q pid :
  partialMatchKey (queryKey q) (comments_filter pid) = in_keyspace q (KSCommentsOf pid).
Proof.
  revert q. match_keys.
Qed.

#[local] Hint Rewrite match_users match_posts match_todos match_my_posts match_comments : model_rw.

(** The error callbacks never invalidate. *)
Lemma onError_no_filters m sel t es :
  onError (mutation_def m sel) t = Some es -> filters_of es = [].
Proof.
  destruct m; simpl; unfold no_onError, form_errors, toast_errors, show_general;
    try (intros [= <-]; done);
    destruct (formatApiErrors t); intros; simplify_eq; simpl;
    by destruct (general_of _).
Qed.

(** The error callback of a mutation that writes field errors. *)
Lemma onError_error_form m sel form t :
  error_form m = Some form -> onError (mutation_def m sel) t = form_errors form t.
Proof. destruct m; simpl; by intros [= <-]. Qed.

(** Every error callback does nothing on a rejection that is not an array:
    the ones without [onError] by definition, the others because
    [formatApiErrors] throws. *)
Lemma onError_non_array m sel t :
  (forall l, t <> TArray l) ->
  onError (mutation_def m sel) t = None \/ onError (mutation_def m sel) t = Some [].
Proof.
  intros Ht. destruct t as [l| | |]; [by destruct (Ht l)| | |];
    destruct m; simpl; unfold no_onError; auto.
Qed.

Lemma filters_show_general fe : filters_of (show_general fe) = [].
Proof. unfold show_general. by destruct (general_of fe). Qed.

Lemma ui_of_show_general l :
  ui_of (show_general (formatApiErrors_list l)) = general_toast l.
Proof.
  unfold show_general, general_of, general_toast.
  rewrite (proj2 (formatApiErrors_list_spec l)). simpl.
  destruct (last_message "general" l) as [g|]; simpl; [|reflexivity].
  by destruct (String.eqb g "").
Qed.

Section Facts.
Context {C D R : Type} `{QueryClientLaws C D}.

Lemma run_effects_spec es (a : App C) :
  run_effects es a =
    mkApp (selectedUser a) (invalidate_all (filters_of es) (cache a)) (ui a ++ ui_of es).
Proof.
  unfold run_effects. revert a. induction es as [|e es IH]; intros [sel c u]; simpl.
  - by rewrite app_nil_r.
  - rewrite IH. destruct e; simpl; [done|]. by rewrite <- app_assoc.
Qed.

Lemma settle_selectedUser m sel (res : sum Thrown R) (a : App C) :
  selectedUser (settle m sel res a) = selectedUser a.
Proof.
  destruct res; simpl; [destruct (onError (mutation_def m sel) t)|]; by rewrite ?run_effects_spec.
Qed.

Lemma mutate_selectedUser m (send : Request -> Outcome R) (a : App C) :
  selectedUser (mutate m send a) = selectedUser a.
Proof. apply settle_selectedUser. Qed.

(** C1: a successful mutation leaves the selected profile alone and,
    on every list view the pages mount, invalidates exactly the views
    that lie in the key-spaces of the mutated resource (the users
    list; the acting user's todos; all posts and the acting user's
    posts; the comments of the card's post), keeping their data, and
    leaves every other view as it was. *)
Theorem success_invalidates_exactly m (send : Request -> Outcome R) (a : App C) r resp :
  mutationFn (mutation_def m (selectedUser a)) = inr r -> send r = inr resp ->
  selectedUser (mutate m send a) = selectedUser a /\
  forall q, qc_find (queryKey q) (cache (mutate m send a)) =
    if existsb (in_keyspace q) (keyspaces m (selectedUser a))
    then mark_invalid <$> qc_find (queryKey q) (cache a)
    else qc_find (queryKey q) (cache a).
Proof.
  intros Hfn Hsend. split; [apply mutate_selectedUser|]. intros q.
  unfold mutate, mutate_result, service_call. rewrite Hfn, Hsend. simpl.
  rewrite run_effects_spec. simpl. rewrite find_invalidate_all.
  (* the filters match the page's key exactly when the page is in a key-space *)
  f_equal. destruct m; try destruct (selectedUser a); cbn -[partialMatchKey in_keyspace queryKey];
    by autorewrite with model_rw.
Qed.

(** C2: a mutation that fails (before the request or at the server)
    leaves the query cache and the selected profile untouched. *)
Theorem failure_leaves_cache m (send : Request -> Outcome R) (a : App C) t :
  mutate_result m (selectedUser a) send = inl t ->
  cache (mutate m send a) = cache a /\ selectedUser (mutate m send a) = selectedUser a.
Proof.
  intros Hres. split; [|apply mutate_selectedUser].
  unfold mutate. rewrite Hres. simpl.
  destruct (onError (mutation_def m (selectedUser a)) t) as [es|] eqn:He; [|done].
  rewrite run_effects_spec. simpl. by rewrite (onError_no_filters m _ t es He).
Qed.

Lemma app_step_profile_ok (a a' : App C) :
  @app_step C D R _ a a' -> profile_ok (selectedUser a) -> profile_ok (selectedUser a').
Proof.
  intros Hs Hok. destruct Hs as [user a0|m send a0|k d a0|k a0]; simpl; try done.
  - unfold select_profile.
    pose proof (ProfileFacts.handleSetAsProfile_ok user (selectedUser a0) Hok) as Hk.
    destruct (handleSetAsProfile user (selectedUser a0)). done.
  - by rewrite mutate_selectedUser.
Qed.

(** C3: in every reachable state of the console, the active profile
    is either unset or an active user. *)
Theorem reachable_profile_ok (a : App C) :
  @reachable C D R _ a -> profile_ok (selectedUser a).
Proof.
  unfold reachable. intros Hr.
  assert (Hgen : forall x y, rtc (@app_step C D R _) x y ->
                 profile_ok (selectedUser x) -> profile_ok (selectedUser y)).
  { intros x y Hxy. induction Hxy as [|x y z Hs _ IH]; [done|].
    intros Hx. apply IH. by eapply app_step_profile_ok. }
  apply (Hgen _ _ Hr). by intros u.
Qed.

(** C8: when the server rejects a post or comment form with a list of
    field errors, the cache is untouched, the form receives every field
    once with the last message the server gave for it, and the last
    non-empty general message, if any, is shown as an error toast. *)
Theorem server_field_errors_routed m form (send : Request -> Outcome R) (a : App C) r l :
  error_form m = Some form ->
  mutationFn (mutation_def m (selectedUser a)) = inr r ->
  send r = inl (mkAxiosError (Some (BodyArray l))) ->
  cache (mutate m send a) = cache a /\
  exists fields,
    ui (mutate m send a) = (ui a ++ SetFields form fields :: general_toast l)%list /\
    NoDup (map fst fields) /\
    forall f, JsObject.get f fields = if String.eqb f "__proto__" then None else last_message f l.
Proof.
  intros Hform Hfn Hsend.
  destruct (formatApiErrors_list_spec l) as [Hnd Hget].
  destruct (JsObjectFacts.Object_entries_get _ Hnd) as [Hnd' Hget'].
  unfold mutate, mutate_result, service_call. rewrite Hfn, Hsend. simpl.
  rewrite (onError_error_form _ _ form) by done. simpl.
  rewrite run_effects_spec. simpl. rewrite filters_show_general. split; [done|].
  eexists. split; [rewrite ui_of_show_general, <- app_assoc; reflexivity|]. split; [done|].
  intros f. by rewrite Hget', Hget.
Qed.

(** C9: a mutation whose rejection is not an array of field errors (a
    404 body such as [{ message }], an [Error] thrown before the request,
    a string rejection) changes nothing at all: no toast, no field
    error, no invalidation. *)
Theorem non_array_rejection_silent m (send : Request -> Outcome R) (a : App C) t :
  mutate_result m (selectedUser a) send = inl t ->
  (forall l, t <> TArray l) ->
  mutate m send a = a.
Proof.
  intros Hres Ht. unfold mutate. rewrite Hres. simpl.
  destruct (onError_non_array m (selectedUser a) t Ht) as [-> | ->]; [done|].
  rewrite run_effects_spec. destruct a; simpl. by rewrite app_nil_r.
Qed.

End Facts.
End AppFacts.

Module AppWitnesses.
Import Users Todos Posts Profile Pages Mutations App AppFacts Samples.

Lemma success_invalidates_exactly_witness :
  mutationFn (mutation_def (CreateTodo todo_data) (selectedUser sample_app)) =
    inr (todoApi.createTodo 7 todo_data) /\
  send_ok (todoApi.createTodo 7 todo_data) = inr tt /\
  (selectedUser (mutate (CreateTodo todo_data) send_ok sample_app) = selectedUser sample_app /\
   forall q, qc_find (queryKey q) (cache (mutate (CreateTodo todo_data) send_ok sample_app)) =
     if existsb (in_keyspace q) (keyspaces (CreateTodo todo_data) (selectedUser sample_app))
     then mark_invalid <$> qc_find (queryKey q) (cache sample_app)
     else qc_find (queryKey q) (cache sample_app)).
Proof.
  split; [reflexivity|]. split; [reflexivity|].
  apply (success_invalidates_exactly (CreateTodo todo_data) send_ok sample_app
           (todoApi.createTodo 7 todo_data) tt); reflexivity.
Defined.

Lemma failure_leaves_cache_witness :
  mutate_result (DeletePost (mkPost 3 7 "t" "b") 3) (selectedUser sample_app) send_404 =
    inl (TObject "Resource not found") /\
  (cache (mutate (DeletePost (mkPost 3 7 "t" "b") 3) send_404 sample_app) = cache sample_app /\
   selectedUser (mutate (DeletePost (mkPost 3 7 "t" "b") 3) send_404 sample_app)
     = selectedUser sample_app).
Proof.
  split; [reflexivity|].
  apply (failure_leaves_cache (DeletePost (mkPost 3 7 "t" "b") 3) send_404 sample_app
           (TObject "Resource not found")); reflexivity.
Defined.

Lemma reachable_profile_ok_witness :
  @reachable Cache unit unit _ (select_profile user9 (select_profile user7 (@init Cache unit _))) /\
  profile_ok (selectedUser (select_profile user9 (select_profile user7 (@init Cache unit _)))).
Proof.
  assert (Hr : @reachable Cache unit unit _ (select_profile user9 (select_profile user7 (@init Cache unit _)))).
  { unfold reachable. eapply rtc_l; [apply StepSelect|]. apply rtc_once, StepSelect. }
  split; [exact Hr|]. exact (reachable_profile_ok _ Hr).
Defined.

Lemma server_field_errors_routed_witness :
  error_form (CreatePost post_data) = Some PostFormF /\
  mutationFn (mutation_def (CreatePost post_data) (selectedUser sample_app)) =
    inr (postsApi.createPost 7 post_data) /\
  send_422 (postsApi.createPost 7 post_data) =
    inl (mkAxiosError (Some (BodyArray
      [mkApiError "title" "can't be blank"; mkApiError "general" "Check the form";
       mkApiError "title" "is too short"]))) /\
  (cache (mutate (CreatePost post_data) send_422 sample_app) = cache sample_app /\
   exists fields,
     ui (mutate (CreatePost post_data) send_422 sample_app) =
       (ui sample_app ++ SetFields PostFormF fields ::
        general_toast [mkApiError "title" "can't be blank"; mkApiError "general" "Check the form";
                       mkApiError "title" "is too short"])%list /\
     NoDup (map fst fields) /\
     forall f, JsObject.get f fields =
       if String.eqb f "__proto__" then None else
       last_message f [mkApiError "title" "can't be blank"; mkApiError "general" "Check the form";
                       mkApiError "title" "is too short"]).
Proof.
  split; [reflexivity|]. split; [reflexivity|]. split; [reflexivity|].
  apply (server_field_errors_routed (CreatePost post_data) PostFormF send_422 sample_app
           (postsApi.createPost 7 post_data)); reflexivity.
Defined.

Lemma non_array_rejection_silent_witness :
  mutate_result (DeletePost (mkPost 3 7 "t" "b") 3) (selectedUser sample_app) send_404 =
    inl (TObject "Resource not found") /\
  (forall l, TObject "Resource not found" <> TArray l) /\
  mutate (DeletePost (mkPost 3 7 "t" "b") 3) send_404 sample_app = sample_app.
Proof.
  assert (Ht : forall l, TObject "Resource not found" <> TArray l) by (intros l [=]).
  split; [reflexivity|]. split; [exact Ht|].
  apply (non_array_rejection_silent _ send_404 sample_app (TObject "Resource not found"));
    [reflexivity|exact Ht].
Defined.

End AppWitnesses.
