(* ===== verification/InFlight.v ===== *)
(** * Requests in flight from the form dialogs

    [UserForm], [TodoForm] and [PostForm] each hold two [useMutation]
    hooks, a create and an update, and render their submit button as
    [<Button htmlType="submit" loading={create.isPending ||
    update.isPending}>{initialData ? 'Update' : 'Create'}</Button>]:
    while a request the mounted form sent is in flight, antd's loading
    button ignores the click.  A request settles later, when the user
    may have cancelled the dialog or opened it again; its callbacks run
    then, and [onSuccess] ends with the page's [onSubmit], which closes
    whatever dialog is open.

    [Dialog] is one dialog of a page with the form it holds, composed
    with the application state of App.v: the [ModalForm] machine of
    Modals.v, the number of times a form was mounted in it (a mount
    gives fresh hooks, idle), the requests in flight tagged with the
    mount that sent them, and the [App] their callbacks act on.  [step]
    has the page's open buttons, Cancel, typing, the submit button and
    the settling of any request in flight, in any order. *)

From Stdlib Require Import ZArith String.
From stdpp Require Import base strings list relations.
From S2P Require Import Prelude Types FormRules ApiError QueryCache Services Profile Pages Mutations Modals App.

Open Scope string_scope.

Module InFlight.
Import Mutations ModalForm.

#[export] Instance Effect_eq_dec : EqDecision Effect.
Proof. solve_decision. Defined.

(** The callbacks a settled mutation runs: [onSuccess], or [onError]
    (nothing when it throws). *)
Definition callbacks {R} (m : Mutation) (sel : option Users.UserType) (res : sum Thrown R)
  : list Effect :=
  match res with
  | inr _ => onSuccess (mutation_def m sel)
  | inl t => default [] (onError (mutation_def m sel) t)
  end.

(** The button's text: [{initialData ? 'Update' : 'Create'}]. *)
Definition submit_label {T} (initialData : option T) : string :=
  match initialData with Some _ => "Update" | None => "Create" end.

Record SubmitButton := mkSubmitButton { label : string; loading : bool }.

(** The mutations of the form's update hook ([updateXMutation]); the
    others are its create hook's. *)
Definition is_update (m : Mutation) : bool :=
  match m with UpdateUser _ _ | UpdateTodo _ _ | UpdatePost _ _ => true | _ => false end.

Section Dialog.
Context {C D R : Type} `{!QueryClient C D}.
Context {T F : Type} (initialValues : option T -> F) (destroyOnClose : bool)
  (submit : ModalForm.t T F -> option Action).

Record State := mkState {
  dialog : ModalForm.t T F;
  mounts : nat;                        (** forms mounted so far; the last is the live one *)
  inflight : list (nat * Mutation);    (** the mount that sent it, the mutation *)
  app : App.App C
}.

Definition mounted (s : State) : bool := bool_decide (is_Some (fields (dialog s))).

(** [isPending] of the mounted form's create hook ([upd = false]) or
    update hook ([upd = true]): a request it sent is in flight. *)
Definition hook_pending (upd : bool) (s : State) : bool :=
  existsb (λ r, Nat.eqb r.1 (mounts s) && Bool.eqb (is_update r.2) upd) (inflight s).

(** [loading={createXMutation.isPending || updateXMutation.isPending}] *)
Definition isPending (s : State) : bool := hook_pending false s || hook_pending true s.

(** The submit button, rendered while the dialog is open. *)
Definition button (s : State) : option SubmitButton :=
  if open (dialog s) then Some (mkSubmitButton (submit_label (editing (dialog s))) (isPending s))
  else None.

(** The page's open buttons ([Some x]: an edit button; [None]: Add or
    Create); opening mounts a form when none is mounted. *)
Definition open_with (x : option T) (s : State) : State :=
  mkState
    (match x with
     | Some y => open_edit initialValues y (dialog s)
     | None => open_create initialValues (dialog s)
     end)
    (if mounted s then mounts s else S (mounts s)) (inflight s) (app s).

Definition cancel (s : State) : State :=
  mkState (close destroyOnClose (dialog s)) (mounts s) (inflight s) (app s).

Definition fill (f : F) (s : State) : State :=
  mkState (type_fields f (dialog s)) (mounts s) (inflight s) (app s).

(** The form's [onFinish]: [handleSubmit] starts the mutation, whose
    request is now in flight for the mounted form. *)
Definition submit_request (s : State) : State :=
  match submit (dialog s) with
  | Some (Start m) => mkState (dialog s) (mounts s) (inflight s ++ [(mounts s, m)]) (app s)
  | Some (Show es) => mkState (dialog s) (mounts s) (inflight s) (App.run_effects (map Ui es) (app s))
  | None => s
  end.

(** What a callback's effect does to the dialog: [onSubmit] is the
    page's closing handler. *)
Definition dialog_effect (d : ModalForm.t T F) (e : Effect) : ModalForm.t T F :=
  match e with
  | Ui OnSubmit => close destroyOnClose d
  | _ => d
  end.

(** The [i]-th request in flight settles with the answer of [send]; the
    callbacks run on the page as it is now. *)
Definition settle_request (i : nat) (send : Request -> Outcome R) (s : State) : State :=
  match inflight s !! i with
  | Some (_, m) =>
      let sel := App.selectedUser (app s) in
      let es := callbacks m sel (App.mutate_result m sel send) in
      mkState (fold_left dialog_effect es (dialog s)) (mounts s) (delete i (inflight s))
        (App.run_effects es (app s))
  | None => s
  end.

(** The clicks of the dialog and the answers of the server. *)
Inductive Event :=
| Open (x : option T)                          (** an edit button, or Add / Create *)
| Cancel                                       (** the modal's [onCancel] *)
| Fill (f : F)                                 (** typing into the fields *)
| Submit                                       (** the submit button *)
| Settle (i : nat) (send : Request -> Outcome R).  (** the [i]-th request in flight settles *)

(** What may happen: the page's open buttons while the dialog is
    closed (its mask covers them otherwise), the dialog's controls while
    it is open, the submit button unless it is loading, and the answer
    to any request in flight. *)
Definition offered (s : State) (e : Event) : bool :=
  match e with
  | Open _ => negb (open (dialog s))
  | Cancel | Fill _ => open (dialog s)
  | Submit => open (dialog s) && negb (isPending s)
  | Settle i _ => bool_decide (is_Some (inflight s !! i))
  end.

Definition handle (e : Event) (s : State) : State :=
  match e with
  | Open x => open_with x s
  | Cancel => cancel s
  | Fill f => fill f s
  | Submit => submit_request s
  | Settle i send => settle_request i send s
  end.

Inductive step : relation State :=
| Step e s : offered s e = true -> step s (handle e s).

Definition init (a : App.App C) : State := mkState ModalForm.init 0 [] a.

Definition reachable (a : App.App C) (s : State) : Prop := rtc step (init a) s.

(** A sequence of events, each taken only if it may happen. *)
Definition run (es : list Event) (s : State) : option (list unit * State) :=
  run_clicks offered handle (λ _ _, tt) es s.

(** The shape of the requests in flight: each from a mount so far and
    from distinct mounts; an open dialog has its form mounted, and a
    mounted form was counted. *)
Definition wf (s : State) : Prop :=
  NoDup (fst <$> inflight s) /\ Forall (λ r, 1 <= r.1 <= mounts s)%nat (inflight s) /\
  (open (dialog s) = true -> is_Some (fields (dialog s))) /\
  (is_Some (fields (dialog s)) -> 1 <= mounts s)%nat.

(** A dialog that keeps its form mounted mounts it once. *)
Definition mounted_once (s : State) : Prop := mounts s = if mounted s then 1%nat else 0%nat.

End Dialog.
End InFlight.

Module InFlightSamples.
Import Posts InFlight.



(** On the users page: Add User, fill in Ani, Create; Cancel while the
    request is in flight; Add User again. *)
Definition users_clicks : list (Event (T:=Users.UserType) (F:=UserModal.UserFields) (R:=unit)) :=
  [Open None; Fill (UserModal.initialValues (Some Samples.user9)); Submit; Cancel; Open None].

Definition users_state : State :=
  match run UserModal.initialValues UserModal.destroyOnClose UserModal.submit users_clicks
          (init Samples.sample_app) with
  | Some (_, s) => s
  | None => init Samples.sample_app
  end.

Definition ani_data : Users.UserFormData :=
  Users.mkUserFormData "Ani" "ani@example.com" Users.Female Users.Inactive.


End InFlightSamples.

Module InFlightFacts.
Import Mutations ModalForm InFlight.

(** The mutations the three forms start. *)
Definition form_mutation (m : Mutation) : bool :=
  match m with
  | CreateUser _ | UpdateUser _ _ | CreateTodo _ | UpdateTodo _ _ | CreatePost _ | UpdatePost _ _ => true
  | _ => false
  end.

(** Among the callbacks of a form's mutation, [onSubmit] runs exactly
    on success: the [onError] of PostForm only writes field errors and
    the toast, the other forms have none. *)
Lemma form_callbacks_onSubmit {R} m sel (res : sum Thrown R) :
  form_mutation m = true ->
  bool_decide (Ui OnSubmit ∈ callbacks m sel res) = match res with inr _ => true | inl _ => false end.
Proof.
  destruct m; try discriminate; intros _; destruct res as [t|r]; simpl;
    unfold form_errors, show_general, invalidatePostQueries; repeat case_match; reflexivity.
Qed.

Section Facts.
Context {C D R : Type} `{!QueryClient C D}.
Context {T F : Type} (initialValues : option T -> F) (destroyOnClose : bool)
  (submit : ModalForm.t T F -> option Action).

Local Abbreviation St := (@State C T F).
Local Abbreviation step := (@InFlight.step C D R _ T F initialValues destroyOnClose submit).
Local Abbreviation reachable := (@InFlight.reachable C D R _ T F initialValues destroyOnClose submit).

Lemma close_idem (d : ModalForm.t T F) :
  close destroyOnClose (close destroyOnClose d) = close destroyOnClose d.
Proof. unfold close; simpl. by destruct destroyOnClose. Qed.

(** The callbacks close the dialog once if they call [onSubmit]. *)
Lemma dialog_effects es (d : ModalForm.t T F) :
  fold_left (dialog_effect destroyOnClose) es d =
    if bool_decide (Ui OnSubmit ∈ es) then close destroyOnClose d else d.
Proof using destroyOnClose.
  revert d; induction es as [|e es IH]; intros d; simpl; [done|]. rewrite IH.
  destruct (decide (e = Ui OnSubmit)) as [->|He]; simpl.
  - case_bool_decide; [apply close_idem|done].
  - replace (dialog_effect destroyOnClose d e) with d by (destruct e as [|[]]; done).
    apply (f_equal (λ b : bool, if b then _ else _)), bool_decide_ext.
    rewrite elem_of_cons. split; [by right|by intros [<-|?]].
Qed.

Lemma hook_pending_in upd (s : St) m :
  (mounts s, m) ∈ inflight s -> is_update m = upd -> hook_pending upd s = true.
Proof.
  intros Hin Hu. apply existsb_exists. exists (mounts s, m).
  split; [by apply list_elem_of_In|]. simpl. by rewrite Nat.eqb_refl, Hu, eqb_reflx.
Qed.

Lemma isPending_false (s : St) :
  isPending s = false -> mounts s ∉ fst <$> inflight s.
Proof.
  unfold isPending. intros [Hc Hu]%orb_false_iff ([g m] & Heq & Hin)%list_elem_of_fmap.
  simpl in Heq; subst g.
  destruct (is_update m) eqn:Hm; [rewrite (hook_pending_in true s m) in Hu|
    rewrite (hook_pending_in false s m) in Hc]; done.
Qed.

Lemma NoDup_const_length (l : list nat) k : NoDup l -> Forall (λ x, x = k) l -> (length l <= 1)%nat.
Proof.
  destruct l as [|x [|y l]]; simpl; [lia|lia|].
  rewrite NoDup_cons, !Forall_cons. intros [Hn _] (-> & -> & _). set_solver.
Qed.

Lemma settle_callbacks m sel (res : sum Thrown R) (a : App.App C) :
  App.settle m sel res a = App.run_effects (callbacks m sel res) a.
Proof. unfold App.settle, callbacks. destruct res as [t|]; [destruct (onError _ t)|]; done. Qed.

Lemma run_reachable a es acts (s : St) :
  run (R:=R) initialValues destroyOnClose submit es (init a) = Some (acts, s) -> reachable a s.
Proof.
  intros Hr. eapply rtc_subrel; [|eapply (run_clicks_rtc _ _ _ (λ x _ y, step x y)); [|exact Hr]].
  - by intros x y [_ ?].
  - intros x e Ho. by constructor.
Qed.

Lemma fields_close (d : ModalForm.t T F) :
  is_Some (fields (close destroyOnClose d)) -> is_Some (fields d).
Proof. unfold close; simpl. destruct destroyOnClose; [by intros [? ?]|done]. Qed.

Lemma fields_close_kept (d : ModalForm.t T F) :
  destroyOnClose = false -> fields (close destroyOnClose d) = fields d.
Proof. unfold close; simpl. by intros ->. Qed.

Lemma settle_dialog i (send : Request -> Outcome R) (s : St) g m :
  inflight s !! i = Some (g, m) ->
  dialog (settle_request destroyOnClose i send s) =
    let sel := App.selectedUser (app s) in
    if bool_decide (Ui OnSubmit ∈ callbacks m sel (App.mutate_result m sel send))
    then close destroyOnClose (dialog s) else dialog s.
Proof. unfold settle_request. intros ->. apply dialog_effects. Qed.

Lemma submit_request_dialog (s : St) :
  dialog (submit_request submit s) = dialog s /\ mounts (submit_request submit s) = mounts s.
Proof. unfold submit_request. by repeat case_match. Qed.

(** The invariant is preserved by every step, given that a form that is
    not loading has no request in flight ([isPending_false]). *)
Lemma step_wf (s0 s1 : St) :
  step s0 s1 -> (isPending s0 = false -> mounts s0 ∉ fst <$> inflight s0) -> wf s0 -> wf s1.
Proof.
  intros [e s Ho] Hpf (Hnd & Hb & Hom & Hm).
  destruct e as [x| |f| |i send]; simpl in Ho |- *.
  - unfold open_with, wf, mounted; simpl.
    split_and!; [done| |intros _; destruct x; eauto|intros _].
    + eapply Forall_impl; [exact Hb|]. simpl. intros r ?. case_bool_decide; lia.
    + case_bool_decide; [by apply Hm|lia].
  - unfold cancel, wf; simpl. split_and!; [done|done|done|]. intros ?%fields_close. auto.
  - unfold fill, wf; simpl. split_and!; auto.
  - apply andb_prop in Ho as [Ho Hp%negb_true_iff].
    unfold submit_request. destruct (submit (dialog s)) as [[m|es]|]; simpl; [|done|done].
    unfold wf; simpl. rewrite fmap_app, Forall_app, Forall_singleton, NoDup_app. simpl.
    split_and!; auto using NoDup_singleton.
    + intros x Hx ->%list_elem_of_singleton. by apply Hpf.
  - apply bool_decide_eq_true_1 in Ho as [[g m] Hl].
    unfold wf. rewrite (settle_dialog _ _ _ g m Hl).
    unfold settle_request; rewrite Hl; simpl. rewrite list_fmap_delete.
    split_and!; [eapply sublist_NoDup; [exact Hnd|apply sublist_delete]|by apply Forall_delete| |];
      case_bool_decide; auto; [done|intros ?%fields_close; auto].
Qed.

Lemma step_mounted_once (s0 s1 : St) :
  destroyOnClose = false -> step s0 s1 -> wf s0 -> mounted_once s0 -> mounted_once s1.
Proof.
  unfold mounted_once, mounted. intros Hd [e s Ho] (_ & _ & Hom & _) Hk.
  destruct e as [x| |f| |i send]; simpl in Ho |- *.
  - unfold open_with, mounted, open_edit, open_create, show in *.
    destruct x; simpl; revert Hk; case_bool_decide; lia.
  - unfold cancel; simpl. by rewrite Hd.
  - unfold fill; simpl. rewrite Hk, !bool_decide_eq_true_2; eauto.
  - by rewrite (proj1 (submit_request_dialog s)), (proj2 (submit_request_dialog s)).
  - apply bool_decide_eq_true_1 in Ho as [[g m] Hl].
    rewrite (settle_dialog _ _ _ g m Hl). unfold settle_request; rewrite Hl; simpl.
    destruct (bool_decide (Ui OnSubmit ∈ _)); [by rewrite fields_close_kept|done].
Qed.

(** C12: the loading button allows one request per mounted form: the
    requests in flight come from distinct mounts of the form, each
    counted; a dialog that keeps its form mounted (the users and todos
    dialogs) has at most one request in flight, whatever the user
    cancels and reopens meanwhile. *)
Theorem requests_one_per_mount (a : App.App C) (s : St) :
  reachable a s ->
  NoDup (fst <$> inflight s) /\ Forall (λ r, 1 <= r.1 <= mounts s)%nat (inflight s) /\
  (destroyOnClose = false -> (length (inflight s) <= 1)%nat).
Proof.
  intros Hr.
  assert (wf s /\ (destroyOnClose = false -> mounted_once s)) as [(Hnd & Hb & _) Hk].
  { refine (rtc_invariant _ (λ x, wf x /\ (destroyOnClose = false -> mounted_once x)) _ _ _ _ Hr).
    - intros x y [Hw Hx] Hs. split; [exact (step_wf x y Hs (isPending_false x) Hw)|]. intros Hd.
      apply (step_mounted_once x y Hd Hs Hw (Hx Hd)).
    - split; [|intros; reflexivity]. unfold wf; simpl.
      split_and!; [constructor|constructor|done|by intros [? ?]]. }
  split_and!; [done|done|]. intros Hd. rewrite <- (length_fmap fst).
  apply (NoDup_const_length _ 1); [done|]. apply Forall_fmap.
  eapply Forall_impl; [exact Hb|]. unfold mounted_once in Hk. rewrite (Hk Hd).
  case_match; simpl; lia.
Qed.

(** C14: the answer to a request a form sent runs the mutation's
    callbacks on the application exactly as [App.settle] does, takes the
    request out of flight, and closes whatever the dialog shows exactly
    when the request succeeded ([onSubmit]); a failure leaves the
    dialog and its fields as they are. *)
Theorem settle_form_request i (send : Request -> Outcome R) (s : St) g m :
  inflight s !! i = Some (g, m) -> form_mutation m = true ->
  settle_request destroyOnClose i send s =
    let sel := App.selectedUser (app s) in
    let res := App.mutate_result m sel send in
    mkState (match res with inr _ => close destroyOnClose (dialog s) | inl _ => dialog s end)
      (mounts s) (delete i (inflight s)) (App.settle m sel res (app s)).
Proof.
  intros Hl Hf. unfold settle_request. rewrite Hl, dialog_effects, form_callbacks_onSubmit by done.
  simpl. rewrite settle_callbacks. by destruct (App.mutate_result _ _ _).
Qed.

End Facts.

Section PostsDialog.
Import Posts InFlightSamples.
Context {C D R : Type} `{!QueryClient C D}.




End PostsDialog.
End InFlightFacts.

Module InFlightWitnesses.
Import ModalForm InFlight InFlightSamples InFlightFacts.

Lemma users_state_reachable :
  reachable (R:=unit) UserModal.initialValues UserModal.destroyOnClose UserModal.submit
    Samples.sample_app users_state.
Proof.
  apply (run_reachable UserModal.initialValues UserModal.destroyOnClose UserModal.submit
           Samples.sample_app users_clicks [tt; tt; tt; tt; tt] users_state).
  vm_compute. reflexivity.
Qed.

Lemma requests_one_per_mount_witness :
  button users_state = Some (mkSubmitButton "Create" true) /\
  inflight users_state = [(1%nat, Mutations.CreateUser ani_data)] /\
  (length (inflight users_state) <= 1)%nat.
Proof.
  split_and!; [reflexivity|reflexivity|].
  exact (proj2 (proj2 (requests_one_per_mount _ _ _ _ _ users_state_reachable)) eq_refl).
Defined.

Lemma settle_form_request_witness :
  settle_request UserModal.destroyOnClose 0 Samples.send_ok users_state =
    mkState (close UserModal.destroyOnClose (dialog users_state)) 1 []
      (App.settle (Mutations.CreateUser ani_data) (Some Samples.user7) (inr tt) Samples.sample_app).
Proof.
  rewrite (settle_form_request _ 0 Samples.send_ok users_state 1 (Mutations.CreateUser ani_data));
    reflexivity.
Defined.


End InFlightWitnesses.
